(** * dupe-linker: a shallow embedding of [dupe-linker.py]

    The program walks a directory, hashes every candidate file with
    SHA-256, keeps one row per digest in an SQLite table and replaces
    every later file of the same digest by a symbolic link to the first.

    Layout of the development:
    - [Py]      the Python string operations the source relies on;
    - [OsPath]  [os.path.splitext], [os.path.join], [os.path.basename];
    - [Sha256]  [hashlib.sha256] (FIPS 180-4) and its hexadecimal digest;
    - [Fs]      the directory tree, [os.walk] and the [os.*] calls;
    - [Sqlite]  the [files] table with its UNIQUE column;
    - the functions of [dupe-linker.py] under their own names ([main],
      which parses the command line and calls [process_files], is left
      out);
    - the properties. *)

From Stdlib Require Import String Ascii List ZArith Lia Bool Permutation.
From Stdlib Require Strings.Byte.
Import ListNotations.

Local Open Scope string_scope.
Local Open Scope Z_scope.
Local Open Scope list_scope.

(* ------------------------------------------------------------------ *)
(** ** Python strings *)

Module Py.

(** [len(s)] *)
Definition len (s : string) : Z := Z.of_nat (String.length s).

(** [s.rfind(c)] for a one-character [c]: the highest index of [c] in
    [s], or -1.  [i] is the index of the head of [s] and [acc] the best
    index seen so far. *)
Fixpoint rfind_from (c : ascii) (s : string) (i acc : Z) : Z :=
  match s with
  | EmptyString => acc
  | String a s' => rfind_from c s' (i + 1) (if Ascii.eqb a c then i else acc)
  end.

Definition rfind (c : ascii) (s : string) : Z := rfind_from c s 0 (-1).

(** [s[:n]] and [s[n:]] for [0 <= n]. *)
Fixpoint take (n : nat) (s : string) : string :=
  match n, s with
  | S n', String a s' => String a (take n' s')
  | _, _ => EmptyString
  end.

Fixpoint drop (n : nat) (s : string) : string :=
  match n, s with
  | S n', String _ s' => drop n' s'
  | _, _ => s
  end.

Definition slice_to (s : string) (i : Z) : string := take (Z.to_nat i) s.
Definition slice_from (s : string) (i : Z) : string := drop (Z.to_nat i) s.

(** [s[i:i+1] == c] *)
Definition char_is (s : string) (i : Z) (c : ascii) : bool :=
  match String.get (Z.to_nat i) s with
  | Some a => Ascii.eqb a c
  | None => false
  end.

(** [s.startswith(c)] and [s.endswith(c)] for a one-character [c]. *)
Definition startswith (s : string) (c : ascii) : bool :=
  match s with
  | String a _ => Ascii.eqb a c
  | EmptyString => false
  end.

Fixpoint endswith (s : string) (c : ascii) : bool :=
  match s with
  | EmptyString => false
  | String a EmptyString => Ascii.eqb a c
  | String _ s' => endswith s' c
  end.

(** [c in s] for a one-character [c]. *)
Fixpoint contains (c : ascii) (s : string) : bool :=
  match s with
  | EmptyString => false
  | String a s' => Ascii.eqb a c || contains c s'
  end.

(** [x in xs] for a list of strings: equality of strings, so the test
    is exact and case-sensitive. *)
Definition mem (x : string) (xs : list string) : bool :=
  existsb (String.eqb x) xs.

End Py.

(* ------------------------------------------------------------------ *)
(** ** os.path (posixpath) *)

Module OsPath.

Definition sep : ascii := "/"%char.
Definition extsep : ascii := "."%char.

(** The loop of [genericpath._splitext] that skips the leading dots of
    the file name: [n] bounds the iterations left, which is
    [dotIndex - filenameIndex]. *)
Fixpoint skip_leading_dots (n : nat) (p : string) (filenameIndex dotIndex : Z)
  : string * string :=
  match n with
  | O => (p, "")
  | S n' =>
      if filenameIndex <? dotIndex then
        if negb (Py.char_is p filenameIndex extsep)
        then (Py.slice_to p dotIndex, Py.slice_from p dotIndex)
        else skip_leading_dots n' p (filenameIndex + 1) dotIndex
      else (p, "")
  end.

(** [os.path.splitext(p)] *)
Definition splitext (p : string) : string * string :=
  let sepIndex := Py.rfind sep p in
  let dotIndex := Py.rfind extsep p in
  if dotIndex >? sepIndex then
    let filenameIndex := sepIndex + 1 in
    skip_leading_dots (Z.to_nat (dotIndex - filenameIndex)) p filenameIndex dotIndex
  else (p, "").

(** [os.path.join(a, b)] *)
Definition join (a b : string) : string :=
  if Py.startswith b sep then b
  else if (String.eqb a "" || Py.endswith a sep)%bool then (a ++ b)%string
  else (a ++ "/" ++ b)%string.

(** [os.path.basename(p)] *)
Definition basename (p : string) : string :=
  Py.slice_from p (Py.rfind sep p + 1).

End OsPath.

(* ------------------------------------------------------------------ *)
(** ** hashlib.sha256 (FIPS 180-4) *)

Module Sha256.

Definition modulus : Z := 4294967296.

(** Addition of 32-bit words wraps around. *)
Definition add32 (x y : Z) : Z := (x + y) mod modulus.

Definition rotr (n x : Z) : Z :=
  Z.lor (Z.shiftr x n) ((Z.shiftl x (32 - n)) mod modulus).

Definition shr (n x : Z) : Z := Z.shiftr x n.

Definition not32 (x : Z) : Z := Z.lxor x (modulus - 1).

Definition Ch (x y z : Z) : Z := Z.lxor (Z.land x y) (Z.land (not32 x) z).
Definition Maj (x y z : Z) : Z :=
  Z.lxor (Z.lxor (Z.land x y) (Z.land x z)) (Z.land y z).
Definition Sigma0 (x : Z) : Z := Z.lxor (Z.lxor (rotr 2 x) (rotr 13 x)) (rotr 22 x).
Definition Sigma1 (x : Z) : Z := Z.lxor (Z.lxor (rotr 6 x) (rotr 11 x)) (rotr 25 x).
Definition sigma0 (x : Z) : Z := Z.lxor (Z.lxor (rotr 7 x) (rotr 18 x)) (shr 3 x).
Definition sigma1 (x : Z) : Z := Z.lxor (Z.lxor (rotr 17 x) (rotr 19 x)) (shr 10 x).

(** The first sixty-four primes. *)
Definition primes : list Z :=
  [2; 3; 5; 7; 11; 13; 17; 19; 23; 29; 31; 37; 41; 43; 47; 53;
   59; 61; 67; 71; 73; 79; 83; 89; 97; 101; 103; 107; 109; 113; 127; 131;
   137; 139; 149; 151; 157; 163; 167; 173; 179; 181; 191; 193; 197; 199;
   211; 223; 227; 229; 233; 239; 241; 251; 257; 263; 269; 271; 277; 281;
   283; 293; 307; 311].

(** Integer cube root by bisection on [lo, hi): the largest [r] with
    [r^3 <= x]. *)
Fixpoint cbrt_between (fuel : nat) (x lo hi : Z) : Z :=
  match fuel with
  | O => lo
  | S fuel' =>
      if hi - lo <=? 1 then lo
      else
        let mid := (lo + hi) / 2 in
        if mid * mid * mid <=? x then cbrt_between fuel' x mid hi
        else cbrt_between fuel' x lo mid
  end.

Definition cbrt (x : Z) : Z := cbrt_between 200 x 0 (x + 1).

(** The round constants: the first 32 bits of the fractional parts of
    the cube roots of the primes. *)
Definition K : list Z :=
  Eval vm_compute in map (fun p => cbrt (p * 2 ^ 96) mod modulus) primes.

Record registers : Type := Regs { ra : Z; rb : Z; rc : Z; rd : Z;
                                  re : Z; rf : Z; rg : Z; rh : Z }.

(** The initial hash value: the first 32 bits of the fractional parts
    of the square roots of the first eight primes. *)
Definition H0 : registers :=
  Eval vm_compute in
    let f p := Z.sqrt (p * 2 ^ 64) mod modulus in
    Regs (f 2) (f 3) (f 5) (f 7) (f 11) (f 13) (f 17) (f 19).

Definition byte_val (b : Byte.byte) : Z := Z.of_N (Byte.to_N b).

(** The big-endian 64-bit length field. *)
Definition length_field (bits : Z) : list Z :=
  map (fun i => (Z.shiftr bits (8 * (7 - Z.of_nat i))) mod 256) (seq 0 8).

(** Padding: a one bit, zeros up to 56 mod 64, the bit length. *)
Definition pad (msg : list Z) : list Z :=
  let n := Z.of_nat (length msg) in
  msg ++ [128] ++ repeat 0 (Z.to_nat ((55 - n) mod 64))
      ++ length_field ((8 * n) mod 2 ^ 64).

(** Four bytes, most significant first, as one word. *)
Fixpoint words (l : list Z) : list Z :=
  match l with
  | b0 :: b1 :: b2 :: b3 :: l' =>
      (b0 * 16777216 + b1 * 65536 + b2 * 256 + b3) :: words l'
  | _ => []
  end.

(** The 64-byte blocks of a padded message. *)
Fixpoint blocks (fuel : nat) (l : list Z) : list (list Z) :=
  match fuel, l with
  | S fuel', _ :: _ => firstn 64 l :: blocks fuel' (skipn 64 l)
  | _, _ => []
  end.

(** The message schedule: sixteen words of the block, then forty-eight
    derived ones. *)
Fixpoint extend (n : nat) (w : list Z) : list Z :=
  match n with
  | O => w
  | S n' =>
      let i := length w in
      let at_ k := nth (i - k) w 0 in
      extend n' (w ++ [add32 (add32 (sigma1 (at_ 2%nat)) (at_ 7%nat))
                             (add32 (sigma0 (at_ 15%nat)) (at_ 16%nat))])
  end.

Definition schedule (block : list Z) : list Z := extend 48 (words block).

Definition round (r : registers) (kw : Z * Z) : registers :=
  let '(k, w) := kw in
  let t1 := add32 (add32 (add32 (rh r) (Sigma1 (re r)))
                         (add32 (Ch (re r) (rf r) (rg r)) k)) w in
  let t2 := add32 (Sigma0 (ra r)) (Maj (ra r) (rb r) (rc r)) in
  Regs (add32 t1 t2) (ra r) (rb r) (rc r) (add32 (rd r) t1) (re r) (rf r) (rg r).

Definition compress (h : registers) (block : list Z) : registers :=
  let r := fold_left round (combine K (schedule block)) h in
  Regs (add32 (ra h) (ra r)) (add32 (rb h) (rb r))
       (add32 (rc h) (rc r)) (add32 (rd h) (rd r))
       (add32 (re h) (re r)) (add32 (rf h) (rf r))
       (add32 (rg h) (rg r)) (add32 (rh h) (rh r)).

Definition digest (msg : list Byte.byte) : registers :=
  let padded := pad (map byte_val msg) in
  fold_left compress (blocks (length padded) padded) H0.

Definition hexchars : list ascii :=
  list_ascii_of_string "0123456789abcdef".

Definition nibble (x : Z) : ascii := nth (Z.to_nat (x mod 16)) hexchars "0"%char.

(** Eight lower-case hexadecimal digits of a word. *)
Definition hex32 (x : Z) (rest : string) : string :=
  String (nibble (Z.shiftr x 28)) (String (nibble (Z.shiftr x 24))
 (String (nibble (Z.shiftr x 20)) (String (nibble (Z.shiftr x 16))
 (String (nibble (Z.shiftr x 12)) (String (nibble (Z.shiftr x 8))
 (String (nibble (Z.shiftr x 4)) (String (nibble x) rest))))))).

Definition hex (r : registers) : string :=
  hex32 (ra r) (hex32 (rb r) (hex32 (rc r) (hex32 (rd r)
 (hex32 (re r) (hex32 (rf r) (hex32 (rg r) (hex32 (rh r) ""))))))).

(** The hash object: [hashlib.sha256()], [update], [hexdigest].
    Repeated calls of [update] are equivalent to one call on the
    concatenation of their arguments, so the object is the data it has
    absorbed. *)
Record hasher : Type := Hasher { absorbed : list Byte.byte }.

Definition new : hasher := Hasher [].
Definition update (h : hasher) (chunk : list Byte.byte) : hasher :=
  Hasher (absorbed h ++ chunk).
Definition hexdigest (h : hasher) : string := hex (digest (absorbed h)).

End Sha256.

(* ------------------------------------------------------------------ *)
(** ** Exceptions and results *)

Inductive exn : Type :=
| FileNotFoundError
| IsADirectoryError
| NotADirectoryError
| FileExistsError
| IntegrityError.

Inductive result (A : Type) : Type :=
| Ok (a : A)
| Raise (e : exn).

Arguments Ok {A} a.
Arguments Raise {A} e.

Definition bind {A B : Type} (r : result A) (k : A -> result B) : result B :=
  match r with
  | Ok a => k a
  | Raise e => Raise e
  end.

Notation "x <- r ;; k" := (bind r (fun x => k))
  (at level 61, r at next level, right associativity).

(** A [for] loop whose body yields: the yields of all iterations in
    order, or the first exception. *)
Fixpoint for_each {A B : Type} (body : A -> result (list B)) (l : list A)
  : result (list B) :=
  match l with
  | [] => Ok []
  | a :: l' =>
      ys <- body a ;;
      zs <- for_each body l' ;;
      Ok (ys ++ zs)
  end.

(* ------------------------------------------------------------------ *)
(** ** The file system under the scanned directory *)

Module Fs.

#[local] Unset Elimination Schemes.

(** What a path names: a regular file with its bytes, a symbolic link
    with its target, or a directory with the size [stat] reports for
    it and its entries in the order [scandir] lists them.  Permissions
    and the limits of the operating system are not modelled: a call
    fails only for what the tree holds at its path. *)
Inductive node : Type :=
| File (content : list Byte.byte)
| Symlink (target : string)
| Dir (st_size : Z) (entries : list (string * node)).

#[local] Set Elimination Schemes.

Definition listing : Type := list (string * node).

Definition is_dir (n : node) : bool :=
  match n with Dir _ _ => true | _ => false end.

(** A name a directory entry can have. *)
Definition valid_name (c : string) : bool :=
  negb (String.eqb c "") && negb (String.eqb c ".") && negb (String.eqb c "..")
  && negb (Py.contains OsPath.sep c).

Definition lookup_name (c : string) (es : listing) : option node :=
  option_map snd (find (fun e => String.eqb (fst e) c) es).

(** The directory [top] as the prefix of the paths below it. *)
Definition dir_prefix (top : string) : string :=
  if (String.eqb top "" || Py.endswith top OsPath.sep)%bool then top
  else (top ++ "/")%string.

Fixpoint strip_prefix (pre p : string) : option string :=
  match pre, p with
  | EmptyString, _ => Some p
  | String a pre', String b p' =>
      if Ascii.eqb a b then strip_prefix pre' p' else None
  | String _ _, EmptyString => None
  end.

(** [s.split("/")] *)
Fixpoint split (s : string) : list string :=
  match s with
  | EmptyString => [""]
  | String a s' =>
      if Ascii.eqb a OsPath.sep then "" :: split s'
      else match split s' with
           | c :: cs => String a c :: cs
           | [] => [String a ""]
           end
  end.

(** The names a path below [top] goes through.  Paths that leave the
    tree, or that are not spelled the way [os.walk] spells them from
    [top], are outside the model: they name nothing here, also where
    the operating system would resolve them to a file of the tree.
    What is stated of a path is therefore stated of the paths of the
    walk, and of places in the tree by their names ([resolve]). *)
Definition components (top p : string) : option (list string) :=
  match strip_prefix (dir_prefix top) p with
  | Some rel =>
      let cs := split rel in
      if forallb valid_name cs then Some cs else None
  | None => None
  end.

(** The path of the names [cs] below [top]. *)
Definition render (top : string) (cs : list string) : string :=
  (dir_prefix top ++ String.concat "/" cs)%string.

(** Name by name from the node [n]; a link in the middle of a path is
    not followed. *)
Fixpoint resolve (n : node) (cs : list string) : option node :=
  match cs with
  | [] => Some n
  | c :: cs' =>
      match n with
      | Dir _ es =>
          match lookup_name c es with
          | Some child => resolve child cs'
          | None => None
          end
      | _ => None
      end
  end.

(** The node a path names in the tree [fs] that hangs at [top]. *)
Definition node_at (top : string) (fs : node) (p : string) : option node :=
  match components top p with
  | Some cs => resolve fs cs
  | None => None
  end.

Section WithLinks.

(** What a symbolic link resolves to, given its own path and its
    target: the file or directory at the end of the chain, or
    nothing when the link dangles.  Targets may lie anywhere, also
    outside the tree, so this is a parameter of the model. *)
Variable follow : string -> string -> option node.

(** [os.path.islink(p)] *)
Definition islink (top : string) (fs : node) (p : string) : bool :=
  match node_at top fs p with
  | Some (Symlink _) => true
  | _ => false
  end.

(** [stat] through links. *)
Definition stat (top : string) (fs : node) (p : string) : result node :=
  match node_at top fs p with
  | Some (Symlink target) =>
      match follow p target with
      | Some (Symlink _) | None => Raise FileNotFoundError
      | Some n => Ok n
      end
  | Some n => Ok n
  | None => Raise FileNotFoundError
  end.

(** [os.path.getsize(p)] *)
Definition getsize (top : string) (fs : node) (p : string) : result Z :=
  n <- stat top fs p ;;
  match n with
  | File content => Ok (Z.of_nat (length content))
  | Dir st_size _ => Ok st_size
  | Symlink _ => Raise FileNotFoundError
  end.

(** [open(p, "rb")] and reading to the end. *)
Definition open_rb (top : string) (fs : node) (p : string)
  : result (list Byte.byte) :=
  n <- stat top fs p ;;
  match n with
  | File content => Ok content
  | Dir _ _ => Raise IsADirectoryError
  | Symlink _ => Raise FileNotFoundError
  end.

(** [DirEntry.is_dir()]: through links. *)
Definition entry_is_dir (path : string) (n : node) : bool :=
  match n with
  | Dir _ _ => true
  | Symlink target =>
      match follow path target with
      | Some (Dir _ _) => true
      | _ => false
      end
  | File _ => false
  end.

Definition dirs (top : string) (es : listing) : list string :=
  map fst (filter (fun e => entry_is_dir (OsPath.join top (fst e)) (snd e)) es).

Definition nondirs (top : string) (es : listing) : list string :=
  map fst (filter (fun e => negb (entry_is_dir (OsPath.join top (fst e)) (snd e))) es).

(** [os.walk(top)], top down, links to directories listed but not
    entered. *)
Fixpoint walk (top : string) (n : node)
  : list (string * list string * list string) :=
  match n with
  | Dir _ es =>
      (top, dirs top es, nondirs top es)
      :: flat_map (fun e : string * node =>
                     let (name, child) := e in
                     walk (OsPath.join top name) child) es
  | _ => []
  end.

(** [os.walk(directory)] on the tree [fs] that hangs at [directory].
    An empty path names no directory, and the error of the scan is
    swallowed. *)
Definition os_walk (directory : string) (fs : node) :=
  if String.eqb directory "" then [] else walk directory fs.

End WithLinks.

Definition replace_entry (c : string) (n : node) (es : listing) : listing :=
  map (fun e => if String.eqb (fst e) c then (c, n) else e) es.

Definition without (c : string) (es : listing) : listing :=
  filter (fun e => negb (String.eqb (fst e) c)) es.

(** Unlink the entry that the names [cs] lead to. *)
Fixpoint remove_at (n : node) (cs : list string) : result node :=
  match cs, n with
  | [], _ => Raise IsADirectoryError
  | _ :: _, File _ | _ :: _, Symlink _ => Raise NotADirectoryError
  | c :: cs', Dir sz es =>
      match lookup_name c es, cs' with
      | None, _ => Raise FileNotFoundError
      | Some (Dir _ _), [] => Raise IsADirectoryError
      | Some _, [] => Ok (Dir sz (without c es))
      | Some child, _ :: _ =>
          child' <- remove_at child cs' ;;
          Ok (Dir sz (replace_entry c child' es))
      end
  end.

(** Add a link at the end of the directory that the names lead to. *)
Fixpoint symlink_at (target : string) (n : node) (cs : list string) : result node :=
  match cs, n with
  | [], _ => Raise FileExistsError
  | _ :: _, File _ | _ :: _, Symlink _ => Raise NotADirectoryError
  | c :: cs', Dir sz es =>
      match lookup_name c es, cs' with
      | None, [] => Ok (Dir sz (es ++ [(c, Symlink target)]))
      | None, _ :: _ => Raise FileNotFoundError
      | Some _, [] => Raise FileExistsError
      | Some child, _ :: _ =>
          child' <- symlink_at target child cs' ;;
          Ok (Dir sz (replace_entry c child' es))
      end
  end.

(** [os.remove(p)] *)
Definition remove (top : string) (fs : node) (p : string) : result node :=
  match components top p with
  | Some cs => remove_at fs cs
  | None => Raise FileNotFoundError
  end.

(** [os.symlink(target, p)]: the target is stored as it is given, and
    what it resolves to is not looked at.  That the operating system
    refuses an empty target is a limit that is not modelled. *)
Definition symlink (top : string) (fs : node) (target p : string) : result node :=
  match components top p with
  | Some cs => symlink_at target fs cs
  | None => Raise FileNotFoundError
  end.

(** A node without what lies below it. *)
Definition shallow (n : node) : node :=
  match n with
  | Dir sz _ => Dir sz []
  | _ => n
  end.

(** Entries of a directory have distinct, valid names, all the way
    down. *)
Inductive wf : node -> Prop :=
| wf_File content : wf (File content)
| wf_Symlink target : wf (Symlink target)
| wf_Dir sz es :
    NoDup (map fst es) ->
    Forall (fun e => valid_name (fst e) = true) es ->
    (forall name child, In (name, child) es -> wf child) ->
    wf (Dir sz es).

End Fs.

(* ------------------------------------------------------------------ *)
(** ** The SQLite table [files] *)

Module Sqlite.

(** A row of
    [files (id INTEGER PRIMARY KEY AUTOINCREMENT, filename TEXT NOT NULL,
            path TEXT NOT NULL, sha256 TEXT NOT NULL UNIQUE)]. *)
Record row : Type := Row { id : Z; filename : string; path : string; sha256 : string }.

(** The table in rowid order, and the AUTOINCREMENT counter.  Limits
    of the store (disk space, the largest rowid) are not modelled. *)
Record database : Type := Db { files : list row; sqlite_sequence : Z }.

Definition empty : database := Db [] 0.

(** [CREATE TABLE IF NOT EXISTS files (...)] on a database file that
    has the table ([Some]) or has not ([None]). *)
Definition create_table_if_not_exists (store : option database) : database :=
  match store with
  | Some d => d
  | None => empty
  end.

Definition has_sha256 (h : string) (r : row) : bool := String.eqb (sha256 r) h.

(** [SELECT id, path, sha256 FROM files WHERE sha256=?] and [fetchone]. *)
Definition select_by_sha256 (h : string) (d : database) : option (Z * string * string) :=
  option_map (fun r => (id r, path r, sha256 r)) (find (has_sha256 h) (files d)).

Definition next_id (d : database) : Z :=
  1 + fold_left Z.max (map id (files d)) (sqlite_sequence d).

(** [INSERT INTO files (filename, path, sha256) VALUES (?, ?, ?)]: the
    UNIQUE column refuses a second row of the same [sha256]. *)
Definition insert (name p h : string) (d : database) : result database :=
  if existsb (has_sha256 h) (files d) then Raise IntegrityError
  else
    let i := next_id d in
    Ok (Db (files d ++ [Row i name p h]) i).

(** No two rows share a digest. *)
Definition unique (d : database) : Prop := NoDup (map sha256 (files d)).

End Sqlite.

(* ------------------------------------------------------------------ *)
(** ** dupe-linker.py *)

(** What the program prints. *)
Inductive line : Type :=
| Symlinking (file_path target : string) (new_savings : Z)
| CanBeSymlinked (file_path target : string) (new_savings : Z)
| AddedNewFile (file_path hash_value : string)
| TotalPossibleSavings (total_savings : Z)
| Saved (total_savings : Z).

(** What the loop of [process_files] works on: the tree under
    [directory], the connected database, the local [total_savings] and
    the output so far. *)
Record state : Type := State {
  fs : Fs.node;
  db : Sqlite.database;
  total_savings : Z;
  stdout : list line
}.

(** A step of the program: a value or an exception, and the state it
    leaves. *)
Definition M (A : Type) : Type := state -> result A * state.

Definition ret {A : Type} (a : A) : M A := fun s => (Ok a, s).

Definition and_then {A B : Type} (m : M A) (k : A -> M B) : M B :=
  fun s =>
    match m s with
    | (Ok a, s') => k a s'
    | (Raise e, s') => (Raise e, s')
    end.

Notation "x <~ m ;; k" := (and_then m (fun x => k))
  (at level 61, m at next level, right associativity).
Notation "m ;;; k" := (and_then m (fun _ => k))
  (at level 61, right associativity).

(** [for x in l: body(x)] *)
Fixpoint for_in {A : Type} (l : list A) (body : A -> M unit) : M unit :=
  match l with
  | [] => ret tt
  | x :: l' => body x ;;; for_in l' body
  end.

Definition print (l : line) : M unit :=
  fun s => (Ok tt, State (fs s) (db s) (total_savings s) (stdout s ++ [l])).

(** [db_connect(filename)]: the table of the database file, created
    empty when the file does not have it. *)
Definition db_connect (database_file : option Sqlite.database) : Sqlite.database :=
  Sqlite.create_table_if_not_exists database_file.

(** [lookup_hash(hash)]: the row as the tuple [(id, path, sha256)], or
    [None]. *)
Definition lookup_hash (hash : string) : M (option (Z * string * string)) :=
  fun s => (Ok (Sqlite.select_by_sha256 hash (db s)), s).

(** [save_hash(file_path, hash)] *)
Definition save_hash (file_path hash : string) : M unit :=
  fun s =>
    let file := OsPath.basename file_path in
    match Sqlite.insert file file_path hash (db s) with
    | Ok d => (Ok tt, State (fs s) d (total_savings s) (stdout s))
    | Raise e => (Raise e, s)
    end.

(** The chunks [f.read(4096)] returns until it returns [b""], each fed
    to [update].  A read of a non-empty rest shortens it, so
    [length f + 1] rounds are enough. *)
Fixpoint read_chunks (rounds : nat) (f : list Byte.byte) (sha256_hash : Sha256.hasher)
  : Sha256.hasher :=
  match rounds with
  | O => sha256_hash
  | S rounds' =>
      match firstn 4096 f with
      | [] => sha256_hash
      | chunk => read_chunks rounds' (skipn 4096 f) (Sha256.update sha256_hash chunk)
      end
  end.

(** The rest of the system changes the tree while the program runs. *)
Definition interfere (change : Fs.node -> Fs.node) : M unit :=
  fun s => (Ok tt, State (change (fs s)) (db s) (total_savings s) (stdout s)).

Section Program.

(** What links resolve to ([Fs.follow]) and the order in which the
    pool's futures complete are not the program's choice. *)
Variable follow : string -> string -> option Fs.node.
Variable as_completed :
  list (result (string * string)) -> list (result (string * string)).

(** [calculate_file_hash(file_path)], run by a worker on the tree
    [tree] that hangs at [directory]. *)
Definition calculate_file_hash (directory : string) (tree : Fs.node) (file_path : string)
  : result (string * string) :=
  f <- Fs.open_rb follow directory tree file_path ;;
  let sha256_hash := read_chunks (S (length f)) f Sha256.new in
  Ok (file_path, Sha256.hexdigest sha256_hash).

(** The body of the inner loop of [traverse_directory]: what one
    [file] of [root] yields. *)
Definition visit (directory : string) (extensions : list string) (tree : Fs.node)
           (root file : string) : result (list string) :=
  let ext := snd (OsPath.splitext file) in
  if Py.mem ext extensions then
    let file_path := OsPath.join root file in
    if Bool.eqb (Fs.islink directory tree file_path) false then
      size <- Fs.getsize follow directory tree file_path ;;
      if negb (size =? 0) then Ok [file_path] else Ok []
    else Ok []
  else Ok [].

(** [list(traverse_directory(directory, extensions))] *)
Definition traverse_directory (directory : string) (extensions : list string)
           (tree : Fs.node) : result (list string) :=
  for_each (fun triple : string * list string * list string =>
              let '(root, _, files) := triple in
              for_each (visit directory extensions tree root) files)
           (Fs.os_walk follow directory tree).

Definition getsize (directory file_path : string) : M Z :=
  fun s => (Fs.getsize follow directory (fs s) file_path, s).

Definition remove (directory file_path : string) : M unit :=
  fun s =>
    match Fs.remove directory (fs s) file_path with
    | Ok t => (Ok tt, State t (db s) (total_savings s) (stdout s))
    | Raise e => (Raise e, s)
    end.

Definition symlink (directory target file_path : string) : M unit :=
  fun s =>
    match Fs.symlink directory (fs s) target file_path with
    | Ok t => (Ok tt, State t (db s) (total_savings s) (stdout s))
    | Raise e => (Raise e, s)
    end.

Definition add_savings (new_savings : Z) : M unit :=
  fun s => (Ok tt, State (fs s) (db s) (total_savings s + new_savings) (stdout s)).

(** [future.result()]: the worker's value, or its exception raised
    again. *)
Definition future_result (future : result (string * string)) : M (string * string) :=
  fun s => (future, s).

(** The body of [for future in as_completed(futures)]. *)
Definition commit (dry_run : bool) (directory : string)
           (future : result (string * string)) : M unit :=
  r <~ future_result future ;;
  let '(file_path, hash_value) := r in
  result <~ lookup_hash hash_value ;;
  match result with
  | Some (_, path, _) =>
      if negb (String.eqb path file_path) then
        new_savings <~ getsize directory file_path ;;
        add_savings new_savings ;;;
        if Bool.eqb dry_run false then
          print (Symlinking file_path path new_savings) ;;;
          remove directory file_path ;;;
          symlink directory path file_path
        else
          print (CanBeSymlinked file_path path new_savings)
      else
        ret tt
  | None =>
      save_hash file_path hash_value ;;;
      print (AddedNewFile file_path hash_value)
  end.

(** The body of the loop while the rest of the system changes the tree
    by [after_remove] between [os.remove] and [os.symlink]. *)
Definition commit_amid (after_remove : Fs.node -> Fs.node)
           (dry_run : bool) (directory : string)
           (future : result (string * string)) : M unit :=
  r <~ future_result future ;;
  let '(file_path, hash_value) := r in
  result <~ lookup_hash hash_value ;;
  match result with
  | Some (_, path, _) =>
      if negb (String.eqb path file_path) then
        new_savings <~ getsize directory file_path ;;
        add_savings new_savings ;;;
        if Bool.eqb dry_run false then
          print (Symlinking file_path path new_savings) ;;;
          remove directory file_path ;;;
          interfere after_remove ;;;
          symlink directory path file_path
        else
          print (CanBeSymlinked file_path path new_savings)
      else
        ret tt
  | None =>
      save_hash file_path hash_value ;;;
      print (AddedNewFile file_path hash_value)
  end.

Definition print_total (dry_run : bool) : M unit :=
  fun s =>
    if dry_run then print (TotalPossibleSavings (total_savings s)) s
    else print (Saved (total_savings s)) s.

(** What a run leaves behind: the tree, the database file and what
    was printed. *)
Record world : Type := World {
  tree : Fs.node;
  database_file : option Sqlite.database;
  output : list line
}.

(** [process_files(directory, extensions, database_file)] with the
    global [dry_run], on the tree that hangs at [directory], while the
    rest of the system changes the tree by [after_scan] between the
    enumeration and the hashing, and by [after_hash] between the hashing
    and the loop.  The enumeration runs before [db_connect]; the
    futures all hash the same tree, since the loop touches a path only
    after its own future completed; the size of the pool bounds how
    many futures run at once and leaves every completion order
    possible; [db_close] changes nothing that was committed. *)
Definition process_files_amid (after_scan after_hash : Fs.node -> Fs.node)
           (dry_run : bool) (directory : string)
           (extensions : list string) (database_file : option Sqlite.database)
           (tree : Fs.node) : result unit * world :=
  match traverse_directory directory extensions tree with
  | Raise e => (Raise e, World tree database_file [])
  | Ok file_paths =>
      let connected := db_connect database_file in
      let hashed_tree := after_scan tree in
      let futures := map (calculate_file_hash directory hashed_tree) file_paths in
      let '(r, s) :=
        (for_in (as_completed futures) (commit dry_run directory) ;;;
         print_total dry_run)
          (State (after_hash hashed_tree) connected 0 []) in
      (r, World (fs s) (Some (db s)) (stdout s))
  end.

(** A run that nothing else interferes with. *)
Definition process_files : bool -> string -> list string ->
                           option Sqlite.database -> Fs.node -> result unit * world :=
  process_files_amid (fun tree => tree) (fun tree => tree).

End Program.

(** The lower-case hexadecimal digits. *)
Definition is_hexdigit (c : ascii) : bool :=
  existsb (Ascii.eqb c) Sha256.hexchars.

(** The chunks the loop of [calculate_file_hash] reads from a file of
    content [f], written as a list. *)
Fixpoint chunks (rounds : nat) (f : list Byte.byte) : list (list Byte.byte) :=
  match rounds with
  | O => []
  | S rounds' =>
      match firstn 4096 f with
      | [] => []
      | chunk => chunk :: chunks rounds' (skipn 4096 f)
      end
  end.

(** The files [traverse_directory] is to yield, as the names that lead
    to them from the scanned directory, in the order of the walk: the
    regular files of a directory whose extension is requested and whose
    size is not zero, then those of its subdirectories. *)
Definition wanted (extensions : list string) (e : string * Fs.node) : bool :=
  match snd e with
  | Fs.File content =>
      Py.mem (snd (OsPath.splitext (fst e))) extensions
      && negb (Z.of_nat (length content) =? 0)
  | _ => false
  end.

Fixpoint candidates (extensions : list string) (n : Fs.node) : list (list string) :=
  match n with
  | Fs.Dir _ es =>
      map (fun e => [fst e]) (filter (wanted extensions) es)
      ++ flat_map (fun e : string * Fs.node =>
                     let (name, child) := e in
                     map (cons name) (candidates extensions child)) es
  | _ => []
  end.

(** The directory reached from [directory] by the names [ds] is
    spelled [top]. *)
Definition spelled (directory : string) (ds : list string) (top : string) : Prop :=
  forall cs, cs <> [] -> Fs.render top cs = Fs.render directory (ds ++ cs).

(** What the outer loop of [traverse_directory] yields for one triple
    of the walk. *)
Definition yields (follow : string -> string -> option Fs.node)
           (directory : string) (extensions : list string) (root : Fs.node)
           (triple : string * list string * list string) : result (list string) :=
  let '(r, _, files) := triple in
  for_each (visit follow directory extensions root r) files.

(** Some character of the string is not a dot. *)
Fixpoint has_nondot (s : string) : bool :=
  match s with
  | EmptyString => false
  | String a s' => negb (Ascii.eqb a OsPath.extsep) || has_nondot s'
  end.

(** Every path but [p] names in [t'] what it names in [t]: the same
    file, the same link, or a directory of the same size. *)
Definition same_elsewhere (directory : string) (t' t : Fs.node) (p : string) : Prop :=
  forall q, q <> p ->
    option_map Fs.shallow (Fs.node_at directory t' q)
    = option_map Fs.shallow (Fs.node_at directory t q).

(** What a live loop over [order] makes of the state [s]: the tree
    stays well-formed and changes at the paths of [order] only; rows
    are added, never changed, and the added ones carry paths of
    [order]; and a file of [order] is afterwards either untouched and
    the row of its digest carries its path, or a link to the path of
    that row. *)
Record live (directory : string) (order : list (string * string)) (s s' : state)
  : Prop := {
  live_wf : Fs.wf (fs s) -> Fs.wf (fs s');
  live_frame : forall q, ~ In q (map fst order) ->
    option_map Fs.shallow (Fs.node_at directory (fs s') q)
    = option_map Fs.shallow (Fs.node_at directory (fs s) q);
  live_stable : forall h r,
    Sqlite.select_by_sha256 h (db s) = Some r ->
    Sqlite.select_by_sha256 h (db s') = Some r;
  live_new : forall h i path h',
    Sqlite.select_by_sha256 h (db s') = Some (i, path, h') ->
    Sqlite.select_by_sha256 h (db s) = Some (i, path, h')
    \/ (Sqlite.select_by_sha256 h (db s) = None /\ In (path, h) order);
  live_done : forall p h, In (p, h) order ->
    exists i path h',
      Sqlite.select_by_sha256 h (db s') = Some (i, path, h')
      /\ if String.eqb path p
         then Fs.node_at directory (fs s') p = Fs.node_at directory (fs s) p
         else Fs.node_at directory (fs s') p = Some (Fs.Symlink path)
}.

(** The path with the digest of the file it names. *)
Definition hashed (directory : string) (t : Fs.node) (p : string) : string * string :=
  match Fs.node_at directory t p with
  | Some (Fs.File content) => (p, Sha256.hex (Sha256.digest content))
  | _ => (p, "")
  end.

(** The files of a run: enumerated, regular, not empty, with their
    digests. *)
Definition enumerated (follow : string -> string -> option Fs.node)
           (directory : string) (extensions : list string)
           (t : Fs.node) (file_paths : list string)
           (order : list (string * string)) : Prop :=
  traverse_directory follow directory extensions t = Ok file_paths
  /\ Permutation file_paths (map fst order)
  /\ NoDup (map fst order)
  /\ forall p h, In (p, h) order ->
       In p file_paths
       /\ exists content,
            Fs.node_at directory t p = Some (Fs.File content)
            /\ content <> []
            /\ h = Sha256.hex (Sha256.digest content).

(* ------------------------------------------------------------------ *)
(** ** Sample trees *)

Module Sample.

(** No link resolves. *)
Definition nofollow (_ _ : string) : option Fs.node := None.

(** The futures complete in the order of submission, or in the reverse
    order. *)
Definition in_order (l : list (result (string * string))) := l.
Definition reversed (l : list (result (string * string))) := rev l.

Definition ab : list Byte.byte := [Byte.x61; Byte.x62].
Definition c : list Byte.byte := [Byte.x63].

Definition sha_ab : string :=
  "fb8e20fc2e4c3f248c60c39bd652f3c1347298bb977b8b4d5903b85055620603".
Definition sha_c : string :=
  "2e7d2c03a9507ae265ecf5b5356885a53393a2029d241394997265a1a25aefc6".

(** [a.bin] and [sub/b.bin] hold the same bytes, [c.bin] other ones;
    [e.bin] is empty, [sub/l.bin] a link, [n.txt] of another extension. *)
Definition models : Fs.node :=
  Fs.Dir 4096
    [("a.bin", Fs.File ab);
     ("e.bin", Fs.File []);
     ("sub", Fs.Dir 4096 [("b.bin", Fs.File ab); ("l.bin", Fs.Symlink "../a.bin")]);
     ("c.bin", Fs.File c);
     ("n.txt", Fs.File ab)].

(** Two files of the same bytes and nothing else. *)
Definition twins : Fs.node :=
  Fs.Dir 4096 [("a.bin", Fs.File ab); ("b.bin", Fs.File ab)].

(** Names around the extension [.bin]. *)
Definition dotted : Fs.node :=
  Fs.Dir 4096
    [(".bin", Fs.File ab); ("x.bin.txt", Fs.File ab); ("x.tar.bin", Fs.File c);
     ("X.BIN", Fs.File c)].

(** [a.bin], [b.bin] of the same bytes and [c.bin]. *)
Definition three : Fs.node :=
  Fs.Dir 4096 [("a.bin", Fs.File ab); ("b.bin", Fs.File ab); ("c.bin", Fs.File c)].

(** [three] after [a.bin] was deleted. *)
Definition a_deleted (_ : Fs.node) : Fs.node :=
  Fs.Dir 4096 [("b.bin", Fs.File ab); ("c.bin", Fs.File c)].

(** [three] after [b.bin] was replaced by a directory. *)
Definition b_replaced (_ : Fs.node) : Fs.node :=
  Fs.Dir 4096 [("a.bin", Fs.File ab); ("b.bin", Fs.Dir 4096 []); ("c.bin", Fs.File c)].

(** [three] after [b.bin] was removed and written again by somebody
    else, with other bytes. *)
Definition b_rewritten (_ : Fs.node) : Fs.node :=
  Fs.Dir 4096 [("a.bin", Fs.File ab); ("c.bin", Fs.File c); ("b.bin", Fs.File c)].

(** A table that holds the digest of [ab] under a path outside the
    scanned tree, as an earlier run on another directory leaves it. *)
Definition indexed : Sqlite.database :=
  Sqlite.Db [Sqlite.Row 1 "first.bin" "elsewhere/first.bin" sha_ab] 1.

(** A table that holds the digest of [ab] under the path of [a.bin]. *)
Definition registered : Sqlite.database :=
  Sqlite.Db [Sqlite.Row 1 "a.bin" "models/a.bin" sha_ab] 1.

End Sample.

(* ------------------------------------------------------------------ *)
(** ** The command line and the pool *)

(** A value argparse hands over: a default stays the Python value it
    was written as, and what the command line holds comes as a string
    unless the option names a [type]. *)
Inductive pyvalue : Type :=
| PyInt (n : Z)
| PyStr (s : string).

(** [-t/--threads] is declared with [default=4] and no [type]. *)
Definition threads_option (given : option string) : pyvalue :=
  match given with
  | None => PyInt 4
  | Some s => PyStr s
  end.

(** What [parser.parse_args()] returns. *)
Record namespace : Type := Namespace {
  arg_dry_run : bool;
  arg_dir : option string;
  arg_extensions : list string;
  arg_threads : pyvalue;
  arg_db_path : string
}.

(** How a call of [main] can end other than by returning: an exception
    of the program's own calls, or one of the pool's constructor. *)
Inductive failure : Type :=
| Exception (e : exn)
| TypeError
| ValueError.

(** [ThreadPoolExecutor(max_workers=...)]: the constructor tests
    [max_workers <= 0], which a string cannot be compared in. *)
Definition thread_pool_executor (max_workers : pyvalue) : option failure :=
  match max_workers with
  | PyInt n => if n <=? 0 then Some ValueError else None
  | PyStr _ => Some TypeError
  end.

(** The database files by their paths. *)
Definition disk : Type := string -> option Sqlite.database.

Definition write_file (d : disk) (db_path : string) (content : option Sqlite.database)
  : disk :=
  fun p => if String.eqb p db_path then content else d p.

(** What a call of [main] leaves: how it ended, whether the usage text
    was printed, the tree, the database files and the lines printed. *)
Record outcome : Type := Outcome {
  ended : option failure;
  help_printed : bool;
  tree_left : Fs.node;
  disk_left : disk;
  printed : list line
}.

(** [process_files] with the pool it opens in line 111, after the
    enumeration and before [db_connect], for the global
    [use_max_threads]. *)
Definition process_files_pooled
           (follow : string -> string -> option Fs.node)
           (as_completed : list (result (string * string)) -> list (result (string * string)))
           (dry_run : bool) (use_max_threads : pyvalue)
           (directory : string) (extensions : list string)
           (database_file : option Sqlite.database) (tree : Fs.node)
  : option failure * world :=
  match traverse_directory follow directory extensions tree with
  | Raise e => (Some (Exception e), World tree database_file [])
  | Ok _ =>
      match thread_pool_executor use_max_threads with
      | Some f => (Some f, World tree database_file [])
      | None =>
          let (r, w) :=
            process_files follow as_completed dry_run directory extensions
                          database_file tree in
          (match r with Ok _ => None | Raise e => Some (Exception e) end, w)
      end
  end.

(** [main()] after [parse_args]: [args.dir and args.extensions] holds
    for a directory that is given and not empty and a list that is not
    empty. *)
Definition main (follow : string -> string -> option Fs.node)
           (as_completed : list (result (string * string)) -> list (result (string * string)))
           (args : namespace) (d : disk) (t : Fs.node) : outcome :=
  match arg_dir args, arg_extensions args with
  | Some (String a dir'), _ :: _ =>
      let (f, w) :=
        process_files_pooled follow as_completed (arg_dry_run args) (arg_threads args)
                             (String a dir') (arg_extensions args)
                             (d (arg_db_path args)) t in
      Outcome f false (tree w)
              (write_file d (arg_db_path args) (database_file w)) (output w)
  | _, _ => Outcome None true t d []
  end.

(* ------------------------------------------------------------------ *)
(** ** Notions for the further properties *)

(** The bytes a line announces as saved. *)
Definition line_savings (l : line) : Z :=
  match l with
  | Symlinking _ _ n | CanBeSymlinked _ _ n => n
  | _ => 0
  end.

(** A line of a live run as a dry run words it. *)
Definition as_dry (l : line) : line :=
  match l with
  | Symlinking p target n => CanBeSymlinked p target n
  | Saved n => TotalPossibleSavings n
  | _ => l
  end.

(** The extension [os.path.splitext] can return: empty, or a dot and
    then neither a dot nor a separator. *)
Definition suffix_shaped (e : string) : bool :=
  match e with
  | EmptyString => true
  | String a s =>
      Ascii.eqb a OsPath.extsep
      && negb (Py.contains OsPath.extsep s) && negb (Py.contains OsPath.sep s)
  end.

(** The size of the file that [p] named in [before], when [p] names a
    link in [after]; zero otherwise. *)
Definition replaced_size (directory : string) (before after : Fs.node) (p : string) : Z :=
  match Fs.node_at directory after p, Fs.node_at directory before p with
  | Some (Fs.Symlink _), Some (Fs.File content) => Z.of_nat (length content)
  | _, _ => 0
  end.

Definition total (l : list Z) : Z := fold_right Z.add 0 l.

(** The lines the loop of a live run prints. *)
Definition loop_line (l : line) : Prop :=
  match l with
  | Symlinking _ _ _ | AddedNewFile _ _ => True
  | _ => False
  end.

(** The line a run ends with. *)
Definition total_line (l : line) : bool :=
  match l with
  | TotalPossibleSavings _ | Saved _ => true
  | _ => false
  end.

(** The table a loop leaves: a row is added for every digest that has
    none yet, under the path that completes first. *)
Fixpoint index_after (order : list (string * string)) (d : Sqlite.database)
  : Sqlite.database :=
  match order with
  | [] => d
  | (p, h) :: order' =>
      match Sqlite.insert (OsPath.basename p) p h d with
      | Ok d' => index_after order' d'
      | Raise _ => index_after order' d
      end
  end.

(* ================================================================== *)
(** * Properties *)

Example splitext_plain : OsPath.splitext "model.bin" = ("model", ".bin").
Proof. reflexivity. Qed.

Example splitext_in_dotted_directory :
  OsPath.splitext "v1.5/model" = ("v1.5/model", "").
Proof. reflexivity. Qed.

Example splitext_leading_dots : OsPath.splitext "...bin" = ("...bin", "").
Proof. reflexivity. Qed.

Example join_plain : OsPath.join "models" "a.bin" = "models/a.bin".
Proof. reflexivity. Qed.

Example join_after_slash : OsPath.join "models/" "a.bin" = "models/a.bin".
Proof. reflexivity. Qed.

Example basename_plain : OsPath.basename "models/sub/a.bin" = "a.bin".
Proof. reflexivity. Qed.

Example components_plain :
  Fs.components "models" "models/sub/b.bin" = Some ["sub"; "b.bin"].
Proof. reflexivity. Qed.

Example sha256_empty :
  Sha256.hexdigest Sha256.new
  = "e3b0c44298fc1c149afbf4c8996fb92427ae41e4649b934ca495991b7852b855".
Proof. vm_compute. reflexivity. Qed.

Example sha256_abc :
  Sha256.hexdigest (Sha256.update Sha256.new [Byte.x61; Byte.x62; Byte.x63])
  = "ba7816bf8f01cfea414140de5dae2223b00361a396177a9cb410ff61f20015ad".
Proof. vm_compute. reflexivity. Qed.

Example sha256_two_blocks :
  Sha256.hex (Sha256.digest (repeat Byte.x61 64))
  = "ffe054fe7ae0cb6dc65c3af9b61d5209f439851db43d0ba5997337df154668eb".
Proof. vm_compute. reflexivity. Qed.

(* ------------------------------------------------------------------ *)
(** ** The hasher *)

Section HasherFacts.

Lemma nibble_hexdigit x : is_hexdigit (Sha256.nibble x) = true.
Proof.
  unfold Sha256.nibble.
  destruct (nth_in_or_default (Z.to_nat (x mod 16)) Sha256.hexchars "0"%char) as [H | H].
  - revert H. generalize (nth (Z.to_nat (x mod 16)) Sha256.hexchars "0"%char).
    intros c H. unfold is_hexdigit. apply existsb_exists.
    exists c. split; [exact H | apply Ascii.eqb_refl].
  - rewrite H. reflexivity.
Qed.

Lemma hex32_length x rest :
  String.length (Sha256.hex32 x rest) = (8 + String.length rest)%nat.
Proof. reflexivity. Qed.

Lemma hex_length r : String.length (Sha256.hex r) = 64%nat.
Proof. unfold Sha256.hex. repeat rewrite hex32_length. reflexivity. Qed.

Lemma hex32_hexdigits x rest :
  Forall (fun c => is_hexdigit c = true) (list_ascii_of_string rest) ->
  Forall (fun c => is_hexdigit c = true) (list_ascii_of_string (Sha256.hex32 x rest)).
Proof.
  intros H. unfold Sha256.hex32. cbn [list_ascii_of_string].
  repeat (constructor; [apply nibble_hexdigit | ]). exact H.
Qed.

Lemma hex_hexdigits r :
  Forall (fun c => is_hexdigit c = true) (list_ascii_of_string (Sha256.hex r)).
Proof.
  unfold Sha256.hex. repeat apply hex32_hexdigits. constructor.
Qed.

(** The loop feeds the hasher exactly the chunks of [chunks]. *)
Lemma read_chunks_fold rounds : forall f h,
  read_chunks rounds f h = fold_left Sha256.update (chunks rounds f) h.
Proof.
  induction rounds as [| rounds IH]; intros f h; [reflexivity |].
  cbn [read_chunks chunks].
  destruct (firstn 4096 f) as [| b chunk]; [reflexivity |].
  cbn [fold_left]. apply IH.
Qed.

Lemma update_fold l : forall h,
  fold_left Sha256.update l h = Sha256.Hasher (Sha256.absorbed h ++ concat l).
Proof.
  induction l as [| c l IH]; intros [acc]; cbn [fold_left concat Sha256.absorbed].
  - now rewrite app_nil_r.
  - rewrite IH. unfold Sha256.update. cbn [Sha256.absorbed].
    now rewrite app_assoc.
Qed.

Lemma firstn_nil_inv {A} (n : nat) (l : list A) :
  firstn (S n) l = [] -> l = [].
Proof. destruct l; [reflexivity | discriminate]. Qed.

(** With one round more than the file has bytes, the chunks are the
    whole file. *)
Lemma chunks_concat rounds : forall f,
  (length f < rounds)%nat -> concat (chunks rounds f) = f.
Proof.
  induction rounds as [| rounds IH]; intros f Hlen; [lia |].
  cbn [chunks].
  destruct (firstn 4096 f) as [| b chunk] eqn:E.
  - apply firstn_nil_inv in E. now subst.
  - cbn [concat]. rewrite IH.
    + rewrite <- E. apply firstn_skipn.
    + rewrite length_skipn. destruct f; [discriminate | cbn [length] in *; lia].
Qed.

(** Every chunk holds between 1 and 4096 bytes, and a chunk that is
    not the last one holds 4096. *)
Lemma chunks_sizes rounds : forall f pre c post,
  chunks rounds f = pre ++ c :: post ->
  (0 < length c <= 4096)%nat /\ (post <> [] -> length c = 4096%nat).
Proof.
  induction rounds as [| rounds IH]; intros f pre c post H.
  - destruct pre; discriminate.
  - cbn [chunks] in H.
    remember (skipn 4096 f) as rest eqn:Erest.
    destruct (firstn 4096 f) as [| b chunk] eqn:E; [destruct pre; discriminate |].
    assert (Hlen : length (b :: chunk) = Nat.min 4096 (length f))
      by (rewrite <- E; apply length_firstn).
    destruct pre as [| c0 pre]; cbn [app] in H.
    + assert (Hc : b :: chunk = c) by congruence.
      assert (Hrest : chunks rounds rest = post) by congruence.
      clear H. subst c. split.
      * rewrite Hlen. cbn [length] in Hlen. lia.
      * intros Hpost. rewrite Hlen.
        destruct (Nat.le_gt_cases 4096 (length f)) as [Hle | Hgt]; [lia |].
        exfalso. apply Hpost. rewrite <- Hrest, Erest.
        rewrite skipn_all2 by lia. destruct rounds; reflexivity.
    + assert (Hrest : chunks rounds rest = pre ++ c :: post) by congruence.
      eapply IH. exact Hrest.
Qed.

End HasherFacts.

(** C9. The hasher is deterministic and content-addressed: two files
    that hold the same bytes (whatever their paths and trees) get the
    same digest; that digest is the SHA-256 of the bytes, 64 lower-case
    hexadecimal digits long; and the hasher is fed the file in chunks
    of 4096 bytes, the last one possibly shorter, none empty. *)
Theorem calculate_file_hash_deterministic
  (follow : string -> string -> option Fs.node)
  (directory1 directory2 : string) (tree1 tree2 : Fs.node)
  (path1 path2 : string) (bytes : list Byte.byte)
  (H1 : Fs.open_rb follow directory1 tree1 path1 = Ok bytes)
  (H2 : Fs.open_rb follow directory2 tree2 path2 = Ok bytes) :
  exists digest,
    calculate_file_hash follow directory1 tree1 path1 = Ok (path1, digest)
    /\ calculate_file_hash follow directory2 tree2 path2 = Ok (path2, digest)
    /\ digest = Sha256.hex (Sha256.digest bytes)
    /\ String.length digest = 64%nat
    /\ Forall (fun c => is_hexdigit c = true) (list_ascii_of_string digest)
    /\ read_chunks (S (length bytes)) bytes Sha256.new
       = fold_left Sha256.update (chunks (S (length bytes)) bytes) Sha256.new
    /\ concat (chunks (S (length bytes)) bytes) = bytes
    /\ (forall pre c post,
          chunks (S (length bytes)) bytes = pre ++ c :: post ->
          (0 < length c <= 4096)%nat /\ (post <> [] -> length c = 4096%nat)).
Proof.
  assert (E : Sha256.hexdigest (read_chunks (S (length bytes)) bytes Sha256.new)
              = Sha256.hex (Sha256.digest bytes)).
  { rewrite read_chunks_fold, update_fold. unfold Sha256.hexdigest.
    cbn [Sha256.absorbed Sha256.new app].
    rewrite chunks_concat by lia. reflexivity. }
  exists (Sha256.hex (Sha256.digest bytes)).
  unfold calculate_file_hash. rewrite H1, H2. cbn [bind]. rewrite E.
  split; [reflexivity |]. split; [reflexivity |]. split; [reflexivity |].
  split; [apply hex_length |]. split; [apply hex_hexdigits |].
  split; [apply read_chunks_fold |]. split; [apply chunks_concat; lia |].
  intros pre c post H. eapply chunks_sizes; eassumption.
Qed.

(* ------------------------------------------------------------------ *)
(** ** The table *)

Section TableFacts.

Import Sqlite.

Lemma select_none h d :
  select_by_sha256 h d = None <-> existsb (has_sha256 h) (files d) = false.
Proof.
  unfold select_by_sha256. induction (files d) as [| r l IH]; cbn [find existsb].
  - tauto.
  - destruct (has_sha256 h r); cbn [orb option_map]; [split; discriminate | exact IH].
Qed.

Lemma select_none_in h d :
  select_by_sha256 h d = None <-> ~ In h (map sha256 (files d)).
Proof.
  rewrite select_none. induction (files d) as [| r l IH]; cbn [existsb map In].
  - split; [tauto | reflexivity].
  - unfold has_sha256 at 1. destruct (String.eqb_spec (sha256 r) h) as [E | E]; cbn [orb].
    + split; [discriminate | intros H; exfalso; apply H; now left].
    + rewrite IH. tauto.
Qed.

Lemma select_some h d i p h' :
  select_by_sha256 h d = Some (i, p, h') ->
  h' = h /\ exists name, In (Row i name p h') (files d).
Proof.
  unfold select_by_sha256.
  destruct (find (has_sha256 h) (files d)) as [r |] eqn:E; [| discriminate].
  apply find_some in E. destruct E as [Hin Hh]. destruct r as [i0 n0 p0 h0].
  cbn [option_map id path sha256]. intros H. injection H as -> -> ->.
  unfold has_sha256 in Hh. cbn [sha256] in Hh. apply String.eqb_eq in Hh.
  split; [exact Hh | exists n0; exact Hin].
Qed.

Lemma insert_refused name p h d :
  select_by_sha256 h d <> None -> insert name p h d = Raise IntegrityError.
Proof.
  intros H. unfold insert.
  destruct (existsb (has_sha256 h) (files d)) eqn:E; [reflexivity |].
  exfalso. apply H. now apply select_none.
Qed.

Lemma insert_accepted name p h d :
  select_by_sha256 h d = None ->
  insert name p h d = Ok (Db (files d ++ [Row (next_id d) name p h]) (next_id d)).
Proof.
  intros H. unfold insert. apply select_none in H. now rewrite H.
Qed.

Lemma insert_inv name p h d d' :
  insert name p h d = Ok d' ->
  select_by_sha256 h d = None
  /\ d' = Db (files d ++ [Row (next_id d) name p h]) (next_id d).
Proof.
  unfold insert. intros H.
  destruct (existsb (has_sha256 h) (files d)) eqn:E; [discriminate |].
  injection H as <-. split; [now apply select_none | reflexivity].
Qed.

Lemma insert_unique name p h d d' :
  unique d -> insert name p h d = Ok d' -> unique d'.
Proof.
  intros U H. apply insert_inv in H. destruct H as [Hnone ->].
  unfold unique. cbn [files]. rewrite map_app. cbn [map sha256].
  apply NoDup_app.
  - exact U.
  - constructor; [intros [] | constructor].
  - intros a Ha [<- | []]. now apply select_none_in in Hnone.
Qed.

(** A row that is found stays the one that is found. *)
Lemma select_after_insert name p h d d' h0 :
  insert name p h d = Ok d' ->
  select_by_sha256 h0 d' =
    match select_by_sha256 h0 d with
    | Some r => Some r
    | None => if String.eqb h h0 then Some (next_id d, p, h) else None
    end.
Proof.
  intros H. apply insert_inv in H. destruct H as [_ ->].
  unfold select_by_sha256. cbn [files].
  induction (files d) as [| r l IH]; cbn [app find].
  - unfold has_sha256 at 1. cbn [sha256]. now destruct (String.eqb h h0).
  - destruct (has_sha256 h0 r); [reflexivity | exact IH].
Qed.

End TableFacts.

(* ------------------------------------------------------------------ *)
(** ** One iteration of the loop *)

Section CommitFacts.

Variable follow : string -> string -> option Fs.node.

(** What the body of the loop does, case by case. *)
Lemma commit_unfold dry_run directory file_path hash_value s :
  commit follow dry_run directory (Ok (file_path, hash_value)) s =
  match Sqlite.select_by_sha256 hash_value (db s) with
  | Some (_, path, _) =>
      if String.eqb path file_path then (Ok tt, s)
      else
        match Fs.getsize follow directory (fs s) file_path with
        | Raise e => (Raise e, s)
        | Ok n =>
            if dry_run then
              (Ok tt, State (fs s) (db s) (total_savings s + n)
                            (stdout s ++ [CanBeSymlinked file_path path n]))
            else
              let out := stdout s ++ [Symlinking file_path path n] in
              match Fs.remove directory (fs s) file_path with
              | Raise e => (Raise e, State (fs s) (db s) (total_savings s + n) out)
              | Ok t =>
                  match Fs.symlink directory t path file_path with
                  | Raise e => (Raise e, State t (db s) (total_savings s + n) out)
                  | Ok t' => (Ok tt, State t' (db s) (total_savings s + n) out)
                  end
              end
        end
  | None =>
      match Sqlite.insert (OsPath.basename file_path) file_path hash_value (db s) with
      | Ok d =>
          (Ok tt, State (fs s) d (total_savings s)
                        (stdout s ++ [AddedNewFile file_path hash_value]))
      | Raise e => (Raise e, s)
      end
  end.
Proof.
  unfold commit, and_then, future_result, lookup_hash.
  destruct (Sqlite.select_by_sha256 hash_value (db s)) as [[[i path] h] |].
  - destruct (String.eqb path file_path); cbn [negb]; [reflexivity |].
    unfold getsize. destruct (Fs.getsize follow directory (fs s) file_path) as [n | e];
      [| reflexivity].
    unfold add_savings. destruct dry_run; cbn [Bool.eqb]; [reflexivity |].
    unfold print, remove, symlink. cbn [fs db total_savings stdout].
    destruct (Fs.remove directory (fs s) file_path) as [t | e]; [| reflexivity].
    cbn [fs db total_savings stdout].
    destruct (Fs.symlink directory t path file_path); reflexivity.
  - unfold save_hash.
    destruct (Sqlite.insert (OsPath.basename file_path) file_path hash_value (db s));
      reflexivity.
Qed.

Lemma commit_raise dry_run directory e s :
  commit follow dry_run directory (Raise e) s = (Raise e, s).
Proof. reflexivity. Qed.

Lemma for_in_cons {A} (x : A) l body s :
  for_in (x :: l) body s =
  match body x s with
  | (Ok _, s') => for_in l body s'
  | (Raise e, s') => (Raise e, s')
  end.
Proof. reflexivity. Qed.

(** A property of the state that every iteration keeps holds when the
    loop ends, however it ends. *)
Lemma for_in_invariant {A} (P : state -> Prop) (body : A -> M unit) l :
  (forall x s, In x l -> P s -> P (snd (body x s))) ->
  forall s, P s -> P (snd (for_in l body s)).
Proof.
  induction l as [| x l IH]; intros Hbody s Hs; [exact Hs |].
  rewrite for_in_cons.
  specialize (Hbody x s (or_introl eq_refl) Hs) as Hx.
  destruct (body x s) as [[[] | e] s']; cbn [snd] in *.
  - apply IH; [| exact Hx]. intros y s0 Hy. apply Hbody. now right.
  - exact Hx.
Qed.

(** An iteration leaves the table as it is or inserts one row. *)
Lemma commit_db dry_run directory future s :
  db (snd (commit follow dry_run directory future s)) = db s
  \/ exists name p h,
       Sqlite.insert name p h (db s)
       = Ok (db (snd (commit follow dry_run directory future s))).
Proof.
  destruct future as [[p h] | e]; [| left; reflexivity].
  rewrite commit_unfold.
  destruct (Sqlite.select_by_sha256 h (db s)) as [[[i path] h'] |].
  - left. destruct (String.eqb path p); [reflexivity |].
    destruct (Fs.getsize follow directory (fs s) p); [| reflexivity].
    destruct dry_run; [reflexivity |].
    destruct (Fs.remove directory (fs s) p) as [t |]; [| reflexivity].
    destruct (Fs.symlink directory t path p); reflexivity.
  - destruct (Sqlite.insert (OsPath.basename p) p h (db s)) as [d |] eqn:E.
    + right. exists (OsPath.basename p), p, h. exact E.
    + left. reflexivity.
Qed.

Lemma commit_unique dry_run directory future s :
  Sqlite.unique (db s) ->
  Sqlite.unique (db (snd (commit follow dry_run directory future s))).
Proof.
  intros U. destruct (commit_db dry_run directory future s) as [E | (name & p & h & E)].
  - now rewrite E.
  - eapply insert_unique; eassumption.
Qed.

Lemma print_total_db dry_run s : db (snd (print_total dry_run s)) = db s.
Proof. unfold print_total. destruct dry_run; reflexivity. Qed.

Lemma print_total_fs dry_run s : fs (snd (print_total dry_run s)) = fs s.
Proof. unfold print_total. destruct dry_run; reflexivity. Qed.

Lemma save_hash_refused file_path hash s :
  Sqlite.select_by_sha256 hash (db s) <> None ->
  save_hash file_path hash s = (Raise IntegrityError, s).
Proof.
  intros H. unfold save_hash. now rewrite insert_refused.
Qed.

End CommitFacts.

(** C2. The table never holds two rows of one digest.  A new database
    file starts with an empty table; an insert of a digest that has a
    row is refused with [IntegrityError] and leaves the state as it
    was; an insert that is accepted keeps the digests distinct; and so
    do an iteration of the loop and a whole run, whatever the
    completion order and however the run ends. *)
Theorem index_digest_unique :
  Sqlite.unique (Sqlite.create_table_if_not_exists None)
  /\ (forall name p h d,
        Sqlite.select_by_sha256 h d <> None ->
        Sqlite.insert name p h d = Raise IntegrityError)
  /\ (forall file_path hash s,
        Sqlite.select_by_sha256 hash (db s) <> None ->
        save_hash file_path hash s = (Raise IntegrityError, s))
  /\ (forall name p h d d',
        Sqlite.unique d -> Sqlite.insert name p h d = Ok d' ->
        Sqlite.unique d'
        /\ Sqlite.files d' = Sqlite.files d ++ [Sqlite.Row (Sqlite.next_id d) name p h])
  /\ (forall follow dry_run directory future s,
        Sqlite.unique (db s) ->
        Sqlite.unique (db (snd (commit follow dry_run directory future s))))
  /\ (forall follow as_completed dry_run directory extensions store t,
        (forall d, store = Some d -> Sqlite.unique d) ->
        forall d',
          database_file (snd (process_files follow as_completed dry_run directory
                                            extensions store t)) = Some d' ->
          Sqlite.unique d').
Proof.
  split; [constructor |].
  split; [exact insert_refused |].
  split; [exact save_hash_refused |].
  split.
  { intros name p h d d' U H. split; [eapply insert_unique; eassumption |].
    apply insert_inv in H. destruct H as [_ ->]. reflexivity. }
  split; [exact commit_unique |].
  intros follow as_completed dry_run directory extensions store t Hstore d'.
  unfold process_files, process_files_amid, db_connect.
  destruct (traverse_directory follow directory extensions t) as [file_paths | e].
  - set (s0 := State t (Sqlite.create_table_if_not_exists store) 0 []).
    set (futures := as_completed _).
    assert (U0 : Sqlite.unique (db s0)).
    { cbn [db s0]. destruct store as [d |]; [now apply Hstore | constructor]. }
    pose proof (for_in_invariant (fun s => Sqlite.unique (db s))
                  (commit follow dry_run directory) futures
                  (fun x s _ U => commit_unique follow dry_run directory x s U) s0 U0) as U1.
    unfold and_then.
    destruct (for_in futures (commit follow dry_run directory) s0) as [[[] | e] s1];
      cbn [snd] in U1.
    + pose proof (print_total_db dry_run s1) as E.
      destruct (print_total dry_run s1) as [r s2]. cbn [snd database_file] in *.
      intros H. injection H as <-. now rewrite E.
    + cbn [snd database_file]. intros H. injection H as <-. exact U1.
  - cbn [snd database_file]. intros ->. now apply Hstore.
Qed.

(* ------------------------------------------------------------------ *)
(** ** Strings and paths *)

Section StringFacts.

Lemma sapp_nil_r s : (s ++ "")%string = s.
Proof. induction s as [| a s IH]; cbn; [reflexivity | now rewrite IH]. Qed.

Lemma sapp_assoc s1 s2 s3 :
  ((s1 ++ s2) ++ s3)%string = (s1 ++ (s2 ++ s3))%string.
Proof. induction s1 as [| a s1 IH]; cbn; [reflexivity | now rewrite IH]. Qed.

Lemma sapp_length s1 s2 :
  String.length (s1 ++ s2) = (String.length s1 + String.length s2)%nat.
Proof. induction s1 as [| a s1 IH]; cbn; [reflexivity | now rewrite IH]. Qed.

Lemma sapp_inv_head s s1 s2 : (s ++ s1)%string = (s ++ s2)%string -> s1 = s2.
Proof.
  induction s as [| a s IH]; cbn; [trivial |].
  intros H. injection H as H. now apply IH.
Qed.

Lemma strip_prefix_app pre r : Fs.strip_prefix pre (pre ++ r) = Some r.
Proof.
  induction pre as [| a pre IH]; cbn; [reflexivity |].
  now rewrite Ascii.eqb_refl.
Qed.

Lemma strip_prefix_inv pre : forall p r,
  Fs.strip_prefix pre p = Some r -> p = (pre ++ r)%string.
Proof.
  induction pre as [| a pre IH]; intros p r; cbn.
  - intros H. now injection H as ->.
  - destruct p as [| b p]; [discriminate |].
    destruct (Ascii.eqb_spec a b) as [-> | _]; [| discriminate].
    intros H. apply IH in H. now rewrite H.
Qed.

Lemma contains_app c s1 s2 :
  Py.contains c (s1 ++ s2) = (Py.contains c s1 || Py.contains c s2)%bool.
Proof.
  induction s1 as [| a s1 IH]; cbn; [reflexivity |].
  rewrite IH. now rewrite orb_assoc.
Qed.

Lemma endswith_app s1 a s2 c :
  Py.endswith (s1 ++ String a s2) c = Py.endswith (String a s2) c.
Proof.
  induction s1 as [| b s1 IH]; [reflexivity |].
  rewrite <- IH. destruct s1; reflexivity.
Qed.

Lemma endswith_absent s c : Py.contains c s = false -> Py.endswith s c = false.
Proof.
  induction s as [| a s IH]; [reflexivity |].
  cbn [Py.contains Py.endswith]. intros H. apply orb_false_iff in H.
  destruct H as [Ha Hs]. destruct s; [exact Ha | now apply IH].
Qed.

Lemma split_nonempty s : Fs.split s <> [].
Proof.
  destruct s as [| a s]; cbn; [discriminate |].
  destruct (Ascii.eqb a OsPath.sep); [discriminate |].
  destruct (Fs.split s); discriminate.
Qed.

Lemma split_absent c : Py.contains OsPath.sep c = false -> Fs.split c = [c].
Proof.
  induction c as [| a c IH]; [reflexivity |].
  cbn [Py.contains Fs.split]. intros H. apply orb_false_iff in H.
  destruct H as [Ha Hc]. rewrite Ha, (IH Hc). reflexivity.
Qed.

Lemma split_app c r :
  Py.contains OsPath.sep c = false ->
  Fs.split (c ++ "/" ++ r) = c :: Fs.split r.
Proof.
  induction c as [| a c IH]; [reflexivity |].
  cbn [Py.contains]. intros H. apply orb_false_iff in H.
  destruct H as [Ha Hc]. cbn [append Fs.split]. rewrite Ha.
  change (c ++ String "/" r)%string with (c ++ "/" ++ r)%string.
  rewrite (IH Hc). reflexivity.
Qed.

Lemma concat_cons c c' cs :
  String.concat "/" (c :: c' :: cs) = (c ++ "/" ++ String.concat "/" (c' :: cs))%string.
Proof. reflexivity. Qed.

Lemma split_concat : forall cs,
  cs <> [] ->
  Forall (fun c => Py.contains OsPath.sep c = false) cs ->
  Fs.split (String.concat "/" cs) = cs.
Proof.
  induction cs as [| c cs IH]; [congruence |].
  intros _ H. inversion H as [| ? ? Hc Hcs]; subst.
  destruct cs as [| c' cs]; [now apply split_absent |].
  rewrite concat_cons, split_app by exact Hc.
  rewrite IH; [reflexivity | discriminate | exact Hcs].
Qed.

Lemma concat_split s : String.concat "/" (Fs.split s) = s.
Proof.
  induction s as [| a s IH]; [reflexivity |].
  cbn [Fs.split]. destruct (Ascii.eqb_spec a OsPath.sep) as [-> | _].
  - pose proof (split_nonempty s) as Hne.
    destruct (Fs.split s) as [| c cs]; [congruence |].
    change (String "/" (String.concat "/" (c :: cs)) = String "/" s).
    now rewrite IH.
  - pose proof (split_nonempty s) as Hne.
    destruct (Fs.split s) as [| c cs]; [congruence |].
    destruct cs as [| c' cs].
    + cbn [String.concat] in *. now rewrite IH.
    + change (String a (String.concat "/" (c :: c' :: cs)) = String a s).
      now rewrite IH.
Qed.

Lemma valid_name_inv c :
  Fs.valid_name c = true ->
  c <> "" /\ Py.contains OsPath.sep c = false.
Proof.
  unfold Fs.valid_name. intros H.
  repeat (apply andb_true_iff in H; destruct H as [H ?]).
  split.
  - intros ->. discriminate.
  - now apply negb_true_iff.
Qed.

Lemma valid_names_absent cs :
  Forall (fun c => Fs.valid_name c = true) cs ->
  Forall (fun c => Py.contains OsPath.sep c = false) cs.
Proof.
  intros H. eapply Forall_impl; [| exact H]. intros c Hc.
  now apply valid_name_inv in Hc.
Qed.

(** Parsing a rendered path gives the names back, and the other way
    round. *)
Lemma components_render top cs :
  cs <> [] -> Forall (fun c => Fs.valid_name c = true) cs ->
  Fs.components top (Fs.render top cs) = Some cs.
Proof.
  intros Hne Hv. unfold Fs.components, Fs.render.
  rewrite strip_prefix_app, split_concat by auto using valid_names_absent.
  assert (E : forallb Fs.valid_name cs = true)
    by (apply forallb_forall; intros c Hc; rewrite Forall_forall in Hv; auto).
  now rewrite E.
Qed.

Lemma render_components top p cs :
  Fs.components top p = Some cs ->
  p = Fs.render top cs /\ cs <> [] /\ Forall (fun c => Fs.valid_name c = true) cs.
Proof.
  unfold Fs.components, Fs.render.
  destruct (Fs.strip_prefix (Fs.dir_prefix top) p) as [rel |] eqn:E; [| discriminate].
  destruct (forallb Fs.valid_name (Fs.split rel)) eqn:V; [| discriminate].
  intros H. injection H as <-. apply strip_prefix_inv in E.
  split; [now rewrite concat_split |].
  split; [apply split_nonempty |].
  apply Forall_forall. now apply forallb_forall.
Qed.

Lemma render_inj top cs1 cs2 :
  cs1 <> [] -> cs2 <> [] ->
  Forall (fun c => Fs.valid_name c = true) cs1 ->
  Forall (fun c => Fs.valid_name c = true) cs2 ->
  Fs.render top cs1 = Fs.render top cs2 -> cs1 = cs2.
Proof.
  intros N1 N2 V1 V2 E.
  pose proof (components_render top cs1 N1 V1) as H1.
  pose proof (components_render top cs2 N2 V2) as H2.
  rewrite E in H1. congruence.
Qed.

(** [os.path.join] of a directory and a valid name is the rendering
    of that name. *)
Lemma join_valid top name :
  Fs.valid_name name = true ->
  OsPath.join top name = Fs.render top [name].
Proof.
  intros V. apply valid_name_inv in V. destruct V as [Hne Hsl].
  unfold OsPath.join, Fs.render, Fs.dir_prefix. cbn [String.concat].
  assert (S : Py.startswith name OsPath.sep = false).
  { destruct name as [| a name]; [reflexivity |].
    cbn [Py.contains] in Hsl. apply orb_false_iff in Hsl. apply Hsl. }
  rewrite S.
  destruct (String.eqb top "" || Py.endswith top OsPath.sep)%bool; [reflexivity |].
  now rewrite sapp_assoc.
Qed.

Lemma dir_prefix_join top name :
  Fs.valid_name name = true ->
  Fs.dir_prefix (OsPath.join top name) = (Fs.dir_prefix top ++ name ++ "/")%string.
Proof.
  intros V. rewrite (join_valid _ _ V).
  apply valid_name_inv in V. destruct V as [Hne Hsl].
  unfold Fs.render. cbn [String.concat].
  destruct name as [| a name]; [congruence |].
  unfold Fs.dir_prefix at 1.
  rewrite endswith_app, (endswith_absent _ _ Hsl), orb_false_r.
  destruct (String.eqb_spec (Fs.dir_prefix top ++ String a name) "") as [E | _].
  - destruct (Fs.dir_prefix top); discriminate.
  - now rewrite sapp_assoc.
Qed.

Lemma render_join top name cs :
  Fs.valid_name name = true -> cs <> [] ->
  Fs.render (OsPath.join top name) cs = Fs.render top (name :: cs).
Proof.
  intros V Hne. unfold Fs.render at 1. rewrite (dir_prefix_join _ _ V).
  destruct cs as [| c cs]; [congruence |].
  unfold Fs.render. rewrite concat_cons. now rewrite !sapp_assoc.
Qed.

End StringFacts.

(* ------------------------------------------------------------------ *)
(** ** The tree *)

Section TreeFacts.

Lemma lookup_in es : forall name child,
  NoDup (map fst es) -> In (name, child) es ->
  Fs.lookup_name name es = Some child.
Proof.
  unfold Fs.lookup_name.
  induction es as [| [n0 c0] es IH]; intros name child ND Hin; [destruct Hin |].
  cbn [map fst] in ND. inversion ND as [| ? ? Hnot ND']; subst.
  cbn [find fst]. destruct Hin as [E | Hin].
  - injection E as -> ->. now rewrite String.eqb_refl.
  - destruct (String.eqb_spec n0 name) as [-> | _].
    + exfalso. apply Hnot. apply in_map_iff. exists (name, child). auto.
    + now apply IH.
Qed.

Lemma lookup_some c es child :
  Fs.lookup_name c es = Some child -> In (c, child) es.
Proof.
  unfold Fs.lookup_name.
  destruct (find (fun e => String.eqb (fst e) c) es) as [[n0 c0] |] eqn:E; [| discriminate].
  apply find_some in E. destruct E as [Hin Hc]. cbn [fst] in Hc.
  apply String.eqb_eq in Hc. subst. cbn. intros H. now injection H as <-.
Qed.

Lemma resolve_app cs1 : forall n cs2,
  Fs.resolve n (cs1 ++ cs2) =
  match Fs.resolve n cs1 with
  | Some m => Fs.resolve m cs2
  | None => None
  end.
Proof.
  induction cs1 as [| c cs1 IH]; intros n cs2; [reflexivity |].
  cbn [app Fs.resolve]. destruct n as [| | sz es]; try reflexivity.
  destruct (Fs.lookup_name c es); [apply IH | reflexivity].
Qed.

Lemma for_each_app {A B} (f : A -> result (list B)) l1 : forall l2 ys zs,
  for_each f l1 = Ok ys -> for_each f l2 = Ok zs ->
  for_each f (l1 ++ l2) = Ok (ys ++ zs).
Proof.
  induction l1 as [| a l1 IH]; intros l2 ys zs H1 H2.
  - cbn in H1. injection H1 as <-. exact H2.
  - cbn [app for_each] in *. destruct (f a) as [y |]; [| discriminate].
    cbn [bind] in *. destruct (for_each f l1) as [ys' |] eqn:E; [| discriminate].
    cbn [bind] in H1. injection H1 as <-.
    rewrite (IH l2 ys' zs eq_refl H2). cbn [bind]. now rewrite app_assoc.
Qed.

Variable follow : string -> string -> option Fs.node.
Variables (directory : string) (extensions : list string) (root : Fs.node).

Lemma spelled_nil : spelled directory [] directory.
Proof. intros cs _. reflexivity. Qed.

Lemma spelled_join ds top name :
  spelled directory ds top -> Fs.valid_name name = true ->
  spelled directory (ds ++ [name]) (OsPath.join top name).
Proof.
  intros S V cs Hne. rewrite render_join by assumption.
  rewrite S by discriminate. now rewrite <- app_assoc.
Qed.

Lemma node_at_render cs :
  cs <> [] -> Forall (fun c => Fs.valid_name c = true) cs ->
  Fs.node_at directory root (Fs.render directory cs) = Fs.resolve root cs.
Proof.
  intros Hne V. unfold Fs.node_at. now rewrite components_render.
Qed.

(** What the inner loop yields for one name of a directory. *)
Lemma visit_entry ds top name child :
  spelled directory ds top ->
  Forall (fun c => Fs.valid_name c = true) ds ->
  Fs.valid_name name = true ->
  Fs.resolve root (ds ++ [name]) = Some child ->
  Fs.entry_is_dir follow (OsPath.join top name) child = false ->
  visit follow directory extensions root top name
  = Ok (if wanted extensions (name, child)
        then [Fs.render directory (ds ++ [name])] else []).
Proof.
  intros S Vds V R D. unfold visit, wanted. cbv zeta. cbn [fst snd].
  rewrite (join_valid _ _ V). rewrite (S [name]) by discriminate.
  assert (Hat : Fs.node_at directory root (Fs.render directory (ds ++ [name]))
                = Some child).
  { rewrite node_at_render; [exact R | now destruct ds |].
    apply Forall_app. split; [exact Vds | now constructor]. }
  unfold Fs.islink, Fs.getsize, Fs.stat. rewrite Hat.
  destruct child as [content | target | sz es].
  - cbn [Bool.eqb bind].
    destruct (Py.mem (snd (OsPath.splitext name)) extensions); cbn [andb]; [| reflexivity].
    destruct (Z.of_nat (length content) =? 0); reflexivity.
  - cbn [Bool.eqb]. now destruct (Py.mem (snd (OsPath.splitext name)) extensions).
  - discriminate.
Qed.

Lemma visit_here ds top es :
  spelled directory ds top ->
  Forall (fun c => Fs.valid_name c = true) ds ->
  (forall e, In e es ->
     Fs.valid_name (fst e) = true
     /\ Fs.resolve root (ds ++ [fst e]) = Some (snd e)) ->
  for_each (visit follow directory extensions root top) (Fs.nondirs follow top es)
  = Ok (map (fun cs => Fs.render directory (ds ++ cs))
            (map (fun e => [fst e]) (filter (wanted extensions) es))).
Proof.
  intros S Vds. unfold Fs.nondirs.
  induction es as [| [name child] es IH]; intros Hes; [reflexivity |].
  destruct (Hes (name, child) (or_introl eq_refl)) as [V R]. cbn [fst snd] in V, R.
  assert (IH' := IH (fun e He => Hes e (or_intror He))). clear IH.
  cbn [filter fst snd].
  destruct (Fs.entry_is_dir follow (OsPath.join top name) child) eqn:D; cbn [negb].
  - assert (W : wanted extensions (name, child) = false).
    { unfold wanted. cbn [snd]. destruct child; [discriminate | reflexivity | reflexivity]. }
    rewrite W. exact IH'.
  - cbn [map fst for_each].
    rewrite (visit_entry ds top name child S Vds V R D). cbn [bind].
    rewrite IH'. cbn [bind].
    destruct (wanted extensions (name, child)); reflexivity.
Qed.

Lemma visit_below ds top es :
  (forall name child, In (name, child) es ->
     for_each (yields follow directory extensions root) (Fs.walk follow (OsPath.join top name) child)
     = Ok (map (fun cs => Fs.render directory ((ds ++ [name]) ++ cs))
               (candidates extensions child))) ->
  for_each (yields follow directory extensions root)
    (flat_map (fun e : string * Fs.node =>
                 let (name, child) := e in
                 Fs.walk follow (OsPath.join top name) child) es)
  = Ok (map (fun cs => Fs.render directory (ds ++ cs))
            (flat_map (fun e : string * Fs.node =>
                         let (name, child) := e in
                         map (cons name) (candidates extensions child)) es)).
Proof.
  induction es as [| [name child] es IH]; intros Hes; [reflexivity |].
  cbn [flat_map]. rewrite map_app.
  apply for_each_app.
  - rewrite (Hes name child (or_introl eq_refl)). f_equal.
    rewrite map_map. apply map_ext. intros cs. now rewrite <- app_assoc.
  - apply IH. intros n c Hin. apply Hes. now right.
Qed.

(** The walk of a well-formed subtree yields its candidates, spelled
    from the scanned directory. *)
Lemma walk_candidates n :
  Fs.wf n ->
  forall top ds,
    spelled directory ds top ->
    Forall (fun c => Fs.valid_name c = true) ds ->
    Fs.resolve root ds = Some n ->
    for_each (yields follow directory extensions root) (Fs.walk follow top n)
    = Ok (map (fun cs => Fs.render directory (ds ++ cs)) (candidates extensions n)).
Proof.
  induction 1 as [content | target | sz es ND V Hwf IH]; intros top ds S Vds R;
    try reflexivity.
  cbn [Fs.walk candidates for_each]. rewrite map_app.
  assert (Hes : forall e, In e es ->
            Fs.valid_name (fst e) = true
            /\ Fs.resolve root (ds ++ [fst e]) = Some (snd e)).
  { intros [name child] Hin. cbn [fst snd]. split.
    - rewrite Forall_forall in V. apply (V _ Hin).
    - rewrite resolve_app, R. cbn [Fs.resolve].
      now rewrite (lookup_in es name child ND Hin). }
  unfold yields at 1. rewrite (visit_here ds top es S Vds Hes). cbn [bind].
  rewrite (visit_below ds top es); [reflexivity |].
  intros name child Hin. destruct (Hes _ Hin) as [Vn Rn]. cbn [fst snd] in Vn, Rn.
  apply (IH name child Hin).
  - now apply spelled_join.
  - apply Forall_app. split; [exact Vds | now constructor].
  - exact Rn.
Qed.

End TreeFacts.

(** [traverse_directory] on a well-formed tree: it raises nothing and
    yields the candidates in the order of the walk. *)
Lemma traverse_directory_candidates follow directory extensions t :
  Fs.wf t -> directory <> "" ->
  traverse_directory follow directory extensions t
  = Ok (map (Fs.render directory) (candidates extensions t)).
Proof.
  intros W Hd. unfold traverse_directory, Fs.os_walk.
  destruct (String.eqb_spec directory "") as [E | _]; [contradiction |].
  exact (walk_candidates follow directory extensions t t W directory []
           (spelled_nil directory) (Forall_nil _) eq_refl).
Qed.

Lemma traverse_directory_empty follow extensions t :
  traverse_directory follow "" extensions t = Ok [].
Proof. reflexivity. Qed.

(* ------------------------------------------------------------------ *)
(** ** The candidates *)

Section CandidateFacts.

Variable extensions : list string.

Lemma candidates_in_dir sz es cs :
  In cs (candidates extensions (Fs.Dir sz es)) ->
  (exists e, In e es /\ wanted extensions e = true /\ cs = [fst e])
  \/ (exists name child cs',
        In (name, child) es /\ In cs' (candidates extensions child)
        /\ cs = name :: cs').
Proof.
  cbn [candidates]. intros H. apply in_app_or in H. destruct H as [H | H].
  - left. apply in_map_iff in H. destruct H as (e & <- & He).
    apply filter_In in He. destruct He as [He W]. now exists e.
  - right. apply in_flat_map in H. destruct H as ([name child] & He & H).
    apply in_map_iff in H. destruct H as (cs' & <- & Hcs').
    now exists name, child, cs'.
Qed.

(** A candidate is a regular file of the tree that is not empty and
    has a requested extension. *)
Lemma candidates_sound n :
  Fs.wf n ->
  forall cs, In cs (candidates extensions n) ->
    Forall (fun c => Fs.valid_name c = true) cs
    /\ exists ds name content,
         cs = ds ++ [name]
         /\ Fs.resolve n cs = Some (Fs.File content)
         /\ content <> []
         /\ Py.mem (snd (OsPath.splitext name)) extensions = true.
Proof.
  induction 1 as [content | target | sz es ND V Hwf IH]; intros cs Hin;
    try destruct Hin.
  rewrite Forall_forall in V.
  apply candidates_in_dir in Hin.
  destruct Hin as [([name child] & He & W & ->) | (name & child & cs' & He & Hcs' & ->)].
  - cbn [fst]. split; [constructor; [apply (V _ He) | constructor] |].
    unfold wanted in W. cbn [fst snd] in W.
    destruct child as [content | |]; try discriminate.
    apply andb_true_iff in W. destruct W as [Hext Hsize].
    exists [], name, content. split; [reflexivity |].
    cbn [Fs.resolve]. rewrite (lookup_in es name _ ND He).
    split; [reflexivity |]. split; [| exact Hext].
    intros ->. discriminate.
  - destruct (IH name child He cs' Hcs') as (Vcs' & ds & nm & content & -> & R & Hne & Hext).
    split; [constructor; [apply (V _ He) | exact Vcs'] |].
    exists (name :: ds), nm, content. split; [reflexivity |].
    cbn [Fs.resolve]. rewrite (lookup_in es name _ ND He). auto.
Qed.

Lemma candidates_nonempty n cs :
  Fs.wf n -> In cs (candidates extensions n) -> cs <> [].
Proof.
  intros W Hin. destruct (candidates_sound n W cs Hin) as (_ & ds & name & _ & -> & _).
  now destruct ds.
Qed.

Lemma NoDup_names_filter (f : string * Fs.node -> bool) es :
  NoDup (map fst es) -> NoDup (map fst (filter f es)).
Proof.
  induction es as [| e es IH]; intros ND; [constructor |].
  cbn [map] in ND. inversion ND as [| ? ? Hnot ND']; subst.
  cbn [filter]. destruct (f e); [| now apply IH].
  cbn [map]. constructor; [| now apply IH].
  intros Hin. apply Hnot. apply in_map_iff in Hin. destruct Hin as (x & Hx & Hin).
  apply filter_In in Hin. apply in_map_iff. exists x. tauto.
Qed.

Lemma candidates_below_NoDup es :
  NoDup (map fst es) ->
  (forall name child, In (name, child) es -> NoDup (candidates extensions child)) ->
  NoDup (flat_map (fun e : string * Fs.node =>
                     let (name, child) := e in
                     map (cons name) (candidates extensions child)) es).
Proof.
  induction es as [| [name child] es IH]; intros ND H; [constructor |].
  cbn [map fst] in ND. inversion ND as [| ? ? Hnot ND']; subst.
  cbn [flat_map]. apply NoDup_app.
  - apply Finite.Injective_map_NoDup.
    + intros x y E. now injection E.
    + apply (H name child). now left.
  - apply IH; [exact ND' |]. intros n c Hin. apply (H n c). now right.
  - intros cs H1 H2. apply in_map_iff in H1. destruct H1 as (cs1 & <- & _).
    apply in_flat_map in H2. destruct H2 as ([n c] & Hin & H2).
    apply in_map_iff in H2. destruct H2 as (cs2 & E & _). injection E as -> _.
    apply Hnot. apply in_map_iff. now exists (name, c).
Qed.

Lemma candidates_NoDup n : Fs.wf n -> NoDup (candidates extensions n).
Proof.
  induction 1 as [content | target | sz es ND V Hwf IH]; try constructor.
  cbn [candidates]. apply NoDup_app.
  - rewrite <- (map_map fst (fun name => [name])).
    apply Finite.Injective_map_NoDup.
    + intros x y E. now injection E.
    + now apply NoDup_names_filter.
  - now apply candidates_below_NoDup.
  - intros cs H1 H2. apply in_map_iff in H1. destruct H1 as (e & <- & _).
    apply in_flat_map in H2. destruct H2 as ([n c] & Hin & H2).
    apply in_map_iff in H2. destruct H2 as (cs2 & E & Hcs2). injection E as -> ->.
    now apply (candidates_nonempty c [] (Hwf _ _ Hin)).
Qed.

(** The paths of the candidates are pairwise distinct. *)
Lemma candidate_paths_NoDup directory n :
  Fs.wf n -> NoDup (map (Fs.render directory) (candidates extensions n)).
Proof.
  intros W. apply Finite.Injective_map_NoDup_in; [| now apply candidates_NoDup].
  intros cs1 cs2 H1 H2 E.
  apply (render_inj directory); try assumption.
  - now apply (candidates_nonempty n).
  - now apply (candidates_nonempty n).
  - now apply (candidates_sound n W).
  - now apply (candidates_sound n W).
Qed.

End CandidateFacts.

(* ------------------------------------------------------------------ *)
(** ** Replacing a file by a link *)

Section ReplaceFacts.

Import Fs.

Lemma lookup_without_eq c es : lookup_name c (without c es) = None.
Proof.
  unfold lookup_name, without. induction es as [| [n x] es IH]; [reflexivity |].
  cbn [filter fst]. destruct (String.eqb n c) eqn:E; cbn [negb]; [exact IH |].
  cbn [find fst]. now rewrite E.
Qed.

Lemma lookup_without_neq c c' es :
  c' <> c -> lookup_name c' (without c es) = lookup_name c' es.
Proof.
  intros Hne. unfold lookup_name, without.
  induction es as [| [n x] es IH]; [reflexivity |].
  cbn [filter find fst]. destruct (String.eqb_spec n c) as [-> | _]; cbn [negb].
  - destruct (String.eqb_spec c c') as [E | _]; [congruence | exact IH].
  - cbn [find fst]. now destruct (String.eqb n c').
Qed.

Lemma lookup_snoc_eq c x es :
  lookup_name c es = None -> lookup_name c (es ++ [(c, x)]) = Some x.
Proof.
  unfold lookup_name. induction es as [| [n y] es IH]; cbn [app find fst].
  - intros _. now rewrite String.eqb_refl.
  - destruct (String.eqb n c); [discriminate | exact IH].
Qed.

Lemma lookup_snoc_neq c c' x es :
  c' <> c -> lookup_name c' (es ++ [(c, x)]) = lookup_name c' es.
Proof.
  intros Hne. unfold lookup_name. induction es as [| [n y] es IH]; cbn [app find fst].
  - destruct (String.eqb_spec c c') as [E | _]; [congruence | reflexivity].
  - now destruct (String.eqb n c').
Qed.

Lemma lookup_replace_eq c x y es :
  lookup_name c es = Some y -> lookup_name c (replace_entry c x es) = Some x.
Proof.
  unfold lookup_name, replace_entry.
  induction es as [| [n z] es IH]; [discriminate |].
  cbn [map find fst]. destruct (String.eqb n c) eqn:E.
  - intros _. cbn [fst]. now rewrite String.eqb_refl.
  - cbn [fst]. rewrite E. exact IH.
Qed.

Lemma lookup_replace_neq c c' x es :
  c' <> c -> lookup_name c' (replace_entry c x es) = lookup_name c' es.
Proof.
  intros Hne. unfold lookup_name, replace_entry.
  induction es as [| [n z] es IH]; [reflexivity |].
  cbn [map find fst]. destruct (String.eqb_spec n c) as [-> | _]; cbn [fst].
  - destruct (String.eqb_spec c c') as [E | _]; [congruence | exact IH].
  - now destruct (String.eqb n c').
Qed.

Lemma replace_names c x es : map fst (replace_entry c x es) = map fst es.
Proof.
  unfold replace_entry. induction es as [| [n z] es IH]; [reflexivity |].
  cbn [map fst]. rewrite IH. destruct (String.eqb_spec n c) as [-> | _]; reflexivity.
Qed.

Lemma replace_in c x es name child :
  In (name, child) (replace_entry c x es) ->
  (name = c /\ child = x) \/ (name <> c /\ In (name, child) es).
Proof.
  unfold replace_entry. intros H. apply in_map_iff in H.
  destruct H as ([n z] & E & Hin). cbn [fst] in E.
  destruct (String.eqb_spec n c); injection E as <- <-; auto.
Qed.

Lemma without_names c es :
  map fst (without c es) = filter (fun n => negb (String.eqb n c)) (map fst es).
Proof.
  unfold without. induction es as [| [n z] es IH]; [reflexivity |].
  cbn [filter map fst]. destruct (String.eqb n c); cbn [negb map fst]; now rewrite IH.
Qed.

Lemma resolve_leaf_cons n c cs :
  is_dir n = false -> resolve n (c :: cs) = None.
Proof. now destruct n. Qed.

Lemma remove_at_below sz es c c2 cs child :
  lookup_name c es = Some child ->
  remove_at (Dir sz es) (c :: c2 :: cs)
  = (child' <- remove_at child (c2 :: cs) ;; Ok (Dir sz (replace_entry c child' es))).
Proof. intros L. cbn [remove_at]. rewrite L. destruct child; reflexivity. Qed.

Lemma symlink_at_below target sz es c c2 cs child :
  lookup_name c es = Some child ->
  symlink_at target (Dir sz es) (c :: c2 :: cs)
  = (child' <- symlink_at target child (c2 :: cs) ;;
     Ok (Dir sz (replace_entry c child' es))).
Proof. intros L. cbn [symlink_at]. rewrite L. reflexivity. Qed.

(** Removing the regular file that the names [cs] lead to and linking
    at the same place: both calls succeed, the place holds the link,
    every other place holds what it held (a directory stays that
    directory, with other contents at most), and a well-formed tree
    stays well-formed. *)
Lemma replace_at target cs : forall n content,
  resolve n cs = Some (File content) -> cs <> [] ->
  exists n1 n2,
    remove_at n cs = Ok n1
    /\ symlink_at target n1 cs = Ok n2
    /\ resolve n1 cs = None
    /\ shallow n1 = shallow n
    /\ shallow n2 = shallow n
    /\ resolve n2 cs = Some (Symlink target)
    /\ (forall cq, cq <> cs ->
          option_map shallow (resolve n2 cq) = option_map shallow (resolve n cq))
    /\ (wf n -> Forall (fun c => valid_name c = true) cs -> wf n2).
Proof.
  induction cs as [| c cs IH]; intros n content R Hne; [congruence |].
  destruct n as [| | sz es]; try discriminate.
  cbn [resolve] in R.
  destruct (lookup_name c es) as [child |] eqn:L; [| discriminate].
  destruct cs as [| c2 cs].
  - (* the entry is in this directory *)
    cbn [resolve] in R. injection R as ->.
    exists (Dir sz (without c es)), (Dir sz (without c es ++ [(c, Symlink target)])).
    cbn [remove_at symlink_at]. rewrite L, lookup_without_eq.
    split; [reflexivity |]. split; [reflexivity |].
    split; [cbn [resolve]; now rewrite lookup_without_eq |].
    split; [reflexivity |]. split; [reflexivity |].
    split; [cbn [resolve]; now rewrite lookup_snoc_eq by apply lookup_without_eq |].
    split.
    + intros [| c' cq] Hcq; [reflexivity |]. cbn [resolve].
      destruct (String.eqb_spec c' c) as [-> | Hc].
      * rewrite L, lookup_snoc_eq by apply lookup_without_eq.
        destruct cq as [| c3 cq]; [congruence | reflexivity].
      * now rewrite lookup_snoc_neq, lookup_without_neq.
    + intros W V. inversion W as [| | ? ? ND Vn Hch]; subst.
      inversion V as [| ? ? Vc _]; subst.
      constructor.
      * rewrite map_app, without_names. cbn [map fst]. apply NoDup_app.
        -- now apply NoDup_filter.
        -- constructor; [intros [] | constructor].
        -- intros a Ha [<- | []]. apply filter_In in Ha. destruct Ha as [_ Ha].
           now rewrite String.eqb_refl in Ha.
      * apply Forall_app. split.
        -- apply Forall_forall. intros e He. apply filter_In in He.
           rewrite Forall_forall in Vn. now apply Vn.
        -- constructor; [exact Vc | constructor].
      * intros name ch Hin. apply in_app_or in Hin. destruct Hin as [Hin | [E | []]].
        -- apply filter_In in Hin. now apply (Hch name ch).
        -- injection E as <- <-. constructor.
  - (* the entry is further down *)
    assert (R' : resolve child (c2 :: cs) = Some (File content)) by exact R.
    destruct (IH child content R' ltac:(discriminate))
      as (ch1 & ch2 & Hrm & Hln & Hgone & Hsh1 & Hsh2 & Hat & Hframe & Hwf).
    exists (Dir sz (replace_entry c ch1 es)),
           (Dir sz (replace_entry c ch2 (replace_entry c ch1 es))).
    assert (L1 : lookup_name c (replace_entry c ch1 es) = Some ch1)
      by (eapply lookup_replace_eq; exact L).
    assert (L2 : lookup_name c (replace_entry c ch2 (replace_entry c ch1 es)) = Some ch2)
      by (eapply lookup_replace_eq; exact L1).
    split; [now rewrite (remove_at_below _ _ _ _ _ _ L), Hrm |].
    split; [now rewrite (symlink_at_below _ _ _ _ _ _ _ L1), Hln |].
    split; [cbn [resolve]; rewrite L1; exact Hgone |].
    split; [reflexivity |]. split; [reflexivity |].
    split; [cbn [resolve]; rewrite L2; exact Hat |].
    split.
    + intros [| c' cq] Hcq; [reflexivity |]. cbn [resolve].
      destruct (String.eqb_spec c' c) as [-> | Hc].
      * rewrite L, L2. apply Hframe. congruence.
      * now rewrite !lookup_replace_neq.
    + intros W V. inversion W as [| | ? ? ND Vn Hch]; subst.
      inversion V as [| ? ? Vc Vcs]; subst.
      constructor.
      * now rewrite !replace_names.
      * apply Forall_forall. intros [name ch] Hin. cbn [fst].
        assert (Hn : In name (map fst es)).
        { rewrite <- (replace_names c ch1), <- (replace_names c ch2).
          apply in_map_iff. now exists (name, ch). }
        apply in_map_iff in Hn. destruct Hn as (e & <- & He).
        rewrite Forall_forall in Vn. now apply Vn.
      * intros name ch Hin. apply replace_in in Hin.
        destruct Hin as [[-> ->] | [Hname Hin]].
        -- apply Hwf; [| exact Vcs]. apply (Hch c child). now apply lookup_some.
        -- apply replace_in in Hin. destruct Hin as [[-> ->] | [_ Hin]]; [congruence |].
           now apply (Hch name ch).
Qed.

End ReplaceFacts.

Section ReplaceByPath.

Variables (directory : string) (t : Fs.node).

Lemma replace_with_link p content target :
  Fs.node_at directory t p = Some (Fs.File content) ->
  exists t1 t2,
    Fs.remove directory t p = Ok t1
    /\ Fs.symlink directory t1 target p = Ok t2
    /\ Fs.node_at directory t1 p = None
    /\ Fs.node_at directory t2 p = Some (Fs.Symlink target)
    /\ (forall q, q <> p ->
          option_map Fs.shallow (Fs.node_at directory t2 q)
          = option_map Fs.shallow (Fs.node_at directory t q))
    /\ (Fs.wf t -> Fs.wf t2).
Proof.
  unfold Fs.node_at, Fs.remove, Fs.symlink.
  destruct (Fs.components directory p) as [cs |] eqn:C; [| discriminate].
  intros R. apply render_components in C. destruct C as (Hp & Hne & V).
  destruct (replace_at target cs t content R Hne)
    as (t1 & t2 & Hrm & Hln & Hgone & _ & _ & Hat & Hframe & Hwf).
  exists t1, t2. repeat (split; [assumption |]). split.
  - intros q Hq. destruct (Fs.components directory q) as [cq |] eqn:Cq; [| reflexivity].
    apply Hframe. intros ->. apply render_components in Cq. destruct Cq as [Hq' _].
    congruence.
  - intros W. now apply Hwf.
Qed.

End ReplaceByPath.

Lemma shallow_file x y content :
  option_map Fs.shallow x = option_map Fs.shallow y ->
  y = Some (Fs.File content) -> x = Some (Fs.File content).
Proof.
  intros E ->. destruct x as [[| |] |]; cbn in E; congruence.
Qed.

Lemma shallow_symlink x y target :
  option_map Fs.shallow x = option_map Fs.shallow y ->
  y = Some (Fs.Symlink target) -> x = Some (Fs.Symlink target).
Proof.
  intros E ->. destruct x as [[| |] |]; cbn in E; congruence.
Qed.

Lemma getsize_file follow directory t p content :
  Fs.node_at directory t p = Some (Fs.File content) ->
  Fs.getsize follow directory t p = Ok (Z.of_nat (length content)).
Proof. intros H. unfold Fs.getsize, Fs.stat. now rewrite H. Qed.

Lemma islink_file directory t p content :
  Fs.node_at directory t p = Some (Fs.File content) ->
  Fs.islink directory t p = false.
Proof. intros H. unfold Fs.islink. now rewrite H. Qed.

Lemma open_rb_file follow directory t p content :
  Fs.node_at directory t p = Some (Fs.File content) ->
  Fs.open_rb follow directory t p = Ok content.
Proof. intros H. unfold Fs.open_rb, Fs.stat. now rewrite H. Qed.

(** C1. The decision for a discovered file [file_path] (a regular file
    of the tree) with digest [hash_value]: with no row for the digest,
    the row [(file_path, hash_value)] is inserted and reported; with a
    row of the same path, nothing changes; otherwise the size of the
    file is added to the savings, and the file is replaced by a link to
    the path of the row in a live run while a dry run only reports. *)
Theorem commit_decision
  (follow : string -> string -> option Fs.node)
  (dry_run : bool) (directory file_path hash_value : string)
  (content : list Byte.byte) (s : state)
  (Hfile : Fs.node_at directory (fs s) file_path = Some (Fs.File content)) :
  exists s',
    commit follow dry_run directory (Ok (file_path, hash_value)) s = (Ok tt, s')
    /\ match Sqlite.select_by_sha256 hash_value (db s) with
       | None =>
           Sqlite.insert (OsPath.basename file_path) file_path hash_value (db s)
           = Ok (db s')
           /\ (exists i, Sqlite.select_by_sha256 hash_value (db s')
                         = Some (i, file_path, hash_value))
           /\ fs s' = fs s
           /\ total_savings s' = total_savings s
           /\ stdout s' = stdout s ++ [AddedNewFile file_path hash_value]
       | Some (_, path, _) =>
           if String.eqb path file_path then s' = s
           else
             let size := Z.of_nat (length content) in
             total_savings s' = total_savings s + size
             /\ db s' = db s
             /\ if dry_run then
                  fs s' = fs s
                  /\ stdout s' = stdout s ++ [CanBeSymlinked file_path path size]
                else
                  Fs.node_at directory (fs s') file_path = Some (Fs.Symlink path)
                  /\ stdout s' = stdout s ++ [Symlinking file_path path size]
       end.
Proof.
  rewrite commit_unfold.
  destruct (Sqlite.select_by_sha256 hash_value (db s)) as [[[i path] h] |] eqn:L.
  - destruct (String.eqb path file_path); [now exists s |].
    rewrite (getsize_file _ _ _ _ _ Hfile).
    destruct dry_run.
    + eexists. split; [reflexivity |]. cbn. auto.
    + destruct (replace_with_link directory (fs s) file_path content path Hfile)
        as (t1 & t2 & Hrm & Hln & _ & Hat & _).
      rewrite Hrm, Hln. eexists. split; [reflexivity |]. cbn. auto.
  - rewrite (insert_accepted _ _ _ _ L). eexists. split; [reflexivity |].
    cbn [db fs total_savings stdout]. split; [reflexivity |].
    split; [| auto].
    exists (Sqlite.next_id (db s)).
    erewrite select_after_insert by (apply insert_accepted; exact L).
    rewrite L. now rewrite String.eqb_refl.
Qed.

(* ------------------------------------------------------------------ *)
(** ** The loop *)

Section LoopFacts.

Variable follow : string -> string -> option Fs.node.
Variable directory : string.

(** An iteration on a regular file, with what it leaves elsewhere. *)
Lemma commit_step dry_run p h content s :
  Fs.node_at directory (fs s) p = Some (Fs.File content) ->
  exists s',
    commit follow dry_run directory (Ok (p, h)) s = (Ok tt, s')
    /\ match Sqlite.select_by_sha256 h (db s) with
       | None =>
           Sqlite.insert (OsPath.basename p) p h (db s) = Ok (db s')
           /\ fs s' = fs s
           /\ total_savings s' = total_savings s
           /\ stdout s' = stdout s ++ [AddedNewFile p h]
       | Some (_, path, _) =>
           db s' = db s
           /\ if String.eqb path p then s' = s
              else
                let size := Z.of_nat (length content) in
                total_savings s' = total_savings s + size
                /\ if dry_run then
                     fs s' = fs s
                     /\ stdout s' = stdout s ++ [CanBeSymlinked p path size]
                   else
                     Fs.node_at directory (fs s') p = Some (Fs.Symlink path)
                     /\ same_elsewhere directory (fs s') (fs s) p
                     /\ (Fs.wf (fs s) -> Fs.wf (fs s'))
                     /\ stdout s' = stdout s ++ [Symlinking p path size]
       end.
Proof.
  intros Hfile. rewrite commit_unfold.
  destruct (Sqlite.select_by_sha256 h (db s)) as [[[i path] h'] |] eqn:L.
  - destruct (String.eqb path p); [now exists s |].
    rewrite (getsize_file _ _ _ _ _ Hfile).
    destruct dry_run.
    + eexists. split; [reflexivity |]. cbn. auto.
    + destruct (replace_with_link directory (fs s) p content path Hfile)
        as (t1 & t2 & Hrm & Hln & _ & Hat & Hframe & Hwf).
      rewrite Hrm, Hln. eexists. split; [reflexivity |]. cbn.
      repeat split; auto.
  - rewrite (insert_accepted _ _ _ _ L). eexists. split; [reflexivity |].
    cbn [db fs total_savings stdout]. auto.
Qed.

Lemma for_in_Ok_cons dry_run e order s s1 :
  commit follow dry_run directory (Ok e) s = (Ok tt, s1) ->
  for_in (map Ok (e :: order)) (commit follow dry_run directory) s
  = for_in (map Ok order) (commit follow dry_run directory) s1.
Proof. intros H. cbn [map]. rewrite for_in_cons. now rewrite H. Qed.

(** The rows a loop leaves do not depend on [dry_run], and a dry run
    leaves the tree as it was. *)
Lemma loop_dry_live : forall order sd sl,
  NoDup (map fst order) ->
  (forall e, In e order ->
     exists content,
       Fs.node_at directory (fs sd) (fst e) = Some (Fs.File content)
       /\ Fs.node_at directory (fs sl) (fst e) = Some (Fs.File content)) ->
  db sd = db sl ->
  total_savings sd = total_savings sl ->
  exists sd' sl',
    for_in (map Ok order) (commit follow true directory) sd = (Ok tt, sd')
    /\ for_in (map Ok order) (commit follow false directory) sl = (Ok tt, sl')
    /\ db sd' = db sl'
    /\ total_savings sd' = total_savings sl'
    /\ fs sd' = fs sd.
Proof.
  induction order as [| [p h] order IH]; intros sd sl ND Hreg Hdb Hts.
  - exists sd, sl. auto.
  - cbn [map fst] in ND. inversion ND as [| ? ? Hnot ND']; subst.
    destruct (Hreg (p, h) (or_introl eq_refl)) as (content & Hd & Hl). cbn [fst] in Hd, Hl.
    destruct (commit_step true p h content sd Hd) as (sd1 & Ed & Hsd).
    destruct (commit_step false p h content sl Hl) as (sl1 & El & Hsl).
    rewrite (for_in_Ok_cons _ _ _ _ _ Ed), (for_in_Ok_cons _ _ _ _ _ El).
    rewrite Hdb in Hsd.
    assert (Hnext : db sd1 = db sl1 /\ total_savings sd1 = total_savings sl1
                    /\ fs sd1 = fs sd
                    /\ (fs sl1 = fs sl \/ same_elsewhere directory (fs sl1) (fs sl) p)).
    { destruct (Sqlite.select_by_sha256 h (db sl)) as [[[i path] h'] |].
      - destruct Hsd as [Hd1 Hsd], Hsl as [Hl1 Hsl].
        destruct (String.eqb path p).
        + subst. auto.
        + destruct Hsd as (Hd2 & Hd3 & _), Hsl as (Hl2 & _ & Hl3 & _).
          repeat split; try congruence. now right.
      - destruct Hsd as (Hd1 & Hd2 & Hd3 & _), Hsl as (Hl1 & Hl2 & Hl3 & _).
        repeat split; try congruence. now left. }
    destruct Hnext as (Hdb1 & Hts1 & Hfd & Hfl).
    destruct (IH sd1 sl1 ND') as (sd' & sl' & E1 & E2 & H1 & H2 & H3); try assumption.
    + intros [q hq] Hin. destruct (Hreg (q, hq) (or_intror Hin)) as (c & Hqd & Hql).
      cbn [fst] in *. exists c. split; [now rewrite Hfd |].
      destruct Hfl as [-> | Hframe]; [exact Hql |].
      eapply shallow_file; [apply Hframe | exact Hql].
      intros ->. apply Hnot. apply in_map_iff. now exists (p, hq).
    + exists sd', sl'. repeat split; try assumption. congruence.
Qed.

(** A loop over files that the table already holds under their own
    paths changes nothing. *)
Lemma loop_noop dry_run : forall order s,
  (forall p h, In (p, h) order ->
     exists i h', Sqlite.select_by_sha256 h (db s) = Some (i, p, h')) ->
  for_in (map Ok order) (commit follow dry_run directory) s = (Ok tt, s).
Proof.
  induction order as [| [p h] order IH]; intros s H; [reflexivity |].
  cbn [map]. rewrite for_in_cons, commit_unfold.
  destruct (H p h (or_introl eq_refl)) as (i & h' & ->).
  rewrite String.eqb_refl. apply IH. intros q hq Hin. apply H. now right.
Qed.

End LoopFacts.

(* ------------------------------------------------------------------ *)
(** ** A whole run *)

Section RunFacts.

Variable follow : string -> string -> option Fs.node.
Variable as_completed :
  list (result (string * string)) -> list (result (string * string)).
Variables (directory : string) (extensions : list string) (t : Fs.node).

Lemma read_chunks_digest bytes :
  Sha256.hexdigest (read_chunks (S (length bytes)) bytes Sha256.new)
  = Sha256.hex (Sha256.digest bytes).
Proof.
  rewrite read_chunks_fold, update_fold. unfold Sha256.hexdigest.
  cbn [Sha256.absorbed Sha256.new app].
  now rewrite chunks_concat by lia.
Qed.

Lemma calculate_file_hash_file p content :
  Fs.node_at directory t p = Some (Fs.File content) ->
  calculate_file_hash follow directory t p
  = Ok (p, Sha256.hex (Sha256.digest content)).
Proof.
  intros H. unfold calculate_file_hash.
  rewrite (open_rb_file _ _ _ _ _ H). cbn [bind].
  now rewrite read_chunks_digest.
Qed.

(** A path the enumeration yields names a regular, non-empty file
    whose name has a requested extension. *)
Lemma traverse_directory_sound file_paths p :
  Fs.wf t ->
  traverse_directory follow directory extensions t = Ok file_paths ->
  In p file_paths ->
  exists ds name content,
    p = Fs.render directory (ds ++ [name])
    /\ Forall (fun c => Fs.valid_name c = true) (ds ++ [name])
    /\ Fs.resolve t (ds ++ [name]) = Some (Fs.File content)
    /\ Fs.node_at directory t p = Some (Fs.File content)
    /\ content <> []
    /\ Py.mem (snd (OsPath.splitext name)) extensions = true.
Proof.
  intros W E Hin.
  destruct (String.eqb_spec directory "") as [Hd | Hd].
  - unfold traverse_directory, Fs.os_walk in E. rewrite Hd in E. cbn in E.
    injection E as <-. destruct Hin.
  - rewrite traverse_directory_candidates in E by assumption.
    injection E as <-. apply in_map_iff in Hin. destruct Hin as (cs & <- & Hcs).
    destruct (candidates_sound extensions t W cs Hcs)
      as (V & ds & name & content & -> & R & Hne & Hext).
    exists ds, name, content. repeat split; try assumption.
    rewrite node_at_render; [exact R | now destruct ds | exact V].
Qed.

Lemma traverse_directory_NoDup file_paths :
  Fs.wf t ->
  traverse_directory follow directory extensions t = Ok file_paths ->
  NoDup file_paths.
Proof.
  intros W E.
  destruct (String.eqb_spec directory "") as [Hd | Hd].
  - unfold traverse_directory, Fs.os_walk in E. rewrite Hd in E. cbn in E.
    injection E as <-. constructor.
  - rewrite traverse_directory_candidates in E by assumption.
    injection E as <-. now apply candidate_paths_NoDup.
Qed.

Lemma traverse_directory_total :
  Fs.wf t -> exists file_paths,
    traverse_directory follow directory extensions t = Ok file_paths.
Proof.
  intros W. destruct (String.eqb_spec directory "") as [-> | Hd].
  - now exists [].
  - eexists. now apply traverse_directory_candidates.
Qed.

Hypothesis as_completed_perm : forall l, Permutation (as_completed l) l.

Lemma hashed_fst p : fst (hashed directory t p) = p.
Proof. unfold hashed. now destruct (Fs.node_at directory t p) as [[| |] |]. Qed.

(** A run on a well-formed tree is the loop over the enumerated
    files with their digests, in some order. *)
Lemma process_files_run :
  Fs.wf t ->
  exists file_paths order,
    traverse_directory follow directory extensions t = Ok file_paths
    /\ Permutation file_paths (map fst order)
    /\ NoDup (map fst order)
    /\ (forall p h, In (p, h) order ->
          In p file_paths
          /\ exists content,
               Fs.node_at directory t p = Some (Fs.File content)
               /\ content <> []
               /\ h = Sha256.hex (Sha256.digest content))
    /\ forall dry_run store,
         process_files follow as_completed dry_run directory extensions store t
         = let '(r, s) :=
             (for_in (map Ok order) (commit follow dry_run directory) ;;;
              print_total dry_run)
               (State t (Sqlite.create_table_if_not_exists store) 0 []) in
           (r, World (fs s) (Some (db s)) (stdout s)).
Proof.
  intros W. destruct (traverse_directory_total W) as [file_paths E].
  assert (Hfut : map (calculate_file_hash follow directory t) file_paths
                 = map Ok (map (hashed directory t) file_paths)).
  { rewrite map_map. apply map_ext_in. intros p Hp.
    destruct (traverse_directory_sound file_paths p W E Hp)
      as (ds & name & content & _ & _ & _ & Hat & _).
    rewrite (calculate_file_hash_file p content Hat). unfold hashed. now rewrite Hat. }
  pose proof (as_completed_perm (map (calculate_file_hash follow directory t) file_paths))
    as Hperm.
  rewrite Hfut in Hperm. apply Permutation_map_inv in Hperm.
  destruct Hperm as (order & Eorder & Hperm).
  assert (Hpaths : Permutation file_paths (map fst order)).
  { apply (Permutation_map fst) in Hperm. rewrite map_map in Hperm.
    erewrite map_ext in Hperm by apply hashed_fst. now rewrite map_id in Hperm. }
  exists file_paths, order. split; [exact E |]. split; [exact Hpaths |].
  split; [eapply Permutation_NoDup; [exact Hpaths | now apply traverse_directory_NoDup] |].
  split.
  - intros p h Hin.
    apply (Permutation_in _ (Permutation_sym Hperm)) in Hin.
    apply in_map_iff in Hin. destruct Hin as (p' & Hh & Hp').
    destruct (traverse_directory_sound file_paths p' W E Hp')
      as (ds & name & content & _ & _ & _ & Hat & Hne & _).
    unfold hashed in Hh. rewrite Hat in Hh. injection Hh as <- <-.
    split; [exact Hp' |]. now exists content.
  - intros dry_run store. unfold process_files, process_files_amid, db_connect.
  rewrite E, Hfut, Eorder. reflexivity.
Qed.

End RunFacts.

Lemma commit_dry_fs follow directory future s :
  fs (snd (commit follow true directory future s)) = fs s.
Proof.
  destruct future as [[p h] | e]; [| reflexivity].
  rewrite commit_unfold.
  destruct (Sqlite.select_by_sha256 h (db s)) as [[[i path] h'] |].
  - destruct (String.eqb path p); [reflexivity |].
    now destruct (Fs.getsize follow directory (fs s) p).
  - now destruct (Sqlite.insert (OsPath.basename p) p h (db s)).
Qed.

Lemma mem_In x xs : Py.mem x xs = true <-> In x xs.
Proof.
  unfold Py.mem. rewrite existsb_exists. split.
  - intros (y & Hy & E). apply String.eqb_eq in E. now subst.
  - intros H. exists x. split; [exact H | apply String.eqb_refl].
Qed.

Lemma commit_rows follow dry_run directory p h s r :
  In r (Sqlite.files (db (snd (commit follow dry_run directory (Ok (p, h)) s)))) ->
  In r (Sqlite.files (db s)) \/ Sqlite.path r = p.
Proof.
  rewrite commit_unfold.
  destruct (Sqlite.select_by_sha256 h (db s)) as [[[i path] h'] |].
  - destruct (String.eqb path p); [now left |].
    destruct (Fs.getsize follow directory (fs s) p); [| now left].
    destruct dry_run; [now left |].
    destruct (Fs.remove directory (fs s) p) as [t1 |]; [| now left].
    destruct (Fs.symlink directory t1 path p); now left.
  - destruct (Sqlite.insert (OsPath.basename p) p h (db s)) as [d |] eqn:E; [| now left].
    apply insert_inv in E. destruct E as [_ ->]. cbn [snd db Sqlite.files].
    intros H. apply in_app_or in H. destruct H as [H | [<- | []]]; [now left | now right].
Qed.

(** C7. On a well-formed tree the scanner raises nothing, and every
    path it yields has a name whose extension (the suffix
    [os.path.splitext] splits off) is one of the requested strings,
    character for character, is not a symbolic link, and has a size
    above zero.  So a symbolic link or a file of size zero is never
    yielded; and since a run hashes and commits the yielded paths only,
    every row a run adds to the table carries a yielded path. *)
Theorem scanner_filters
  (follow : string -> string -> option Fs.node)
  (directory : string) (extensions : list string) (t : Fs.node)
  (Hwf : Fs.wf t) :
  exists file_paths,
    traverse_directory follow directory extensions t = Ok file_paths
    /\ (forall p, In p file_paths ->
          (exists ds name,
             p = Fs.render directory (ds ++ [name])
             /\ In (snd (OsPath.splitext name)) extensions)
          /\ Fs.islink directory t p = false
          /\ exists size, Fs.getsize follow directory t p = Ok size /\ 0 < size)
    /\ (forall p,
          Fs.islink directory t p = true \/ Fs.getsize follow directory t p = Ok 0 ->
          ~ In p file_paths)
    /\ Py.mem ".BIN" [".bin"] = false
    /\ (forall as_completed dry_run store,
          (forall l, Permutation (as_completed l) l) ->
          forall d r,
            database_file (snd (process_files follow as_completed dry_run directory
                                              extensions store t)) = Some d ->
            In r (Sqlite.files d) ->
            In r (Sqlite.files (Sqlite.create_table_if_not_exists store))
            \/ In (Sqlite.path r) file_paths).
Proof.
  destruct (traverse_directory_total follow directory extensions t Hwf) as [file_paths E].
  exists file_paths. split; [exact E |].
  assert (Hsound : forall p, In p file_paths ->
            (exists ds name,
               p = Fs.render directory (ds ++ [name])
               /\ In (snd (OsPath.splitext name)) extensions)
            /\ Fs.islink directory t p = false
            /\ exists size, Fs.getsize follow directory t p = Ok size /\ 0 < size).
  { intros p Hp.
    destruct (traverse_directory_sound follow directory extensions t file_paths p Hwf E Hp)
      as (ds & name & content & -> & _ & _ & Hat & Hne & Hext).
    split; [exists ds, name; split; [reflexivity | now apply mem_In] |].
    split; [eapply islink_file; exact Hat |].
    exists (Z.of_nat (length content)). split; [eapply getsize_file; exact Hat |].
    destruct content; [congruence | cbn [length]; lia]. }
  split; [exact Hsound |]. split.
  { intros p H Hp. destruct (Hsound p Hp) as (_ & Hl & size & Hs & Hpos).
    destruct H as [H | H]; [congruence |]. rewrite Hs in H. injection H as ->. lia. }
  split; [reflexivity |].
  intros as_completed dry_run store Hperm d r.
  destruct (process_files_run follow as_completed directory extensions t Hperm Hwf)
    as (file_paths' & order & E' & _ & _ & Hreg & Hrun).
  rewrite E in E'. injection E' as <-.
  rewrite Hrun. clear Hrun.
  set (s0 := State t (Sqlite.create_table_if_not_exists store) 0 []).
  pose proof (for_in_invariant
                (fun s => forall r, In r (Sqlite.files (db s)) ->
                            In r (Sqlite.files (db s0)) \/ In (Sqlite.path r) file_paths)
                (commit follow dry_run directory) (map Ok order)) as Hinv.
  cbv beta in Hinv. specialize (Hinv ltac:(
    intros x s Hx Hs r0 Hr0; apply in_map_iff in Hx; destruct Hx as ([p h] & <- & Hin);
    apply commit_rows in Hr0; destruct Hr0 as [Hr0 | <-];
    [now apply Hs | right; now apply (Hreg _ h)]) s0 ltac:(auto)).
  unfold and_then.
  destruct (for_in (map Ok order) (commit follow dry_run directory) s0) as [[[] | e] s1];
    cbn [snd] in Hinv.
  - pose proof (print_total_db dry_run s1) as Edb.
    destruct (print_total dry_run s1) as [r1 s2]. cbn [snd database_file] in *.
    intros H. injection H as <-. rewrite Edb. apply Hinv.
  - cbn [snd database_file]. intros H. injection H as <-. apply Hinv.
Qed.

(* ------------------------------------------------------------------ *)
(** ** A live loop *)

Section LiveFacts.

Variable follow : string -> string -> option Fs.node.
Variable directory : string.

Lemma live_nil s : live directory [] s s.
Proof. constructor; auto. intros p h []. Qed.

Lemma live_step p h content s :
  Fs.node_at directory (fs s) p = Some (Fs.File content) ->
  exists s',
    commit follow false directory (Ok (p, h)) s = (Ok tt, s')
    /\ live directory [(p, h)] s s'.
Proof.
  intros Hfile.
  destruct (commit_step follow directory false p h content s Hfile) as (s' & E & H).
  exists s'. split; [exact E |].
  destruct (Sqlite.select_by_sha256 h (db s)) as [[[i path] h'] |] eqn:L.
  - destruct H as [Hdb H].
    destruct (String.eqb path p) eqn:Ep.
    + subst s'. constructor; auto.
      intros q hq [Eq | []]. injection Eq as <- <-.
      exists i, path, h'. now rewrite Ep.
    + destruct H as (_ & Hat & Hframe & Hwf & _).
      constructor; rewrite ?Hdb; auto.
      * intros q Hq. apply Hframe. intros ->. apply Hq. now left.
      * intros q hq [Eq | []]. injection Eq as <- <-.
        exists i, path, h'. rewrite Ep. auto.
  - destruct H as (Hins & Hfs & _).
    pose proof (select_after_insert _ _ _ _ _ h Hins) as Hh.
    rewrite L, String.eqb_refl in Hh.
    constructor; rewrite ?Hfs; auto.
    + intros h0 r Hr. rewrite (select_after_insert _ _ _ _ _ h0 Hins). now rewrite Hr.
    + intros h0 i path h' Hs. rewrite (select_after_insert _ _ _ _ _ h0 Hins) in Hs.
      destruct (Sqlite.select_by_sha256 h0 (db s)) as [r |]; [now left |].
      destruct (String.eqb_spec h h0) as [<- | _]; [| discriminate].
      injection Hs as _ <- _. right. split; [reflexivity | now left].
    + intros q hq [Eq | []]. injection Eq as <- <-.
      exists (Sqlite.next_id (db s)), p, h. rewrite String.eqb_refl. auto.
Qed.

Lemma live_cons p h content order s s1 s' :
  Fs.node_at directory (fs s) p = Some (Fs.File content) ->
  ~ In p (map fst order) ->
  (forall q hq, In (q, hq) order ->
     exists c, Fs.node_at directory (fs s) q = Some (Fs.File c)) ->
  live directory [(p, h)] s s1 -> live directory order s1 s' ->
live directory ((p, h) :: order) s s'.
Proof.
  intros Hfile Hnot Hreg [Wa Fa Ma Na Ca] [W1 F1 M1 N1 C1].
  assert (Hkeep : forall q c, q <> p ->
            Fs.node_at directory (fs s) q = Some (Fs.File c) ->
            Fs.node_at directory (fs s1) q = Some (Fs.File c)).
  { intros q c Hq Hat. eapply shallow_file; [| exact Hat].
    apply Fa. intros [E | []]. cbn in E. congruence. }
  constructor.
  - auto.
  - intros q Hq. cbn [map fst In] in Hq.
    rewrite F1 by tauto. apply Fa. cbn. tauto.
  - auto.
  - intros h0 i path h' Hs. destruct (N1 _ _ _ _ Hs) as [Hs1 | [Hs1 Hin]].
    + destruct (Na _ _ _ _ Hs1) as [Hs0 | [Hs0 [E | []]]]; [now left |].
      right. split; [exact Hs0 | left; exact E].
    + right. split; [| now right].
      destruct (Sqlite.select_by_sha256 h0 (db s)) as [r |] eqn:E; [| reflexivity].
      rewrite (Ma _ _ E) in Hs1. discriminate.
  - intros q hq [E | Hin].
    + injection E as <- <-.
      destruct (Ca p h (or_introl eq_refl)) as (i & path & h' & Hs & Hnode).
      exists i, path, h'. split; [now apply M1 |].
      destruct (String.eqb path p).
      * rewrite Hfile in *. eapply shallow_file; [apply F1; exact Hnot | exact Hnode].
      * eapply shallow_symlink; [apply F1; exact Hnot | exact Hnode].
    + destruct (C1 q hq Hin) as (i & path & h' & Hs & Hnode).
      exists i, path, h'. split; [exact Hs |].
      destruct (String.eqb path q); [| exact Hnode].
      rewrite Hnode. destruct (Hreg q hq Hin) as [c Hc]. rewrite Hc.
      apply Hkeep; [| exact Hc].
      intros ->. apply Hnot. apply in_map_iff. now exists (p, hq).
Qed.

(** A live loop over distinct regular files returns. *)
Lemma live_loop : forall order s,
  NoDup (map fst order) ->
  (forall p h, In (p, h) order ->
     exists c, Fs.node_at directory (fs s) p = Some (Fs.File c)) ->
  exists s',
    for_in (map Ok order) (commit follow false directory) s = (Ok tt, s')
    /\ live directory order s s'.
Proof.
  induction order as [| [p h] order IH]; intros s ND Hreg.
  - exists s. split; [reflexivity | apply live_nil].
  - cbn [map fst] in ND. inversion ND as [| ? ? Hnot ND']; subst.
    destruct (Hreg p h (or_introl eq_refl)) as [content Hfile].
    destruct (live_step p h content s Hfile) as (s1 & E1 & L1).
    assert (Hreg1 : forall q hq, In (q, hq) order ->
              exists c, Fs.node_at directory (fs s1) q = Some (Fs.File c)).
    { intros q hq Hin. destruct (Hreg q hq (or_intror Hin)) as [c Hc].
      exists c. eapply shallow_file; [| exact Hc].
      apply (live_frame _ _ _ _ L1). intros [E | []]. cbn in E. subst q.
      apply Hnot. apply in_map_iff. now exists (p, hq). }
    destruct (IH s1 ND' Hreg1) as (s' & E & L).
    exists s'. split.
    + rewrite (for_in_Ok_cons _ _ _ _ _ _ _ E1). exact E.
    + eapply live_cons; eauto. intros q hq Hin. apply (Hreg q hq). now right.
Qed.

End LiveFacts.

Section ClassFacts.

Variable directory : string.

(** The files of one digest: the row of the digest names one path,
    the canonical one; a file of the digest at that path stays as it
    was and every other one becomes a link to it.  When the table did
    not hold the digest, the canonical path is one of the files. *)
Lemma live_class order s s' h :
  live directory order s s' ->
  (exists p, In (p, h) order) ->
  exists i canonical h',
    Sqlite.select_by_sha256 h (db s') = Some (i, canonical, h')
    /\ (Sqlite.select_by_sha256 h (db s) = None -> In (canonical, h) order)
    /\ forall p, In (p, h) order ->
         if String.eqb canonical p
         then Fs.node_at directory (fs s') p = Fs.node_at directory (fs s) p
         else Fs.node_at directory (fs s') p = Some (Fs.Symlink canonical).
Proof.
  intros L [p0 Hp0].
  destruct (live_done _ _ _ _ L p0 h Hp0) as (i & path & h' & Hs & _).
  exists i, path, h'. split; [exact Hs |]. split.
  - intros Hnone.
    destruct (live_new _ _ _ _ L h i path h' Hs) as [Hold | [_ Hin]];
      [congruence | exact Hin].
  - intros p Hp.
    destruct (live_done _ _ _ _ L p h Hp) as (i1 & path1 & h1 & Hs1 & Hnode).
    rewrite Hs in Hs1. injection Hs1 as <- <- <-. exact Hnode.
Qed.

End ClassFacts.

Lemma candidates_complete extensions : forall ds n name content,
  Fs.resolve n (ds ++ [name]) = Some (Fs.File content) ->
  content <> [] ->
  Py.mem (snd (OsPath.splitext name)) extensions = true ->
  In (ds ++ [name]) (candidates extensions n).
Proof.
  induction ds as [| d ds IH]; intros n name content R Hne Hext.
  - destruct n as [| | sz es]; try discriminate. cbn [app Fs.resolve] in R.
    destruct (Fs.lookup_name name es) as [child |] eqn:L; [| discriminate].
    injection R as ->. apply lookup_some in L.
    cbn [candidates app]. apply in_or_app. left.
    apply in_map_iff. exists (name, Fs.File content). split; [reflexivity |].
    apply filter_In. split; [exact L |].
    unfold wanted. cbn [fst snd]. rewrite Hext.
    destruct content; [congruence | reflexivity].
  - destruct n as [| | sz es]; try discriminate. cbn [app Fs.resolve] in R.
    destruct (Fs.lookup_name d es) as [child |] eqn:L; [| discriminate].
    apply lookup_some in L.
    cbn [candidates app]. apply in_or_app. right.
    apply in_flat_map. exists (d, child). split; [exact L |].
    apply in_map. eapply IH; eassumption.
Qed.

Lemma select_filter h d r :
  Sqlite.unique d ->
  find (Sqlite.has_sha256 h) (Sqlite.files d) = Some r ->
  filter (Sqlite.has_sha256 h) (Sqlite.files d) = [r].
Proof.
  unfold Sqlite.unique. induction (Sqlite.files d) as [| r0 l IH]; [discriminate |].
  cbn [map find filter]. intros U. inversion U as [| ? ? Hnot U']; subst.
  destruct (Sqlite.has_sha256 h r0) eqn:E.
  - intros H. injection H as <-. f_equal.
    unfold Sqlite.has_sha256 in E. apply String.eqb_eq in E.
    clear - Hnot E. induction l as [| r1 l IH]; [reflexivity |].
    cbn [filter]. unfold Sqlite.has_sha256 at 1.
    destruct (String.eqb_spec (Sqlite.sha256 r1) h) as [E1 | _].
    + exfalso. apply Hnot. left. congruence.
    + apply IH. intros Hin. apply Hnot. now right.
  - now apply IH.
Qed.

(* ------------------------------------------------------------------ *)
(** ** Live runs *)

Section LiveRuns.

Variable follow : string -> string -> option Fs.node.
Variables (directory : string) (extensions : list string).

Lemma live_run as_completed store t :
  Fs.wf t -> (forall l, Permutation (as_completed l) l) ->
  exists file_paths order s1,
    enumerated follow directory extensions t file_paths order
    /\ live directory order (State t (Sqlite.create_table_if_not_exists store) 0 []) s1
    /\ (Sqlite.unique (Sqlite.create_table_if_not_exists store) -> Sqlite.unique (db s1))
    /\ process_files follow as_completed false directory extensions store t
       = (Ok tt, World (fs s1) (Some (db s1)) (stdout s1 ++ [Saved (total_savings s1)])).
Proof.
  intros W Hperm.
  destruct (process_files_run follow as_completed directory extensions t Hperm W)
    as (file_paths & order & E & Hp & ND & Hreg & Hrun).
  set (s0 := State t (Sqlite.create_table_if_not_exists store) 0 []).
  destruct (live_loop follow directory order s0 ND) as (s1 & Eloop & L).
  { intros p h Hin. destruct (Hreg p h Hin) as (_ & c & Hc & _). now exists c. }
  exists file_paths, order, s1.
  split; [exact (conj E (conj Hp (conj ND Hreg))) |]. split; [exact L |].
  split.
  { intros U.
    pose proof (for_in_invariant (fun s => Sqlite.unique (db s))
                  (commit follow false directory) (map Ok order)
                  (fun x s _ Us => commit_unique follow false directory x s Us) s0 U) as U1.
    now rewrite Eloop in U1. }
  rewrite Hrun. fold s0. unfold and_then. rewrite Eloop. reflexivity.
Qed.

(** After a live run, a second live run finds every file it
    enumerates in the table under its own path. *)
Lemma second_run as_completed t file_paths order s0 s1 :
  Fs.wf t -> fs s0 = t ->
  enumerated follow directory extensions t file_paths order ->
  live directory order s0 s1 ->
  (forall l, Permutation (as_completed l) l) ->
  process_files follow as_completed false directory extensions (Some (db s1)) (fs s1)
  = (Ok tt, World (fs s1) (Some (db s1)) [Saved 0]).
Proof.
  intros W Hfs (E & Hp & ND & Hreg) L Hperm. subst t.
  assert (W1 : Fs.wf (fs s1)) by (now apply (live_wf _ _ _ _ L)).
  destruct (process_files_run follow as_completed directory extensions (fs s1) Hperm W1)
    as (file_paths2 & order2 & E2 & Hp2 & ND2 & Hreg2 & Hrun).
  rewrite Hrun. clear Hrun. cbn [Sqlite.create_table_if_not_exists].
  unfold and_then. rewrite loop_noop; [reflexivity |].
  cbn [db]. intros p h Hin.
  destruct (Hreg2 p h Hin) as (Hin2 & content & Hat & Hne & ->).
  destruct (in_dec string_dec p (map fst order)) as [Hold | Hnew].
  - apply in_map_iff in Hold. destruct Hold as ([p' h1] & Ep & Hin1).
    cbn [fst] in Ep. subst p'.
    destruct (live_done _ _ _ _ L p h1 Hin1) as (i & path & h' & Hs & Hnode).
    destruct (Hreg p h1 Hin1) as (_ & c1 & Hc1 & _ & ->).
    destruct (String.eqb_spec path p) as [-> | _].
    + rewrite Hat, Hc1 in Hnode. injection Hnode as ->. now exists i, h'.
    + congruence.
  - exfalso. apply Hnew. apply (Permutation_in _ Hp).
    destruct (traverse_directory_sound follow directory extensions (fs s1)
                file_paths2 p W1 E2 Hin2)
      as (ds & name & c & -> & V & R & _ & Hc & Hext).
    assert (Hat0 : Fs.node_at directory (fs s0) (Fs.render directory (ds ++ [name]))
                   = Some (Fs.File content)).
    { eapply shallow_file; [| exact Hat]. symmetry. now apply (live_frame _ _ _ _ L). }
    rewrite node_at_render in Hat0; [| now destruct ds | exact V].
    destruct (String.eqb_spec directory "") as [Hd | Hd].
    + rewrite Hd in E2. rewrite traverse_directory_empty in E2.
      injection E2 as <-. destruct Hin2.
    + rewrite traverse_directory_candidates in E by assumption.
      injection E as <-. apply in_map.
      eapply candidates_complete; eassumption.
Qed.

End LiveRuns.

(** C4 as the code has it.  On a well-formed tree a live run returns,
    and a second live run on what it left (same directory, same
    extensions, any completion order) returns with the tree and the
    database file unchanged: no row added, no link made, and [Saved 0]
    as its only output.  When the enumerated files all hold the same
    bytes and the table had no row for their digest before the run, the
    row the run adds names one of them, the canonical one: the run
    leaves that file as it was and replaces every other enumerated file
    by a symbolic link made with that path as its target, so exactly
    one of them is still a regular file.  The target is the path as the
    row holds it; what the link resolves to is not stated. *)
Theorem live_run_idempotent
  (follow : string -> string -> option Fs.node)
  (as_completed as_completed' :
     list (result (string * string)) -> list (result (string * string)))
  (directory : string) (extensions : list string)
  (store : option Sqlite.database) (t : Fs.node)
  (Hwf : Fs.wf t)
  (Hperm : forall l, Permutation (as_completed l) l)
  (Hperm' : forall l, Permutation (as_completed' l) l) :
  exists first,
    process_files follow as_completed false directory extensions store t = (Ok tt, first)
    /\ process_files follow as_completed' false directory extensions
                     (database_file first) (tree first)
       = (Ok tt, World (tree first) (database_file first) [Saved 0])
    /\ forall file_paths content,
         traverse_directory follow directory extensions t = Ok file_paths ->
         file_paths <> [] ->
         (forall p, In p file_paths ->
                    Fs.node_at directory t p = Some (Fs.File content)) ->
         let h := Sha256.hex (Sha256.digest content) in
         Sqlite.select_by_sha256 h (Sqlite.create_table_if_not_exists store) = None ->
         exists i canonical,
           option_map (Sqlite.select_by_sha256 h) (database_file first)
           = Some (Some (i, canonical, h))
           /\ In canonical file_paths
           /\ Fs.node_at directory (tree first) canonical = Some (Fs.File content)
           /\ (forall p, In p file_paths -> p <> canonical ->
                 Fs.node_at directory (tree first) p = Some (Fs.Symlink canonical))
           /\ (forall p, In p file_paths ->
                 (exists c, Fs.node_at directory (tree first) p = Some (Fs.File c))
                 <-> p = canonical).
Proof.
  destruct (live_run follow directory extensions as_completed store t Hwf Hperm)
    as (file_paths & order & s1 & Henum & L & _ & Erun).
  eexists. split; [exact Erun |]. cbn [tree database_file]. split.
  - eapply second_run; eauto. reflexivity.
  - intros file_paths' content E' Hne Hsame.
    set (h := Sha256.hex (Sha256.digest content)). intros Hfresh.
    destruct Henum as (E & Hp & ND & Hreg).
    rewrite E in E'. injection E' as <-.
    assert (Hall : forall p, In p file_paths -> In (p, h) order).
    { intros p Hin. apply (Permutation_in _ Hp) in Hin.
      apply in_map_iff in Hin. destruct Hin as ([p' h'] & Ep & Hin). cbn [fst] in Ep.
      subst p'. destruct (Hreg p h' Hin) as (Hin' & c & Hc & _ & ->).
      rewrite (Hsame p Hin') in Hc. injection Hc as <-. exact Hin. }
    destruct (live_class directory order _ s1 h L) as (i & canonical & h' & Hs & Hnew & Hnodes).
    { destruct file_paths as [| p0 l]; [congruence |]. exists p0. apply Hall. now left. }
    cbn [fs db] in Hnodes, Hnew.
    assert (Hh : h' = h) by (now apply select_some in Hs). subst h'.
    assert (Hin : In canonical file_paths).
    { destruct (Hreg canonical h (Hnew Hfresh)) as [Hin _]. exact Hin. }
    assert (Hcan : Fs.node_at directory (fs s1) canonical = Some (Fs.File content)).
    { specialize (Hnodes canonical (Hall _ Hin)).
      rewrite String.eqb_refl in Hnodes. rewrite Hnodes. now apply Hsame. }
    assert (Hlinks : forall p, In p file_paths -> p <> canonical ->
              Fs.node_at directory (fs s1) p = Some (Fs.Symlink canonical)).
    { intros p Hpin Hneq. specialize (Hnodes p (Hall _ Hpin)).
      destruct (String.eqb_spec canonical p) as [Eq | _]; [congruence | exact Hnodes]. }
    exists i, canonical. cbn [option_map]. rewrite Hs.
    split; [reflexivity |]. split; [exact Hin |]. split; [exact Hcan |].
    split; [exact Hlinks |].
    intros p Hpin. split.
    + intros [c Hc]. destruct (string_dec p canonical) as [-> | Hneq]; [reflexivity |].
      rewrite (Hlinks p Hpin Hneq) in Hc. discriminate.
    + intros ->. now exists content.
Qed.

(** C8. The workers only hash; the loop that looks a digest up, decides
    and inserts or links is one sequential loop over the futures in the
    order they complete, so the commits are serialised whatever that
    order is.  For two enumerated files of the same bytes whose digest
    the table does not hold, and every completion order, a live run
    returns with the digests of the table distinct and exactly one row
    for that digest; the path of that row is an enumerated file of that
    digest which stays as it was, and each of the two files is either
    that path or a link to it.  The digests of the table are distinct
    after every prefix of the commits, in both modes. *)
Theorem same_digest_committed_once
  (follow : string -> string -> option Fs.node)
  (as_completed : list (result (string * string)) -> list (result (string * string)))
  (directory : string) (extensions : list string)
  (store : option Sqlite.database) (t : Fs.node)
  (file_paths : list string) (p q : string) (content : list Byte.byte)
  (Hwf : Fs.wf t)
  (Hperm : forall l, Permutation (as_completed l) l)
  (Hunique : Sqlite.unique (Sqlite.create_table_if_not_exists store))
  (Htraverse : traverse_directory follow directory extensions t = Ok file_paths)
  (Hp : In p file_paths) (Hq : In q file_paths) (Hpq : p <> q)
  (Hcp : Fs.node_at directory t p = Some (Fs.File content))
  (Hcq : Fs.node_at directory t q = Some (Fs.File content))
  (Hfresh : Sqlite.select_by_sha256 (Sha256.hex (Sha256.digest content))
                                    (Sqlite.create_table_if_not_exists store) = None) :
  let h := Sha256.hex (Sha256.digest content) in
  (exists w d row,
     process_files follow as_completed false directory extensions store t = (Ok tt, w)
     /\ database_file w = Some d
     /\ Sqlite.unique d
     /\ filter (Sqlite.has_sha256 h) (Sqlite.files d) = [row]
     /\ In (Sqlite.path row) file_paths
     /\ (exists c, Fs.node_at directory t (Sqlite.path row) = Some (Fs.File c)
                   /\ Sha256.hex (Sha256.digest c) = h
                   /\ Fs.node_at directory (tree w) (Sqlite.path row) = Some (Fs.File c))
     /\ (forall r, r = p \/ r = q -> r <> Sqlite.path row ->
           Fs.node_at directory (tree w) r = Some (Fs.Symlink (Sqlite.path row)))
     /\ (Sqlite.path row <> p \/ Sqlite.path row <> q))
  /\ forall dry_run done rest,
       as_completed (map (calculate_file_hash follow directory t) file_paths)
       = done ++ rest ->
       Sqlite.unique
         (db (snd (for_in done (commit follow dry_run directory)
                          (State t (Sqlite.create_table_if_not_exists store) 0 [])))).
Proof.
  intros h. split.
  - destruct (live_run follow directory extensions as_completed store t Hwf Hperm)
      as (file_paths' & order & s1 & (E & Hpm & ND & Hreg) & L & U & Erun).
    rewrite Htraverse in E. injection E as <-.
    assert (Hin : forall r, In r file_paths ->
              Fs.node_at directory t r = Some (Fs.File content) -> In (r, h) order).
    { intros r Hr Hc. apply (Permutation_in _ Hpm) in Hr.
      apply in_map_iff in Hr. destruct Hr as ([r' h'] & Er & Hr). cbn [fst] in Er.
      subst r'. destruct (Hreg r h' Hr) as (_ & c & Hc' & _ & ->).
      rewrite Hc in Hc'. injection Hc' as <-. exact Hr. }
    destruct (live_class directory order _ s1 h L (ex_intro _ p (Hin p Hp Hcp)))
      as (i & canonical & h' & Hs & Hnew & Hnodes).
    cbn [fs db] in Hnodes, Hnew. specialize (Hnew Hfresh).
    destruct (Hreg canonical h Hnew) as (Hcan & c & Hc & _ & Hh).
    unfold Sqlite.select_by_sha256 in Hs.
    destruct (find (Sqlite.has_sha256 h) (Sqlite.files (db s1))) as [row |] eqn:F;
      [| discriminate].
    cbn [option_map] in Hs. injection Hs as _ Hpath _.
    exists (World (fs s1) (Some (db s1)) (stdout s1 ++ [Saved (total_savings s1)])),
           (db s1), row.
    rewrite Hpath. cbn [database_file tree].
    split; [exact Erun |]. split; [reflexivity |]. split; [now apply U |].
    split; [apply select_filter; [now apply U | exact F] |].
    split; [exact Hcan |]. split.
    { exists c. split; [exact Hc |]. split; [now symmetry |].
      specialize (Hnodes canonical Hnew). rewrite String.eqb_refl in Hnodes. congruence. }
    split.
    { intros r Hr Hne.
      assert (Hrin : In (r, h) order) by (destruct Hr as [-> | ->]; now apply Hin).
      specialize (Hnodes r Hrin).
      destruct (String.eqb_spec canonical r) as [Eq | _]; [congruence | exact Hnodes]. }
    destruct (string_dec canonical p) as [-> | Hne]; [right; congruence | now left].
  - intros dry_run done rest _.
    apply (for_in_invariant (fun s => Sqlite.unique (db s))); [| exact Hunique].
    intros x s _ Us. now apply commit_unique.
Qed.

(* ------------------------------------------------------------------ *)
(** ** Extensions *)

Section SplitextFacts.

Lemma rfind_from_absent c s : forall i acc,
  Py.contains c s = false -> Py.rfind_from c s i acc = acc.
Proof.
  induction s as [| a s IH]; intros i acc H; [reflexivity |].
  cbn [Py.contains] in H. apply orb_false_iff in H. destruct H as [Ha Hs].
  cbn [Py.rfind_from]. rewrite Ha. now apply IH.
Qed.

Lemma rfind_from_last c y s : forall i acc,
  Py.contains c s = false ->
  Py.rfind_from c (y ++ String c s) i acc = i + Py.len y.
Proof.
  unfold Py.len. induction y as [| a y IH]; intros i acc H.
  - cbn [append Py.rfind_from String.length]. rewrite Ascii.eqb_refl.
    rewrite rfind_from_absent by exact H. lia.
  - cbn [append Py.rfind_from String.length]. rewrite IH by exact H. lia.
Qed.

Lemma get_app_here y : forall a r,
  String.get (String.length y) (y ++ String a r) = Some a.
Proof. induction y as [| b y IH]; intros a r; [reflexivity | cbn; apply IH]. Qed.

Lemma take_app y r : Py.take (String.length y) (y ++ r) = y.
Proof. induction y as [| b y IH]; cbn; [now destruct r | now rewrite IH]. Qed.

Lemma drop_app y r : Py.drop (String.length y) (y ++ r) = r.
Proof. induction y as [| b y IH]; cbn; [reflexivity | exact IH]. Qed.

Lemma has_nondot_app_r y r : has_nondot r = true -> has_nondot (y ++ r) = true.
Proof.
  intros H. induction y as [| a y IH]; [exact H |].
  cbn. rewrite IH. apply orb_true_r.
Qed.

Lemma absent_nondot s :
  s <> "" -> Py.contains OsPath.extsep s = false -> has_nondot s = true.
Proof.
  destruct s as [| a s]; [congruence |]. intros _ H.
  cbn [Py.contains] in H. apply orb_false_iff in H. destruct H as [Ha _].
  cbn [has_nondot]. now rewrite Ha.
Qed.

(** The loop stops at the first character that is not a dot, when
    there is one before the last dot. *)
Lemma skip_leading_dots_found r : forall y2 y1,
  has_nondot y2 = true ->
  OsPath.skip_leading_dots (String.length y2) ((y1 ++ y2) ++ r)
                           (Py.len y1) (Py.len (y1 ++ y2))
  = (y1 ++ y2, r)%string.
Proof.
  induction y2 as [| a y2 IH]; intros y1 H; [discriminate |].
  cbn [String.length OsPath.skip_leading_dots].
  assert (Hlt : (Py.len y1 <? Py.len (y1 ++ String a y2)) = true).
  { apply Z.ltb_lt. unfold Py.len. rewrite sapp_length. cbn [String.length]. lia. }
  rewrite Hlt. unfold Py.char_is, Py.len at 1. rewrite Nat2Z.id.
  rewrite sapp_assoc. cbn [append]. rewrite get_app_here.
  destruct (Ascii.eqb a OsPath.extsep) eqn:Ea; cbn [negb].
  - cbn [has_nondot] in H. rewrite Ea in H. cbn [negb orb] in H.
    specialize (IH (y1 ++ String a "")%string H).
    replace ((y1 ++ String a "") ++ y2)%string with (y1 ++ String a y2)%string in IH
      by (now rewrite sapp_assoc).
    replace (Py.len (y1 ++ String a "")) with (Py.len y1 + 1) in IH
      by (unfold Py.len; rewrite sapp_length; cbn [String.length]; lia).
    rewrite sapp_assoc in IH. cbn [append] in IH. exact IH.
  - unfold Py.slice_to, Py.slice_from, Py.len. rewrite Nat2Z.id.
    change (y1 ++ String a (y2 ++ r))%string with (y1 ++ (String a y2 ++ r))%string.
    rewrite <- sapp_assoc. now rewrite take_app, drop_app.
Qed.

(** The extension is what follows the last dot of the name, when a
    character that is not a dot comes before it. *)
Lemma splitext_suffix y s :
  Py.contains OsPath.sep y = false ->
  Py.contains OsPath.sep s = false ->
  Py.contains OsPath.extsep s = false ->
  has_nondot y = true ->
  OsPath.splitext (y ++ "." ++ s) = (y, ("." ++ s)%string).
Proof.
  intros Hy Hs Hdot Hnd. unfold OsPath.splitext.
  assert (Esep : Py.rfind OsPath.sep (y ++ "." ++ s) = -1).
  { apply rfind_from_absent. rewrite contains_app, Hy. cbn. exact Hs. }
  assert (Edot : Py.rfind OsPath.extsep (y ++ "." ++ s) = Py.len y).
  { unfold Py.rfind. change ("." ++ s)%string with (String OsPath.extsep s).
    now rewrite rfind_from_last. }
  rewrite Esep, Edot.
  assert (Hgt : (Py.len y >? -1) = true) by (apply Z.gtb_lt; unfold Py.len; lia).
  rewrite Hgt. cbv zeta.
  replace (Z.to_nat (Py.len y - (-1 + 1))) with (String.length y)
    by (unfold Py.len; lia).
  pose proof (skip_leading_dots_found ("." ++ s) y "" Hnd) as H.
  cbn [append] in H. exact H.
Qed.

(** A name that is a dot and a suffix without dots has no extension. *)
Lemma splitext_dotfile s :
  Py.contains OsPath.sep s = false ->
  Py.contains OsPath.extsep s = false ->
  OsPath.splitext ("." ++ s) = (("." ++ s)%string, "").
Proof.
  intros Hs Hdot. unfold OsPath.splitext.
  assert (Esep : Py.rfind OsPath.sep ("." ++ s) = -1)
    by (apply rfind_from_absent; cbn; exact Hs).
  assert (Edot : Py.rfind OsPath.extsep ("." ++ s) = 0).
  { unfold Py.rfind. cbn [append Py.rfind_from]. rewrite Ascii.eqb_refl.
    now apply rfind_from_absent. }
  rewrite Esep, Edot. reflexivity.
Qed.

End SplitextFacts.

(** C10. The extension of a name is what follows its last dot, and only
    when a character that is not a dot comes before that dot.  For a
    suffix [s] without dots (such as [bin]) and the extension
    [e = "." ++ s]: the name [e] itself has the empty extension, so on
    a request that does not hold the empty string a file named [e] is
    never yielded; a name [stem ++ e ++ ".txt"] has the extension
    [".txt"], so a request of [e] alone (other than [".txt"]) does not
    match it; and a name [stem ++ ".tar" ++ e] has the extension [e]. *)
Theorem splitext_last_suffix (s stem : string)
  (Hs : s <> "")
  (Hdot : Py.contains OsPath.extsep s = false)
  (Hsep : Py.contains OsPath.sep s = false)
  (Hstem : Py.contains OsPath.sep stem = false) :
  let e := ("." ++ s)%string in
  OsPath.splitext e = (e, "")
  /\ (forall follow directory extensions t file_paths p ds,
        Fs.wf t -> ~ In "" extensions ->
        traverse_directory follow directory extensions t = Ok file_paths ->
        In p file_paths ->
        Fs.components directory p <> Some (ds ++ [e]))
  /\ OsPath.splitext (stem ++ e ++ ".txt") = ((stem ++ e)%string, ".txt")
  /\ (e <> ".txt" -> Py.mem (snd (OsPath.splitext (stem ++ e ++ ".txt"))) [e] = false)
  /\ OsPath.splitext (stem ++ ".tar" ++ e) = ((stem ++ ".tar")%string, e)
  /\ Py.mem (snd (OsPath.splitext (stem ++ ".tar" ++ e))) [e] = true.
Proof.
  intros e.
  assert (E1 : OsPath.splitext e = (e, "")) by (now apply splitext_dotfile).
  assert (E2 : OsPath.splitext (stem ++ e ++ ".txt") = ((stem ++ e)%string, ".txt")).
  { rewrite <- sapp_assoc. apply (splitext_suffix (stem ++ e) "txt"); try reflexivity.
    - rewrite contains_app, Hstem. cbn. exact Hsep.
    - apply has_nondot_app_r. unfold e. cbn [append has_nondot].
      rewrite (absent_nondot s Hs Hdot). apply orb_true_r. }
  assert (E3 : OsPath.splitext (stem ++ ".tar" ++ e) = ((stem ++ ".tar")%string, e)).
  { rewrite <- sapp_assoc. apply (splitext_suffix (stem ++ ".tar") s); try assumption.
    - rewrite contains_app, Hstem. reflexivity.
    - apply has_nondot_app_r. reflexivity. }
  split; [exact E1 |]. split.
  { intros follow directory extensions t file_paths p ds W Hno E Hin C.
    destruct (traverse_directory_sound follow directory extensions t file_paths p W E Hin)
      as (ds' & name & content & -> & V & _ & _ & _ & Hext).
    rewrite components_render in C; [| now destruct ds' | exact V].
    injection C as C. apply app_inj_tail in C. destruct C as [_ ->].
    rewrite E1 in Hext. cbn [snd] in Hext. apply mem_In in Hext. contradiction. }
  split; [exact E2 |]. split.
  { intros Hne. rewrite E2. cbn [snd Py.mem existsb].
    destruct (String.eqb_spec ".txt" e) as [E | _]; [congruence | reflexivity]. }
  split; [exact E3 |].
  rewrite E3. cbn [snd Py.mem existsb]. now rewrite String.eqb_refl.
Qed.

(* ------------------------------------------------------------------ *)
(** ** Exceptions *)

Lemma for_in_app {A} (l1 l2 : list A) (body : A -> M unit) : forall s,
  for_in (l1 ++ l2) body s =
  match for_in l1 body s with
  | (Ok _, s') => for_in l2 body s'
  | (Raise e, s') => (Raise e, s')
  end.
Proof.
  induction l1 as [| x l1 IH]; intros s; [reflexivity |].
  cbn [app]. rewrite !for_in_cons.
  destruct (body x s) as [[[] | e] s']; [apply IH | reflexivity].
Qed.

Lemma stat_missing follow directory t p :
  Fs.node_at directory t p = None ->
  Fs.stat follow directory t p = Raise FileNotFoundError.
Proof. intros H. unfold Fs.stat. now rewrite H. Qed.

Lemma remove_at_dir cs : forall n sz es,
  Fs.resolve n cs = Some (Fs.Dir sz es) ->
  Fs.remove_at n cs = Raise IsADirectoryError.
Proof.
  induction cs as [| c cs IH]; intros n sz es R; [reflexivity |].
  destruct n as [| | sz0 es0]; try discriminate. cbn [Fs.resolve] in R.
  destruct (Fs.lookup_name c es0) as [child |] eqn:L; [| discriminate].
  destruct cs as [| c2 cs].
  - cbn [Fs.resolve] in R. injection R as ->. cbn [Fs.remove_at]. now rewrite L.
  - rewrite (remove_at_below _ _ _ _ _ _ L), (IH child sz es R). reflexivity.
Qed.

(** C6 as the code has it.  An exception of a worker is not caught:
    [future.result()] raises it again in the loop, which leaves the
    state as it is and ends there, so the results that completed
    earlier stay committed and neither that file nor any later one is
    inserted or linked.  Hashing a path that names nothing any more
    raises [FileNotFoundError]. *)
Theorem hash_failure_ends_run :
  (forall follow directory t p,
     Fs.node_at directory t p = None ->
     calculate_file_hash follow directory t p = Raise FileNotFoundError)
  /\ (forall follow dry_run directory e s,
        commit follow dry_run directory (Raise e) s = (Raise e, s))
  /\ (forall follow dry_run directory done e rest s,
        for_in (done ++ Raise e :: rest) (commit follow dry_run directory) s
        = match for_in done (commit follow dry_run directory) s with
          | (Ok _, s') => (Raise e, s')
          | (Raise e', s') => (Raise e', s')
          end).
Proof.
  split.
  { intros follow directory t p H. unfold calculate_file_hash, Fs.open_rb.
    now rewrite stat_missing. }
  split; [reflexivity |].
  intros follow dry_run directory done e rest s. rewrite for_in_app.
  destruct (for_in done (commit follow dry_run directory) s) as [[[] | e'] s'];
    reflexivity.
Qed.

Lemma commit_amid_unfold follow after_remove dry_run directory file_path hash_value s :
  commit_amid follow after_remove dry_run directory (Ok (file_path, hash_value)) s =
  match Sqlite.select_by_sha256 hash_value (db s) with
  | Some (_, path, _) =>
      if String.eqb path file_path then (Ok tt, s)
      else
        match Fs.getsize follow directory (fs s) file_path with
        | Raise e => (Raise e, s)
        | Ok n =>
            if dry_run then
              (Ok tt, State (fs s) (db s) (total_savings s + n)
                            (stdout s ++ [CanBeSymlinked file_path path n]))
            else
              let out := stdout s ++ [Symlinking file_path path n] in
              match Fs.remove directory (fs s) file_path with
              | Raise e => (Raise e, State (fs s) (db s) (total_savings s + n) out)
              | Ok t =>
                  match Fs.symlink directory (after_remove t) path file_path with
                  | Raise e =>
                      (Raise e, State (after_remove t) (db s) (total_savings s + n) out)
                  | Ok t' => (Ok tt, State t' (db s) (total_savings s + n) out)
                  end
              end
        end
  | None =>
      match Sqlite.insert (OsPath.basename file_path) file_path hash_value (db s) with
      | Ok d =>
          (Ok tt, State (fs s) d (total_savings s)
                        (stdout s ++ [AddedNewFile file_path hash_value]))
      | Raise e => (Raise e, s)
      end
  end.
Proof.
  unfold commit_amid, and_then, future_result, lookup_hash.
  destruct (Sqlite.select_by_sha256 hash_value (db s)) as [[[i path] h] |].
  - destruct (String.eqb path file_path); cbn [negb]; [reflexivity |].
    unfold getsize. destruct (Fs.getsize follow directory (fs s) file_path) as [n | e];
      [| reflexivity].
    unfold add_savings. destruct dry_run; cbn [Bool.eqb]; [reflexivity |].
    unfold print, remove, interfere, symlink. cbn [fs db total_savings stdout].
    destruct (Fs.remove directory (fs s) file_path) as [t | e]; [| reflexivity].
    cbn [fs db total_savings stdout].
    destruct (Fs.symlink directory (after_remove t) path file_path); reflexivity.
  - unfold save_hash, print.
    destruct (Sqlite.insert (OsPath.basename file_path) file_path hash_value (db s));
      reflexivity.
Qed.

(** Without interference the body is [commit]. *)
Lemma commit_amid_alone follow dry_run directory future s :
  commit_amid follow (fun tree => tree) dry_run directory future s
  = commit follow dry_run directory future s.
Proof.
  destruct future as [[p h] | e]; [| reflexivity].
  now rewrite commit_amid_unfold, commit_unfold.
Qed.

(** A link cannot be made where a path names something. *)
Lemma symlink_at_exists target : forall cs n m,
  cs <> [] -> Fs.resolve n cs = Some m ->
  Fs.symlink_at target n cs = Raise FileExistsError.
Proof.
  induction cs as [| c cs IH]; intros n m Hne R; [now destruct Hne |].
  destruct n as [| | sz es]; try discriminate. cbn [Fs.resolve] in R.
  destruct (Fs.lookup_name c es) as [child |] eqn:L; [| discriminate].
  destruct cs as [| c2 cs].
  - cbn [Fs.symlink_at]. now rewrite L.
  - rewrite (symlink_at_below _ _ _ _ _ _ _ L), (IH child m); [reflexivity | discriminate | exact R].
Qed.

Lemma symlink_exists directory t target p n :
  Fs.node_at directory t p = Some n ->
  Fs.symlink directory t target p = Raise FileExistsError.
Proof.
  unfold Fs.node_at, Fs.symlink. intros H.
  destruct (Fs.components directory p) as [cs |] eqn:E; [| discriminate].
  destruct (render_components _ _ _ E) as (_ & Hne & _).
  now apply (symlink_at_exists target cs t n).
Qed.

(** C5 as the code has it.  For a file that the table holds under
    another path, a live iteration asks for the size of the path, prints
    its line, removes the path and creates the link, with no check in
    between and no handler: an exception of any of the three calls ends
    the loop there, with the state the failed call left, and the
    remaining futures are not processed.  When the removal or the link
    creation fails the line of the file is already printed and its size
    already counted; after a failed link creation the file is removed
    and no link exists.  A path of the walk that names nothing any more
    fails at the size; a path that names a directory passes the size and
    fails at the removal; and when somebody else puts something at the
    path between the removal and the link creation, the link creation
    fails. *)
Theorem replace_failure_ends_run
  (follow : string -> string -> option Fs.node)
  (after_remove : Fs.node -> Fs.node)
  (directory p h : string) (rest : list (result (string * string)))
  (s : state) (i : Z) (path h' : string)
  (Hrow : Sqlite.select_by_sha256 h (db s) = Some (i, path, h'))
  (Hother : String.eqb path p = false) :
  for_in (Ok (p, h) :: rest) (commit_amid follow after_remove false directory) s
  = match Fs.getsize follow directory (fs s) p with
    | Raise e => (Raise e, s)
    | Ok n =>
        let out := stdout s ++ [Symlinking p path n] in
        match Fs.remove directory (fs s) p with
        | Raise e => (Raise e, State (fs s) (db s) (total_savings s + n) out)
        | Ok t1 =>
            match Fs.symlink directory (after_remove t1) path p with
            | Raise e =>
                (Raise e, State (after_remove t1) (db s) (total_savings s + n) out)
            | Ok t2 =>
                for_in rest (commit_amid follow after_remove false directory)
                       (State t2 (db s) (total_savings s + n) out)
            end
        end
    end
  /\ (forall dry_run future s',
        commit_amid follow (fun tree => tree) dry_run directory future s'
        = commit follow dry_run directory future s')
  /\ (forall cs,
        cs <> [] -> Forall (fun c => Fs.valid_name c = true) cs ->
        p = Fs.render directory cs ->
        Fs.resolve (fs s) cs = None ->
        Fs.getsize follow directory (fs s) p = Raise FileNotFoundError)
  /\ (forall sz es,
        Fs.node_at directory (fs s) p = Some (Fs.Dir sz es) ->
        Fs.getsize follow directory (fs s) p = Ok sz
        /\ Fs.remove directory (fs s) p = Raise IsADirectoryError)
  /\ (forall t1 n,
        Fs.node_at directory (after_remove t1) p = Some n ->
        Fs.symlink directory (after_remove t1) path p = Raise FileExistsError).
Proof.
  split.
  { rewrite for_in_cons, commit_amid_unfold, Hrow, Hother.
    destruct (Fs.getsize follow directory (fs s) p) as [n | e]; [| reflexivity].
    cbv zeta. destruct (Fs.remove directory (fs s) p) as [t1 | e]; [| reflexivity].
    destruct (Fs.symlink directory (after_remove t1) path p); reflexivity. }
  split; [intros dry_run future s'; apply commit_amid_alone |].
  split.
  { intros cs Hne V -> R. unfold Fs.getsize.
    rewrite stat_missing; [reflexivity |].
    now rewrite node_at_render. }
  split.
  { intros sz es H. split.
    - unfold Fs.getsize, Fs.stat. now rewrite H.
    - unfold Fs.node_at, Fs.remove in *.
      destruct (Fs.components directory p) as [cs |]; [| discriminate].
      eapply remove_at_dir. exact H. }
  intros t1 n H. now apply (symlink_exists directory _ path p n).
Qed.

(* ------------------------------------------------------------------ *)
(** ** The sample trees *)

Ltac wf_tree :=
  repeat match goal with
    | |- Fs.wf (Fs.File _) => constructor
    | |- Fs.wf (Fs.Symlink _) => constructor
    | |- Fs.wf (Fs.Dir _ _) => constructor
    | |- NoDup _ => constructor
    | |- Forall _ _ => constructor
    | |- ~ In _ _ => cbn; intuition discriminate
    | |- Fs.valid_name _ = true => reflexivity
    | |- forall name child, In _ _ -> _ =>
        let H := fresh in
        intros ? ? H; cbn in H;
        repeat (destruct H as [H | H]; [injection H as <- <- |]); [.. | destruct H]
    end.

Lemma models_wf : Fs.wf Sample.models.
Proof. unfold Sample.models. wf_tree. Qed.

Lemma twins_wf : Fs.wf Sample.twins.
Proof. unfold Sample.twins. wf_tree. Qed.

Lemma dotted_wf : Fs.wf Sample.dotted.
Proof. unfold Sample.dotted. wf_tree. Qed.

Lemma three_wf : Fs.wf Sample.three.
Proof. unfold Sample.three. wf_tree. Qed.

Lemma in_order_perm l : Permutation (Sample.in_order l) l.
Proof. apply Permutation_refl. Qed.

Lemma reversed_perm l : Permutation (Sample.reversed l) l.
Proof. apply Permutation_sym, Permutation_rev. Qed.

Example sample_digests :
  Sha256.hex (Sha256.digest Sample.ab) = Sample.sha_ab
  /\ Sha256.hex (Sha256.digest Sample.c) = Sample.sha_c.
Proof. split; vm_compute; reflexivity. Qed.

Example traverse_models :
  traverse_directory Sample.nofollow "models" [".bin"] Sample.models
  = Ok ["models/a.bin"; "models/c.bin"; "models/sub/b.bin"].
Proof. vm_compute. reflexivity. Qed.

Example traverse_dotted :
  traverse_directory Sample.nofollow "d" [".bin"] Sample.dotted = Ok ["d/x.tar.bin"].
Proof. vm_compute. reflexivity. Qed.

(** The scenarios of the spec: a live run and a dry run on [a.bin],
    [b.bin] (same bytes) and [c.bin]. *)
Example live_scenario :
  process_files Sample.nofollow Sample.in_order false "models" [".bin"] None Sample.three
  = (Ok tt,
     World (Fs.Dir 4096 [("a.bin", Fs.File Sample.ab); ("c.bin", Fs.File Sample.c);
                         ("b.bin", Fs.Symlink "models/a.bin")])
           (Some (Sqlite.Db [Sqlite.Row 1 "a.bin" "models/a.bin" Sample.sha_ab;
                             Sqlite.Row 2 "c.bin" "models/c.bin" Sample.sha_c] 2))
           [AddedNewFile "models/a.bin" Sample.sha_ab;
            Symlinking "models/b.bin" "models/a.bin" 2;
            AddedNewFile "models/c.bin" Sample.sha_c;
            Saved 2]).
Proof. vm_compute. reflexivity. Qed.

Example dry_scenario :
  process_files Sample.nofollow Sample.in_order true "models" [".bin"] None Sample.three
  = (Ok tt,
     World Sample.three
           (Some (Sqlite.Db [Sqlite.Row 1 "a.bin" "models/a.bin" Sample.sha_ab;
                             Sqlite.Row 2 "c.bin" "models/c.bin" Sample.sha_c] 2))
           [AddedNewFile "models/a.bin" Sample.sha_ab;
            CanBeSymlinked "models/b.bin" "models/a.bin" 2;
            AddedNewFile "models/c.bin" Sample.sha_c;
            TotalPossibleSavings 2]).
Proof. vm_compute. reflexivity. Qed.

(* ------------------------------------------------------------------ *)
(** ** Instances *)

(** [commit_decision] on [b.bin] of [three], with [a.bin] registered. *)
Lemma commit_decision_witness :
  Fs.node_at "models" Sample.three "models/b.bin" = Some (Fs.File Sample.ab)
  /\ exists s',
       commit Sample.nofollow false "models" (Ok ("models/b.bin", Sample.sha_ab))
              (State Sample.three Sample.registered 0 [])
       = (Ok tt, s').
Proof.
  split; [reflexivity |].
  destruct (commit_decision Sample.nofollow false "models" "models/b.bin" Sample.sha_ab
              Sample.ab (State Sample.three Sample.registered 0 []) eq_refl)
    as (s' & E & _).
  exists s'. exact E.
Defined.

(** [live_run_idempotent] on [twins]: first in order, then in reverse. *)
Lemma live_run_idempotent_witness :
  Fs.wf Sample.twins
  /\ (forall l, Permutation (Sample.in_order l) l)
  /\ (forall l, Permutation (Sample.reversed l) l)
  /\ exists first,
       process_files Sample.nofollow Sample.in_order false "models" [".bin"] None
                     Sample.twins = (Ok tt, first)
       /\ process_files Sample.nofollow Sample.reversed false "models" [".bin"]
                        (database_file first) (tree first)
          = (Ok tt, World (tree first) (database_file first) [Saved 0])
       /\ exists canonical,
            In canonical ["models/a.bin"; "models/b.bin"]
            /\ Fs.node_at "models" (tree first) canonical = Some (Fs.File Sample.ab)
            /\ forall p, In p ["models/a.bin"; "models/b.bin"] -> p <> canonical ->
                 Fs.node_at "models" (tree first) p = Some (Fs.Symlink canonical).
Proof.
  split; [exact twins_wf |]. split; [exact in_order_perm |].
  split; [exact reversed_perm |].
  destruct (live_run_idempotent Sample.nofollow Sample.in_order Sample.reversed "models"
              [".bin"] None Sample.twins twins_wf in_order_perm reversed_perm)
    as (first & E1 & E2 & H).
  exists first. split; [exact E1 |]. split; [exact E2 |].
  assert (Hne : ["models/a.bin"; "models/b.bin"] <> []) by discriminate.
  destruct (H ["models/a.bin"; "models/b.bin"] Sample.ab eq_refl Hne) as
    (i & canonical & _ & Hin & Hcan & Hlinks & _).
  - intros p [<- | [<- | []]]; reflexivity.
  - reflexivity.
  - exists canonical. auto.
Defined.

(** [replace_failure_ends_run] on [b.bin] turned into a directory, and
    on [b.bin] written again after its removal. *)
Lemma replace_failure_ends_run_witness :
  Sqlite.select_by_sha256 Sample.sha_ab Sample.registered
  = Some (1, "models/a.bin", Sample.sha_ab)
  /\ String.eqb "models/a.bin" "models/b.bin" = false
  /\ Fs.remove "models" (Sample.b_replaced Sample.three) "models/b.bin"
     = Raise IsADirectoryError
  /\ for_in [Ok ("models/b.bin", Sample.sha_ab); Ok ("models/c.bin", Sample.sha_c)]
            (commit_amid Sample.nofollow Sample.b_rewritten false "models")
            (State Sample.three Sample.registered 0 [])
     = (Raise FileExistsError,
        State (Sample.b_rewritten Sample.three) Sample.registered 2
              [Symlinking "models/b.bin" "models/a.bin" 2])
  /\ Fs.getsize Sample.nofollow "models" (Sample.a_deleted Sample.three) "models/a.bin"
     = Raise FileNotFoundError.
Proof.
  split; [reflexivity |]. split; [reflexivity |]. split; [| split].
  - destruct (replace_failure_ends_run Sample.nofollow (fun tree => tree)
                "models" "models/b.bin" Sample.sha_ab
                [] (State (Sample.b_replaced Sample.three) Sample.registered 0 [])
                1 "models/a.bin" Sample.sha_ab eq_refl eq_refl)
      as (_ & _ & _ & H & _).
    exact (proj2 (H 4096 [] eq_refl)).
  - destruct (replace_failure_ends_run Sample.nofollow Sample.b_rewritten
                "models" "models/b.bin" Sample.sha_ab
                [Ok ("models/c.bin", Sample.sha_c)]
                (State Sample.three Sample.registered 0 [])
                1 "models/a.bin" Sample.sha_ab eq_refl eq_refl)
      as (E & _).
    exact E.
  - assert (Hne : ["a.bin"] <> []) by discriminate.
    assert (V : Forall (fun c => Fs.valid_name c = true) ["a.bin"])
      by (constructor; [reflexivity | constructor]).
    destruct (replace_failure_ends_run Sample.nofollow (fun tree => tree)
                "models" "models/a.bin" Sample.sha_ab
                [] (State (Sample.a_deleted Sample.three)
                          (Sqlite.Db [Sqlite.Row 1 "b.bin" "models/b.bin" Sample.sha_ab] 1)
                          0 [])
                1 "models/b.bin" Sample.sha_ab eq_refl eq_refl)
      as (_ & _ & H & _).
    exact (H ["a.bin"] Hne V eq_refl eq_refl).
Defined.

(** [scanner_filters] on [models]. *)
Lemma scanner_filters_witness :
  Fs.wf Sample.models
  /\ exists file_paths,
       traverse_directory Sample.nofollow "models" [".bin"] Sample.models = Ok file_paths
       /\ forall p, In p file_paths -> Fs.islink "models" Sample.models p = false.
Proof.
  split; [exact models_wf |].
  destruct (scanner_filters Sample.nofollow "models" [".bin"] Sample.models models_wf)
    as (file_paths & E & H & _).
  exists file_paths. split; [exact E |].
  intros p Hp. exact (proj1 (proj2 (H p Hp))).
Defined.

(** [same_digest_committed_once] on [a.bin] and [b.bin] of [three], the
    futures completing in reverse order. *)
Lemma same_digest_committed_once_witness :
  Fs.wf Sample.three
  /\ (forall l, Permutation (Sample.reversed l) l)
  /\ Sqlite.unique (Sqlite.create_table_if_not_exists None)
  /\ traverse_directory Sample.nofollow "models" [".bin"] Sample.three
     = Ok ["models/a.bin"; "models/b.bin"; "models/c.bin"]
  /\ Fs.node_at "models" Sample.three "models/a.bin" = Some (Fs.File Sample.ab)
  /\ Fs.node_at "models" Sample.three "models/b.bin" = Some (Fs.File Sample.ab)
  /\ Sqlite.select_by_sha256 (Sha256.hex (Sha256.digest Sample.ab))
                             (Sqlite.create_table_if_not_exists None) = None
  /\ exists w d row,
       process_files Sample.nofollow Sample.reversed false "models" [".bin"] None
                     Sample.three = (Ok tt, w)
       /\ database_file w = Some d
       /\ filter (Sqlite.has_sha256 (Sha256.hex (Sha256.digest Sample.ab)))
                 (Sqlite.files d) = [row].
Proof.
  assert (U : Sqlite.unique (Sqlite.create_table_if_not_exists None)) by constructor.
  assert (T : traverse_directory Sample.nofollow "models" [".bin"] Sample.three
              = Ok ["models/a.bin"; "models/b.bin"; "models/c.bin"])
    by (vm_compute; reflexivity).
  split; [exact three_wf |]. split; [exact reversed_perm |]. split; [exact U |].
  split; [exact T |]. split; [reflexivity |]. split; [reflexivity |].
  split; [reflexivity |].
  destruct (same_digest_committed_once Sample.nofollow Sample.reversed "models" [".bin"]
              None Sample.three ["models/a.bin"; "models/b.bin"; "models/c.bin"]
              "models/a.bin" "models/b.bin" Sample.ab
              three_wf reversed_perm U T
              (or_introl eq_refl) (or_intror (or_introl eq_refl))
              ltac:(discriminate) eq_refl eq_refl eq_refl)
    as ((w & d & row & E & Ed & _ & F & _) & _).
  exists w, d, row. auto.
Defined.

(** [calculate_file_hash_deterministic] on [a.bin] of [three] and
    [sub/b.bin] of [models]. *)
Lemma calculate_file_hash_deterministic_witness :
  Fs.open_rb Sample.nofollow "models" Sample.three "models/a.bin" = Ok Sample.ab
  /\ Fs.open_rb Sample.nofollow "models" Sample.models "models/sub/b.bin" = Ok Sample.ab
  /\ exists digest,
       calculate_file_hash Sample.nofollow "models" Sample.three "models/a.bin"
       = Ok ("models/a.bin", digest)
       /\ calculate_file_hash Sample.nofollow "models" Sample.models "models/sub/b.bin"
          = Ok ("models/sub/b.bin", digest)
       /\ String.length digest = 64%nat.
Proof.
  split; [reflexivity |]. split; [reflexivity |].
  destruct (calculate_file_hash_deterministic Sample.nofollow "models" "models"
              Sample.three Sample.models "models/a.bin" "models/sub/b.bin" Sample.ab
              eq_refl eq_refl)
    as (digest & E1 & E2 & _ & Hlen & _).
  exists digest. auto.
Defined.

(** [splitext_last_suffix] at the suffix [bin] and the stem [x]. *)
Lemma splitext_last_suffix_witness :
  "bin" <> ""
  /\ Py.contains OsPath.extsep "bin" = false
  /\ Py.contains OsPath.sep "bin" = false
  /\ Py.contains OsPath.sep "x" = false
  /\ OsPath.splitext ".bin" = (".bin", "")
  /\ OsPath.splitext "x.bin.txt" = ("x.bin", ".txt")
  /\ OsPath.splitext "x.tar.bin" = ("x.tar", ".bin").
Proof.
  assert (N : "bin" <> "") by discriminate.
  split; [exact N |]. split; [reflexivity |]. split; [reflexivity |].
  split; [reflexivity |].
  destruct (splitext_last_suffix "bin" "x" N eq_refl eq_refl eq_refl)
    as (E1 & _ & E2 & _ & E3 & _).
  auto.
Defined.

(* ------------------------------------------------------------------ *)
(** ** Where the code leaves the spec *)

(** Against C4: the table holds the digest of the two files of [twins]
    under a path outside the tree.  The live run turns both into links
    to that path, so none of them is a regular file afterwards. *)
Lemma indexed_elsewhere_no_survivor :
  traverse_directory Sample.nofollow "models" [".bin"] Sample.twins
  = Ok ["models/a.bin"; "models/b.bin"]
  /\ process_files Sample.nofollow Sample.in_order false "models" [".bin"]
                   (Some Sample.indexed) Sample.twins
     = (Ok tt,
        World (Fs.Dir 4096 [("a.bin", Fs.Symlink "elsewhere/first.bin");
                            ("b.bin", Fs.Symlink "elsewhere/first.bin")])
              (Some Sample.indexed)
              [Symlinking "models/a.bin" "elsewhere/first.bin" 2;
               Symlinking "models/b.bin" "elsewhere/first.bin" 2;
               Saved 4]).
Proof. split; vm_compute; reflexivity. Qed.

(** Against C6: [a.bin] of [three] is deleted after the enumeration.
    Its future raises, the loop raises it again at once and the run
    ends: [b.bin] and [c.bin], which can be read, are not registered,
    and nothing is printed. *)
Lemma vanished_file_ends_run :
  traverse_directory Sample.nofollow "models" [".bin"] Sample.three
  = Ok ["models/a.bin"; "models/b.bin"; "models/c.bin"]
  /\ calculate_file_hash Sample.nofollow "models" (Sample.a_deleted Sample.three)
                         "models/c.bin" = Ok ("models/c.bin", Sample.sha_c)
  /\ process_files_amid Sample.nofollow Sample.in_order
                        Sample.a_deleted (fun tree => tree)
                        false "models" [".bin"] None Sample.three
     = (Raise FileNotFoundError,
        World (Sample.a_deleted Sample.three) (Some Sqlite.empty) []).
Proof. repeat split; vm_compute; reflexivity. Qed.

(** Against C5: [b.bin] of [three], a duplicate of [a.bin], is replaced
    by a directory after the hashing.  The loop does not check what the
    path names: it prints its line and calls [os.remove], which raises,
    and the run ends there: [c.bin] is not registered and no total is
    printed. *)
Lemma replaced_duplicate_ends_run :
  process_files_amid Sample.nofollow Sample.in_order
                     (fun tree => tree) Sample.b_replaced
                     false "models" [".bin"] None Sample.three
  = (Raise IsADirectoryError,
     World (Sample.b_replaced Sample.three)
           (Some Sample.registered)
           [AddedNewFile "models/a.bin" Sample.sha_ab;
            Symlinking "models/b.bin" "models/a.bin" 4096]).
Proof. vm_compute. reflexivity. Qed.

(* ================================================================== *)
(** * Further properties *)

(* ------------------------------------------------------------------ *)
(** ** Saving and looking up *)

Lemma next_id_above d r : In r (Sqlite.files d) -> Sqlite.id r < Sqlite.next_id d.
Proof.
  unfold Sqlite.next_id.
  assert (G : forall l acc, acc <= fold_left Z.max l acc).
  { induction l as [| x l IH]; intros acc; cbn [fold_left]; [lia |].
    specialize (IH (Z.max acc x)). lia. }
  assert (H : forall l acc x, In x l -> x <= fold_left Z.max l acc).
  { induction l as [| y l IH]; intros acc x []; cbn [fold_left].
    - subst y. specialize (G l (Z.max acc x)). lia.
    - now apply IH. }
  intros Hin. apply (in_map Sqlite.id) in Hin.
  specialize (H _ (Sqlite.sqlite_sequence d) _ Hin). lia.
Qed.

(** X1. A digest that [save_hash] stored is found by [lookup_hash]
    under the path it was stored with; the digest had no row before;
    every other digest is looked up as before; the new row gets an id
    above every id of the table; and a second [save_hash] of the digest,
    with whatever path, raises [IntegrityError] and changes nothing. *)
Theorem save_then_lookup (file_path hash : string) (s s' : state)
  (Hsaved : save_hash file_path hash s = (Ok tt, s')) :
  lookup_hash hash s = (Ok None, s)
  /\ lookup_hash hash s' = (Ok (Some (Sqlite.next_id (db s), file_path, hash)), s')
  /\ (forall other, other <> hash -> fst (lookup_hash other s') = fst (lookup_hash other s))
  /\ (forall r, In r (Sqlite.files (db s)) -> Sqlite.id r < Sqlite.next_id (db s))
  /\ Sqlite.files (db s')
     = Sqlite.files (db s)
       ++ [Sqlite.Row (Sqlite.next_id (db s)) (OsPath.basename file_path) file_path hash]
  /\ (forall other_path,
        save_hash other_path hash s' = (Raise IntegrityError, s'))
  /\ fs s' = fs s /\ total_savings s' = total_savings s /\ stdout s' = stdout s.
Proof.
  unfold save_hash in Hsaved.
  destruct (Sqlite.insert (OsPath.basename file_path) file_path hash (db s)) as [d |] eqn:E;
    [| discriminate].
  injection Hsaved as <-. cbn [db fs total_savings stdout].
  pose proof (insert_inv _ _ _ _ _ E) as [Hnone Hd].
  assert (Hfound : Sqlite.select_by_sha256 hash d
                   = Some (Sqlite.next_id (db s), file_path, hash)).
  { rewrite (select_after_insert _ _ _ _ _ hash E), Hnone. now rewrite String.eqb_refl. }
  unfold lookup_hash. cbn [db fst].
  split; [now rewrite Hnone |]. split; [now rewrite Hfound |]. split.
  { intros other Hne. rewrite (select_after_insert _ _ _ _ _ other E).
    destruct (Sqlite.select_by_sha256 other (db s)); [reflexivity |].
    destruct (String.eqb_spec hash other); [congruence | reflexivity]. }
  split; [intros r; apply next_id_above |].
  split; [now rewrite Hd |].
  split; [| auto].
  intros other_path. apply save_hash_refused. cbn [db]. congruence.
Qed.

(* ------------------------------------------------------------------ *)
(** ** The table a loop leaves *)

Section IndexFacts.

Lemma index_after_cons p h order d :
  index_after ((p, h) :: order) d
  = match Sqlite.select_by_sha256 h d with
    | None =>
        index_after order
          (Sqlite.Db (Sqlite.files d
                      ++ [Sqlite.Row (Sqlite.next_id d) (OsPath.basename p) p h])
                     (Sqlite.next_id d))
    | Some _ => index_after order d
    end.
Proof.
  cbn [index_after].
  destruct (Sqlite.select_by_sha256 h d) as [r |] eqn:E.
  - now rewrite insert_refused by congruence.
  - now rewrite insert_accepted.
Qed.

Lemma index_after_stable order : forall d h r,
  Sqlite.select_by_sha256 h d = Some r ->
  Sqlite.select_by_sha256 h (index_after order d) = Some r.
Proof.
  induction order as [| [p h0] order IH]; intros d h r H; [exact H |].
  cbn [index_after].
  destruct (Sqlite.insert (OsPath.basename p) p h0 d) as [d' |] eqn:E; [| now apply IH].
  apply IH. rewrite (select_after_insert _ _ _ _ _ h E). now rewrite H.
Qed.

Lemma index_after_prefix order : forall d,
  exists added, Sqlite.files (index_after order d) = Sqlite.files d ++ added.
Proof.
  induction order as [| [p h] order IH]; intros d.
  - exists []. now rewrite app_nil_r.
  - cbn [index_after].
    destruct (Sqlite.insert (OsPath.basename p) p h d) as [d' |] eqn:E; [| apply IH].
    apply insert_inv in E. destruct E as [_ ->].
    destruct (IH (Sqlite.Db (Sqlite.files d
                             ++ [Sqlite.Row (Sqlite.next_id d) (OsPath.basename p) p h])
                            (Sqlite.next_id d))) as [added Hadded].
    rewrite Hadded. cbn [Sqlite.files]. rewrite <- app_assoc. eauto.
Qed.

(** The first path of a digest gets its row. *)
Lemma index_after_first order : forall d pre p h post,
  order = pre ++ (p, h) :: post ->
  Sqlite.select_by_sha256 h d = None ->
  (forall q h', In (q, h') pre -> h' <> h) ->
  exists i, Sqlite.select_by_sha256 h (index_after order d) = Some (i, p, h).
Proof.
  intros d pre. revert d order.
  induction pre as [| [q h'] pre IH]; intros d order p h post -> Hnone Hpre.
  - cbn [app]. rewrite index_after_cons, Hnone.
    eexists. apply index_after_stable.
    erewrite select_after_insert by (apply insert_accepted; exact Hnone).
    rewrite Hnone. now rewrite String.eqb_refl.
  - cbn [app index_after].
    assert (Hne : h' <> h) by (apply (Hpre q); now left).
    destruct (Sqlite.insert (OsPath.basename q) q h' d) as [d' |] eqn:E.
    + apply (IH d' _ p h post eq_refl).
      * rewrite (select_after_insert _ _ _ _ _ h E), Hnone.
        destruct (String.eqb_spec h' h); [congruence | reflexivity].
      * intros q0 h0 Hin. apply (Hpre q0). now right.
    + apply (IH d _ p h post eq_refl Hnone).
      intros q0 h0 Hin. apply (Hpre q0). now right.
Qed.

Lemma index_after_indexed order : forall d p h,
  In (p, h) order -> Sqlite.select_by_sha256 h (index_after order d) <> None.
Proof.
  induction order as [| [q h'] order IH]; intros d p h []; cbn [index_after].
  - injection H as -> ->.
    destruct (Sqlite.insert (OsPath.basename p) p h d) as [d' |] eqn:E.
    + assert (F : Sqlite.select_by_sha256 h d' = Some (Sqlite.next_id d, p, h)).
      { rewrite (select_after_insert _ _ _ _ _ h E).
        destruct (insert_inv _ _ _ _ _ E) as [-> _]. now rewrite String.eqb_refl. }
      rewrite (index_after_stable order _ _ _ F). discriminate.
    + destruct (Sqlite.select_by_sha256 h d) as [r |] eqn:F.
      * rewrite (index_after_stable order _ _ _ F). discriminate.
      * rewrite insert_accepted in E by exact F. discriminate.
  - destruct (Sqlite.insert (OsPath.basename q) q h' d); now apply (IH _ p).
Qed.

Variable follow : string -> string -> option Fs.node.
Variable directory : string.

(** A dry loop over regular files: the tree stays, the table becomes
    [index_after]. *)
Lemma dry_loop_index : forall order s,
  (forall e, In e order ->
     exists content, Fs.node_at directory (fs s) (fst e) = Some (Fs.File content)) ->
  exists s',
    for_in (map Ok order) (commit follow true directory) s = (Ok tt, s')
    /\ fs s' = fs s
    /\ db s' = index_after order (db s).
Proof.
  induction order as [| [p h] order IH]; intros s Hreg.
  - exists s. auto.
  - destruct (Hreg (p, h) (or_introl eq_refl)) as [content Hfile]. cbn [fst] in Hfile.
    destruct (commit_step follow directory true p h content s Hfile) as (s1 & E & H).
    rewrite (for_in_Ok_cons _ _ _ _ _ _ _ E), index_after_cons.
    assert (H1 : fs s1 = fs s
                 /\ db s1 = match Sqlite.select_by_sha256 h (db s) with
                            | None =>
                                Sqlite.Db (Sqlite.files (db s)
                                           ++ [Sqlite.Row (Sqlite.next_id (db s))
                                                          (OsPath.basename p) p h])
                                          (Sqlite.next_id (db s))
                            | Some _ => db s
                            end).
    { destruct (Sqlite.select_by_sha256 h (db s)) as [[[i path] h'] |] eqn:L.
      - destruct H as [Hdb H]. destruct (String.eqb path p); [now subst |].
        destruct H as (_ & Hfs & _). auto.
      - destruct H as (Hins & Hfs & _). rewrite insert_accepted in Hins by exact L.
        injection Hins as <-. auto. }
    destruct H1 as [Hfs Hdb].
    destruct (IH s1) as (s' & E' & Hfs' & Hdb').
    { intros e He. rewrite Hfs. apply Hreg. now right. }
    exists s'. split; [exact E' |]. split; [congruence |].
    rewrite Hdb', Hdb. now destruct (Sqlite.select_by_sha256 h (db s)).
Qed.

(** In both modes a loop over distinct regular files returns and
    leaves the table [index_after]. *)
Lemma loop_index dry_run order s :
  NoDup (map fst order) ->
  (forall e, In e order ->
     exists content, Fs.node_at directory (fs s) (fst e) = Some (Fs.File content)) ->
  exists s',
    for_in (map Ok order) (commit follow dry_run directory) s = (Ok tt, s')
    /\ db s' = index_after order (db s).
Proof.
  intros ND Hreg.
  destruct (dry_loop_index order s Hreg) as (sd & Ed & _ & Hdb).
  destruct dry_run; [now exists sd |].
  destruct (loop_dry_live follow directory order s s ND) as (sd' & sl & Ed' & El & Hdb' & _);
    try reflexivity.
  { intros e He. destruct (Hreg e He) as [c Hc]. now exists c. }
  exists sl. split; [exact El |]. congruence.
Qed.

End IndexFacts.

(* ------------------------------------------------------------------ *)
(** ** The completion order of a run *)

Section OrderFacts.

Variable follow : string -> string -> option Fs.node.
Variable as_completed :
  list (result (string * string)) -> list (result (string * string)).
Variables (directory : string) (extensions : list string) (t : Fs.node).
Hypothesis Hwf : Fs.wf t.
Hypothesis Hperm : forall l, Permutation (as_completed l) l.

(** The futures of a run on a well-formed tree all hold a value, and
    complete as the enumerated paths with their digests in some order. *)
Lemma completion_order :
  exists file_paths order,
    enumerated follow directory extensions t file_paths order
    /\ as_completed (map (calculate_file_hash follow directory t) file_paths)
       = map Ok order.
Proof.
  destruct (traverse_directory_total follow directory extensions t Hwf) as [file_paths E].
  assert (Hat : forall p, In p file_paths ->
            exists content,
              Fs.node_at directory t p = Some (Fs.File content) /\ content <> []).
  { intros p Hp.
    destruct (traverse_directory_sound follow directory extensions t file_paths p Hwf E Hp)
      as (_ & _ & content & _ & _ & _ & H & Hne & _). now exists content. }
  assert (Hfut : map (calculate_file_hash follow directory t) file_paths
                 = map Ok (map (hashed directory t) file_paths)).
  { rewrite map_map. apply map_ext_in. intros p Hp. destruct (Hat p Hp) as (c & Hc & _).
    rewrite (calculate_file_hash_file follow directory t p c Hc).
    unfold hashed. now rewrite Hc. }
  pose proof (Hperm (map (calculate_file_hash follow directory t) file_paths)) as P.
  rewrite Hfut in P. apply Permutation_map_inv in P.
  destruct P as (order & Eorder & P). rewrite <- Hfut in Eorder.
  assert (Hpaths : Permutation file_paths (map fst order)).
  { apply (Permutation_map fst) in P. rewrite map_map in P.
    erewrite map_ext in P by apply hashed_fst. now rewrite map_id in P. }
  exists file_paths, order. split; [| exact Eorder].
  split; [exact E |]. split; [exact Hpaths |]. split.
  - eapply Permutation_NoDup; [exact Hpaths |].
    eapply traverse_directory_NoDup; eassumption.
  - intros p h Hin. apply (Permutation_in _ (Permutation_sym P)) in Hin.
    apply in_map_iff in Hin. destruct Hin as (p' & Hh & Hp').
    destruct (Hat p' Hp') as (c & Hc & Hne).
    unfold hashed in Hh. rewrite Hc in Hh. injection Hh as <- <-.
    split; [exact Hp' |]. now exists c.
Qed.

Lemma enumerated_regular file_paths order s :
  enumerated follow directory extensions t file_paths order -> fs s = t ->
  forall e, In e order ->
    exists content, Fs.node_at directory (fs s) (fst e) = Some (Fs.File content).
Proof.
  intros (_ & _ & _ & Hreg) -> [p h] Hin.
  destruct (Hreg p h Hin) as (_ & c & Hc & _). now exists c.
Qed.

(** A run as the loop over its completion order. *)
Lemma process_files_loop file_paths order dry_run store :
  enumerated follow directory extensions t file_paths order ->
  as_completed (map (calculate_file_hash follow directory t) file_paths) = map Ok order ->
  exists s',
    for_in (map Ok order) (commit follow dry_run directory)
           (State t (db_connect store) 0 []) = (Ok tt, s')
    /\ db s' = index_after order (db_connect store)
    /\ process_files follow as_completed dry_run directory extensions store t
       = (Ok tt,
          World (fs s') (Some (db s'))
                (stdout s' ++ [if dry_run then TotalPossibleSavings (total_savings s')
                               else Saved (total_savings s')])).
Proof.
  intros Henum Eorder.
  destruct (loop_index follow directory dry_run order (State t (db_connect store) 0 []))
    as (s' & E & Hdb).
  { apply Henum. }
  { now apply (enumerated_regular file_paths). }
  exists s'. split; [exact E |]. split; [exact Hdb |].
  destruct Henum as (Et & _).
  unfold process_files, process_files_amid. rewrite Et. cbv beta zeta.
  rewrite Eorder. unfold and_then. rewrite E. unfold print_total, print.
  now destruct dry_run.
Qed.

End OrderFacts.

(** X2. In both modes a run on a well-formed tree returns, and the
    table it leaves is determined by the order in which the futures
    complete: going through that order, a row is added for every digest
    that has none yet.  So a digest that was new to the table is
    recorded under the path of the file of that digest whose future
    completed first. *)
Theorem first_completed_is_recorded
  (follow : string -> string -> option Fs.node)
  (as_completed : list (result (string * string)) -> list (result (string * string)))
  (dry_run : bool) (directory : string) (extensions : list string)
  (store : option Sqlite.database) (t : Fs.node)
  (Hwf : Fs.wf t)
  (Hperm : forall l, Permutation (as_completed l) l) :
  exists file_paths order w,
    traverse_directory follow directory extensions t = Ok file_paths
    /\ as_completed (map (calculate_file_hash follow directory t) file_paths)
       = map Ok order
    /\ process_files follow as_completed dry_run directory extensions store t = (Ok tt, w)
    /\ database_file w = Some (index_after order (db_connect store))
    /\ forall pre p h post,
         order = pre ++ (p, h) :: post ->
         Sqlite.select_by_sha256 h (db_connect store) = None ->
         (forall q h', In (q, h') pre -> h' <> h) ->
         exists i,
           Sqlite.select_by_sha256 h (index_after order (db_connect store))
           = Some (i, p, h).
Proof.
  destruct (completion_order follow as_completed directory extensions t Hwf Hperm)
    as (file_paths & order & Henum & Eorder).
  destruct (process_files_loop follow as_completed directory extensions t
              file_paths order dry_run store Henum Eorder) as (s' & _ & Hdb & Erun).
  exists file_paths, order. eexists.
  split; [apply Henum |]. split; [exact Eorder |]. split; [exact Erun |].
  cbn [database_file]. split; [now rewrite Hdb |].
  intros pre p h post. apply index_after_first.
Qed.

(** X3. A run never changes or deletes a row: the table it leaves is the
    table it found with rows added at the end, so whatever a digest was
    looked up as before the run it is looked up as afterwards.  And
    after a run that returned, the digest of every enumerated file has a
    row. *)
Theorem run_appends_and_indexes
  (follow : string -> string -> option Fs.node)
  (as_completed : list (result (string * string)) -> list (result (string * string)))
  (dry_run : bool) (directory : string) (extensions : list string)
  (store : option Sqlite.database) (t : Fs.node)
  (Hwf : Fs.wf t)
  (Hperm : forall l, Permutation (as_completed l) l) :
  exists file_paths w d added,
    traverse_directory follow directory extensions t = Ok file_paths
    /\ process_files follow as_completed dry_run directory extensions store t = (Ok tt, w)
    /\ database_file w = Some d
    /\ Sqlite.files d = Sqlite.files (db_connect store) ++ added
    /\ (forall h r,
          Sqlite.select_by_sha256 h (db_connect store) = Some r ->
          Sqlite.select_by_sha256 h d = Some r)
    /\ (forall p content,
          In p file_paths ->
          Fs.node_at directory t p = Some (Fs.File content) ->
          Sqlite.select_by_sha256 (Sha256.hex (Sha256.digest content)) d <> None).
Proof.
  destruct (completion_order follow as_completed directory extensions t Hwf Hperm)
    as (file_paths & order & Henum & Eorder).
  destruct (process_files_loop follow as_completed directory extensions t
              file_paths order dry_run store Henum Eorder) as (s' & _ & Hdb & Erun).
  destruct (index_after_prefix order (db_connect store)) as [added Hadded].
  exists file_paths. eexists. exists (index_after order (db_connect store)), added.
  split; [apply Henum |]. split; [exact Erun |].
  cbn [database_file]. split; [now rewrite Hdb |]. split; [exact Hadded |].
  split; [intros h r; apply index_after_stable |].
  intros p content Hp Hc. destruct Henum as (_ & P & _ & Hreg).
  apply (Permutation_in _ P) in Hp. apply in_map_iff in Hp.
  destruct Hp as ([p' h] & Ep & Hin). cbn [fst] in Ep. subst p'.
  destruct (Hreg p h Hin) as (_ & c & Hc' & _ & ->).
  rewrite Hc in Hc'. injection Hc' as <-.
  now apply (index_after_indexed order _ p).
Qed.

(* ------------------------------------------------------------------ *)
(** ** What a run prints and counts *)

Lemma total_app l1 l2 : total (l1 ++ l2) = total l1 + total l2.
Proof.
  induction l1 as [| x l1 IH]; cbn [app total fold_right]; [reflexivity |].
  fold (total (l1 ++ l2)). fold (total l1). lia.
Qed.

Lemma total_Permutation l1 l2 : Permutation l1 l2 -> total l1 = total l2.
Proof.
  induction 1 as [| x l l' _ IH | x y l | l l' l'' _ IH1 _ IH2];
    cbn [total fold_right]; try reflexivity.
  - fold (total l). fold (total l'). lia.
  - lia.
  - congruence.
Qed.

Section AccountFacts.

Variable follow : string -> string -> option Fs.node.
Variable directory : string.

(** The lines of a live loop, and the lines and the count of the dry
    loop over the same order. *)
Lemma loop_lines : forall order sd sl,
  NoDup (map fst order) ->
  (forall e, In e order ->
     exists content,
       Fs.node_at directory (fs sd) (fst e) = Some (Fs.File content)
       /\ Fs.node_at directory (fs sl) (fst e) = Some (Fs.File content)) ->
  db sd = db sl ->
  exists sd' sl' lines,
    for_in (map Ok order) (commit follow true directory) sd = (Ok tt, sd')
    /\ for_in (map Ok order) (commit follow false directory) sl = (Ok tt, sl')
    /\ stdout sl' = stdout sl ++ lines
    /\ stdout sd' = stdout sd ++ map as_dry lines
    /\ total_savings sl' = total_savings sl + total (map line_savings lines)
    /\ total_savings sd' = total_savings sd + total (map line_savings lines)
    /\ Forall loop_line lines.
Proof.
  induction order as [| [p h] order IH]; intros sd sl ND Hreg Hdb.
  - exists sd, sl, []. cbn [map total fold_right]. rewrite !app_nil_r.
    repeat split; try lia. constructor.
  - cbn [map fst] in ND. inversion ND as [| ? ? Hnot ND']; subst.
    destruct (Hreg (p, h) (or_introl eq_refl)) as (content & Hd & Hl). cbn [fst] in Hd, Hl.
    destruct (commit_step follow directory true p h content sd Hd) as (sd1 & Ed & Hsd).
    destruct (commit_step follow directory false p h content sl Hl) as (sl1 & El & Hsl).
    rewrite (for_in_Ok_cons _ _ _ _ _ _ _ Ed), (for_in_Ok_cons _ _ _ _ _ _ _ El).
    rewrite Hdb in Hsd.
    assert (Hnext : exists lines1,
               db sd1 = db sl1 /\ fs sd1 = fs sd
               /\ (fs sl1 = fs sl \/ same_elsewhere directory (fs sl1) (fs sl) p)
               /\ stdout sl1 = stdout sl ++ lines1
               /\ stdout sd1 = stdout sd ++ map as_dry lines1
               /\ total_savings sl1 = total_savings sl + total (map line_savings lines1)
               /\ total_savings sd1 = total_savings sd + total (map line_savings lines1)
               /\ Forall loop_line lines1).
    { destruct (Sqlite.select_by_sha256 h (db sl)) as [[[i path] h'] |].
      - destruct Hsd as [Hd1 Hsd], Hsl as [Hl1 Hsl].
        destruct (String.eqb path p).
        + subst. exists []. cbn [map total fold_right]. rewrite !app_nil_r.
          repeat split; auto; try lia.
        + destruct Hsd as (Hd2 & Hd3 & Hd4), Hsl as (Hl2 & _ & Hl3 & _ & Hl4).
          exists [Symlinking p path (Z.of_nat (length content))].
          cbn [map as_dry line_savings total fold_right].
          split; [congruence |]. split; [assumption |]. split; [now right |].
          split; [assumption |]. split; [assumption |].
          split; [lia |]. split; [lia |]. repeat constructor.
      - destruct Hsd as (Hd1 & Hd2 & Hd3 & Hd4), Hsl as (Hl1 & Hl2 & Hl3 & Hl4).
        exists [AddedNewFile p h]. cbn [map as_dry line_savings total fold_right].
        split; [congruence |]. split; [assumption |]. split; [now left |].
        split; [assumption |]. split; [assumption |].
        split; [lia |]. split; [lia |]. repeat constructor. }
    destruct Hnext as (lines1 & Hdb1 & Hfd & Hfl & Ho1 & Ho2 & Ht1 & Ht2 & Hshape1).
    destruct (IH sd1 sl1 ND') as (sd' & sl' & lines & E1 & E2 & H1 & H2 & H3 & H4 & H5);
      try assumption.
    + intros [q hq] Hin. destruct (Hreg (q, hq) (or_intror Hin)) as (c & Hqd & Hql).
      cbn [fst] in *. exists c. split; [now rewrite Hfd |].
      destruct Hfl as [-> | Hframe]; [exact Hql |].
      eapply shallow_file; [apply Hframe | exact Hql].
      intros ->. apply Hnot. apply in_map_iff. now exists (p, hq).
    + exists sd', sl', (lines1 ++ lines).
      rewrite !map_app, total_app, !app_assoc, <- Ho1, <- Ho2.
      repeat split; try assumption; try lia. now apply Forall_app.
Qed.

(** What a live loop counts is the size of the files it turned into
    links. *)
Lemma loop_replaced : forall order s s',
  NoDup (map fst order) ->
  (forall e, In e order ->
     exists content, Fs.node_at directory (fs s) (fst e) = Some (Fs.File content)) ->
  for_in (map Ok order) (commit follow false directory) s = (Ok tt, s') ->
  total_savings s'
  = total_savings s
    + total (map (replaced_size directory (fs s) (fs s')) (map fst order)).
Proof.
  induction order as [| [p h] order IH]; intros s s' ND Hreg E.
  - cbn in E. injection E as <-. cbn [map total fold_right]. lia.
  - cbn [map fst] in ND. inversion ND as [| ? ? Hnot ND']; subst.
    destruct (Hreg (p, h) (or_introl eq_refl)) as (content & Hfile). cbn [fst] in Hfile.
    destruct (commit_step follow directory false p h content s Hfile) as (s1 & E1 & Hs1).
    rewrite (for_in_Ok_cons _ _ _ _ _ _ _ E1) in E.
    assert (Hfs : fs s1 = fs s \/
                  (Fs.node_at directory (fs s1) p
                   = Some (Fs.Symlink (match Sqlite.select_by_sha256 h (db s) with
                                       | Some (_, path, _) => path
                                       | None => ""
                                       end))
                   /\ same_elsewhere directory (fs s1) (fs s) p
                   /\ total_savings s1
                      = total_savings s + Z.of_nat (length content))).
    { destruct (Sqlite.select_by_sha256 h (db s)) as [[[i path] h'] |].
      - destruct Hs1 as [_ Hs1]. destruct (String.eqb path p); [subst; now left |].
        destruct Hs1 as (Ht & Hn & Hframe & _). right. auto.
      - destruct Hs1 as (_ & Hf & _). now left. }
    assert (Hts : fs s1 = fs s -> total_savings s1 = total_savings s).
    { intros Heq. destruct (Sqlite.select_by_sha256 h (db s)) as [[[i path] h'] |].
      - destruct Hs1 as [_ Hs1]. destruct (String.eqb path p) eqn:Ep; [now subst |].
        destruct Hs1 as (_ & Hn & _). rewrite Heq, Hfile in Hn. discriminate.
      - now destruct Hs1 as (_ & _ & Ht & _). }
    assert (Hreg1 : forall e, In e order ->
              exists c, Fs.node_at directory (fs s1) (fst e) = Some (Fs.File c)
                        /\ Fs.node_at directory (fs s) (fst e) = Some (Fs.File c)).
    { intros [q hq] Hin. destruct (Hreg (q, hq) (or_intror Hin)) as (c & Hq).
      cbn [fst] in *. exists c. split; [| exact Hq].
      destruct Hfs as [-> | (_ & Hframe & _)]; [exact Hq |].
      eapply shallow_file; [apply Hframe | exact Hq].
      intros ->. apply Hnot. apply in_map_iff. now exists (p, hq). }
    destruct (live_loop follow directory order s1 ND') as (s2 & E2 & L).
    { intros q hq Hin. destruct (Hreg1 (q, hq) Hin) as (c & Hc & _). now exists c. }
    rewrite E in E2. injection E2 as <-.
    rewrite (IH s1 s' ND') by
      (try exact E; intros e Hin; destruct (Hreg1 e Hin) as (c & Hc & _); now exists c).
    assert (Hrest : map (replaced_size directory (fs s1) (fs s')) (map fst order)
                    = map (replaced_size directory (fs s) (fs s')) (map fst order)).
    { apply map_ext_in. intros q Hq. apply in_map_iff in Hq.
      destruct Hq as (e & <- & Hin). destruct (Hreg1 e Hin) as (c & Hc1 & Hc).
      unfold replaced_size. now rewrite Hc1, Hc. }
    rewrite Hrest. cbn [map total fold_right fst].
    fold (total (map (replaced_size directory (fs s) (fs s')) (map fst order))).
    pose proof (live_frame _ _ _ _ L p Hnot) as Hp.
    assert (Hhere : total_savings s1
                    = total_savings s + replaced_size directory (fs s) (fs s') p).
    { unfold replaced_size. rewrite Hfile.
      destruct Hfs as [Heq | (Hlink & _ & Ht)].
      - rewrite Heq in Hp. rewrite (shallow_file _ _ _ Hp Hfile).
        rewrite (Hts Heq). lia.
      - rewrite (shallow_symlink _ _ _ Hp Hlink). lia. }
    lia.
Qed.

End AccountFacts.

(** X4. With the futures completing in the same order, a dry run prints
    what the live run prints, line for line: [can be symlinked] where
    the live run prints [Symlinking], with the same paths and sizes, the
    same [Added new file] lines, and as possible savings the total the
    live run reports as saved.  That total is the sum of the sizes the
    lines before it announce. *)
Theorem dry_run_predicts_live
  (follow : string -> string -> option Fs.node)
  (as_completed : list (result (string * string)) -> list (result (string * string)))
  (directory : string) (extensions : list string)
  (store : option Sqlite.database) (t : Fs.node)
  (Hwf : Fs.wf t)
  (Hperm : forall l, Permutation (as_completed l) l) :
  exists dry live lines n,
    process_files follow as_completed true directory extensions store t = (Ok tt, dry)
    /\ process_files follow as_completed false directory extensions store t = (Ok tt, live)
    /\ output live = lines ++ [Saved n]
    /\ output dry = map as_dry (output live)
    /\ n = total (map line_savings lines)
    /\ Forall loop_line lines.
Proof.
  destruct (completion_order follow as_completed directory extensions t Hwf Hperm)
    as (file_paths & order & Henum & Eorder).
  set (s0 := State t (db_connect store) 0 []).
  destruct (loop_lines follow directory order s0 s0) as
    (sd & sl & lines & Ed & El & Hol & Hod & Htl & Htd & Hshape).
  { apply Henum. }
  { intros e Hin. destruct (enumerated_regular follow directory extensions t
                              file_paths order s0 Henum eq_refl e Hin) as (c & Hc).
    now exists c. }
  { reflexivity. }
  destruct Henum as (Et & _).
  exists (World (fs sd) (Some (db sd)) (stdout sd ++ [TotalPossibleSavings (total_savings sd)])),
         (World (fs sl) (Some (db sl)) (stdout sl ++ [Saved (total_savings sl)])),
         lines, (total_savings sl).
  cbn [output]. cbn [stdout total_savings s0 app] in Hol, Hod, Htl, Htd.
  split.
  { unfold process_files, process_files_amid. rewrite Et. cbv beta zeta.
    rewrite Eorder. unfold and_then. fold s0. rewrite Ed. reflexivity. }
  split.
  { unfold process_files, process_files_amid. rewrite Et. cbv beta zeta.
    rewrite Eorder. unfold and_then. fold s0. rewrite El. reflexivity. }
  split; [now rewrite Hol |]. split.
  { rewrite Hod, Hol, map_app. cbn [map as_dry].
    replace (total_savings sd) with (total_savings sl) by lia. reflexivity. }
  split; [lia | exact Hshape].
Qed.

(* ------------------------------------------------------------------ *)
(** ** What a live run does to the tree *)

Section LiveOrder.

Variable follow : string -> string -> option Fs.node.
Variable as_completed :
  list (result (string * string)) -> list (result (string * string)).
Variables (directory : string) (extensions : list string) (t : Fs.node).

Lemma enumerated_digest file_paths order p :
  enumerated follow directory extensions t file_paths order ->
  In p file_paths ->
  exists content,
    Fs.node_at directory t p = Some (Fs.File content)
    /\ In (p, Sha256.hex (Sha256.digest content)) order.
Proof.
  intros (_ & P & _ & Hreg) Hp.
  apply (Permutation_in _ P) in Hp. apply in_map_iff in Hp.
  destruct Hp as ([p' h] & Ep & Hin). cbn [fst] in Ep. subst p'.
  destruct (Hreg p h Hin) as (_ & c & Hc & _ & ->). now exists c.
Qed.

Lemma enumerated_paths file_paths order q :
  enumerated follow directory extensions t file_paths order ->
  In q (map fst order) <-> In q file_paths.
Proof.
  intros (_ & P & _). split; intros H.
  - now apply (Permutation_in _ (Permutation_sym P)).
  - now apply (Permutation_in _ P).
Qed.

(** A live run as the loop over its completion order, with what the
    loop makes of the tree and the table and what it counts. *)
Lemma live_of_order file_paths order store :
  enumerated follow directory extensions t file_paths order ->
  as_completed (map (calculate_file_hash follow directory t) file_paths) = map Ok order ->
  exists s1,
    live directory order (State t (db_connect store) 0 []) s1
    /\ db s1 = index_after order (db_connect store)
    /\ total_savings s1 = total (map (replaced_size directory t (fs s1)) file_paths)
    /\ process_files follow as_completed false directory extensions store t
       = (Ok tt, World (fs s1) (Some (db s1)) (stdout s1 ++ [Saved (total_savings s1)])).
Proof.
  intros Henum Eorder.
  destruct (process_files_loop follow as_completed directory extensions t
              file_paths order false store Henum Eorder) as (s1 & E & Hdb & Erun).
  set (s0 := State t (db_connect store) 0 []) in *.
  pose proof (enumerated_regular follow directory extensions t file_paths order s0
                Henum eq_refl) as Hreg.
  assert (ND : NoDup (map fst order)) by apply Henum.
  destruct (live_loop follow directory order s0 ND) as (s2 & E2 & L).
  { intros p h Hin. exact (Hreg (p, h) Hin). }
  rewrite E in E2. injection E2 as <-.
  exists s1. split; [exact L |]. split; [exact Hdb |]. split; [| exact Erun].
  rewrite (loop_replaced follow directory order s0 s1 ND Hreg E).
  cbn [total_savings fs s0]. rewrite Z.add_0_l.
  apply total_Permutation, Permutation_map, Permutation_sym, Henum.
Qed.

(** The dry run and the live run of one completion order, side by
    side. *)
Lemma dry_of_order file_paths order store :
  enumerated follow directory extensions t file_paths order ->
  as_completed (map (calculate_file_hash follow directory t) file_paths) = map Ok order ->
  exists lines left table n,
    process_files follow as_completed false directory extensions store t
    = (Ok tt, World left (Some table) (lines ++ [Saved n]))
    /\ process_files follow as_completed true directory extensions store t
       = (Ok tt, World t (Some table) (map as_dry lines ++ [TotalPossibleSavings n]))
    /\ n = total (map line_savings lines)
    /\ Forall loop_line lines.
Proof.
  intros Henum Eorder.
  set (s0 := State t (db_connect store) 0 []).
  destruct (loop_lines follow directory order s0 s0) as
    (sd & sl & lines & Ed & El & Hol & Hod & Htl & Htd & Hshape).
  { apply Henum. }
  { intros e Hin. destruct (enumerated_regular follow directory extensions t
                              file_paths order s0 Henum eq_refl e Hin) as (c & Hc).
    now exists c. }
  { reflexivity. }
  destruct (loop_dry_live follow directory order s0 s0) as
    (sd' & sl' & Ed' & El' & Hdb & _ & Hfs).
  { apply Henum. }
  { intros e Hin. destruct (enumerated_regular follow directory extensions t
                              file_paths order s0 Henum eq_refl e Hin) as (c & Hc).
    now exists c. }
  { reflexivity. }
  { reflexivity. }
  rewrite Ed in Ed'. injection Ed' as <-. rewrite El in El'. injection El' as <-.
  cbn [stdout total_savings fs s0 app] in Hol, Hod, Htl, Htd, Hfs.
  destruct Henum as (Et & _).
  exists lines, (fs sl), (db sl), (total_savings sl).
  split.
  { unfold process_files, process_files_amid. rewrite Et. cbv beta zeta.
    rewrite Eorder. unfold and_then. fold s0. rewrite El.
    unfold print_total, print. cbn [fs db stdout total_savings].
    now rewrite Hol. }
  split.
  { unfold process_files, process_files_amid. rewrite Et. cbv beta zeta.
    rewrite Eorder. unfold and_then. fold s0. rewrite Ed.
    unfold print_total, print. cbn [fs db stdout total_savings tree].
    rewrite Hfs, Hdb, Hod. replace (total_savings sd) with (total_savings sl) by lia.
    reflexivity. }
  split; [lia | exact Hshape].
Qed.

End LiveOrder.

(** X5. The total a live run reports as saved is the sum of the sizes
    of the enumerated files that the run turned into symbolic links:
    every other enumerated file counts as zero. *)
Theorem saved_is_bytes_replaced
  (follow : string -> string -> option Fs.node)
  (as_completed : list (result (string * string)) -> list (result (string * string)))
  (directory : string) (extensions : list string)
  (store : option Sqlite.database) (t : Fs.node)
  (Hwf : Fs.wf t)
  (Hperm : forall l, Permutation (as_completed l) l) :
  exists file_paths w lines,
    traverse_directory follow directory extensions t = Ok file_paths
    /\ process_files follow as_completed false directory extensions store t = (Ok tt, w)
    /\ output w
       = lines ++ [Saved (total (map (replaced_size directory t (tree w)) file_paths))]
    /\ Forall loop_line lines.
Proof.
  destruct (completion_order follow as_completed directory extensions t Hwf Hperm)
    as (file_paths & order & Henum & Eorder).
  destruct (live_of_order follow as_completed directory extensions t file_paths order
              store Henum Eorder) as (s1 & _ & _ & Hts & Erun).
  set (s0 := State t (db_connect store) 0 []).
  destruct (loop_lines follow directory order s0 s0) as
    (sd & sl & lines & _ & El & Hol & _ & _ & _ & Hshape).
  { apply Henum. }
  { intros e Hin. destruct (enumerated_regular follow directory extensions t
                              file_paths order s0 Henum eq_refl e Hin) as (c & Hc).
    now exists c. }
  { reflexivity. }
  destruct (process_files_loop follow as_completed directory extensions t
              file_paths order false store Henum Eorder) as (s2 & E2 & _ & Erun2).
  fold s0 in E2. rewrite El in E2. injection E2 as <-.
  rewrite Erun in Erun2. injection Erun2 as Hfs Hdb Hout.
  exists file_paths. eexists. exists lines.
  split; [apply Henum |]. split; [exact Erun |]. cbn [output tree].
  split; [| exact Hshape].
  rewrite <- Hts. apply app_inj_tail in Hout. destruct Hout as [-> _].
  now rewrite Hol.
Qed.

(** The names that lead to something in a well-formed tree are names
    an entry can have. *)
Lemma resolve_valid : forall cs n m,
  Fs.wf n -> Fs.resolve n cs = Some m -> Forall (fun c => Fs.valid_name c = true) cs.
Proof.
  induction cs as [| c cs IH]; intros n m W R; [constructor |].
  destruct n as [| | sz es]; try discriminate. cbn [Fs.resolve] in R.
  unfold Fs.lookup_name in R.
  destruct (find (fun e => String.eqb (fst e) c) es) as [[c' child] |] eqn:F;
    [| discriminate].
  apply find_some in F. destruct F as [Hin Ec]. cbn [fst] in Ec.
  apply String.eqb_eq in Ec. subst c'. cbn [option_map snd] in R.
  inversion W as [| | ? ? _ V Hchildren]; subst.
  constructor.
  - rewrite Forall_forall in V. exact (V _ Hin).
  - exact (IH child m (Hchildren c child Hin) R).
Qed.

(** X6. A live run changes the tree at the entries of enumerated files
    only, and never rewrites a file: every other entry of the tree, by
    the names that lead to it from the scanned directory, is afterwards
    the file, the link or the directory of the same size that it was;
    an enumerated file is either left as it was, when the table records
    its digest under its own path, or replaced by a symbolic link made
    with the path the table records for its digest as its target.  That
    path was in the table before the run, or it is an enumerated file
    whose bytes have the same digest.  The tree stays well-formed. *)
Theorem live_run_replaces_duplicates_only
  (follow : string -> string -> option Fs.node)
  (as_completed : list (result (string * string)) -> list (result (string * string)))
  (directory : string) (extensions : list string)
  (store : option Sqlite.database) (t : Fs.node)
  (Hwf : Fs.wf t)
  (Hperm : forall l, Permutation (as_completed l) l) :
  exists file_paths w d,
    traverse_directory follow directory extensions t = Ok file_paths
    /\ process_files follow as_completed false directory extensions store t = (Ok tt, w)
    /\ database_file w = Some d
    /\ Fs.wf (tree w)
    /\ (forall cs, cs <> [] ->
          ~ In (Fs.render directory cs) file_paths ->
          option_map Fs.shallow (Fs.resolve (tree w) cs)
          = option_map Fs.shallow (Fs.resolve t cs))
    /\ (forall p, In p file_paths ->
          exists content i target,
            let h := Sha256.hex (Sha256.digest content) in
            Fs.node_at directory t p = Some (Fs.File content)
            /\ Sqlite.select_by_sha256 h d = Some (i, target, h)
            /\ (Sqlite.select_by_sha256 h (db_connect store) = Some (i, target, h)
                \/ (Sqlite.select_by_sha256 h (db_connect store) = None
                    /\ In target file_paths
                    /\ exists content',
                         Fs.node_at directory t target = Some (Fs.File content')
                         /\ Sha256.hex (Sha256.digest content') = h))
            /\ Fs.node_at directory (tree w) p
               = if String.eqb target p then Some (Fs.File content)
                 else Some (Fs.Symlink target)).
Proof.
  destruct (completion_order follow as_completed directory extensions t Hwf Hperm)
    as (file_paths & order & Henum & Eorder).
  destruct (live_of_order follow as_completed directory extensions t file_paths order
              store Henum Eorder) as (s1 & L & _ & _ & Erun).
  exists file_paths. eexists. exists (db s1).
  split; [apply Henum |]. split; [exact Erun |]. cbn [database_file tree].
  split; [reflexivity |].
  assert (W1 : Fs.wf (fs s1)) by exact (live_wf _ _ _ _ L Hwf).
  split; [exact W1 |]. split.
  { intros cs Hne Hq.
    destruct (Forall_dec (fun c => Fs.valid_name c = true)
                (fun c => Bool.bool_dec (Fs.valid_name c) true) cs) as [V | V].
    - rewrite <- (node_at_render directory (fs s1) cs Hne V),
              <- (node_at_render directory t cs Hne V).
      apply (live_frame _ _ _ _ L). intros Hin. apply Hq.
      now apply (enumerated_paths follow directory extensions t file_paths order _ Henum).
    - destruct (Fs.resolve (fs s1) cs) as [m |] eqn:R1;
        [destruct V; exact (resolve_valid cs _ m W1 R1) |].
      destruct (Fs.resolve t cs) as [m |] eqn:R;
        [destruct V; exact (resolve_valid cs _ m Hwf R) | reflexivity]. }
  intros p Hp.
  destruct (enumerated_digest follow directory extensions t file_paths order p Henum Hp)
    as (content & Hc & Hin).
  destruct (live_done _ _ _ _ L p _ Hin) as (i & target & h' & Hs & Hnode).
  destruct (select_some _ _ _ _ _ Hs) as [-> _].
  exists content, i, target. cbv zeta. split; [exact Hc |]. split; [exact Hs |]. split.
  - destruct (live_new _ _ _ _ L _ _ _ _ Hs) as [Hold | [Hnone Hnew]]; [now left |].
    right. split; [exact Hnone |]. cbn [db] in *.
    destruct Henum as (_ & P & _ & Hreg).
    destruct (Hreg _ _ Hnew) as (Hin' & c' & Hc' & _ & Hh).
    split; [exact Hin' |]. exists c'. split; [exact Hc' |]. now symmetry.
  - destruct (String.eqb target p); [| exact Hnode].
    cbn [fs] in Hnode. now rewrite Hnode.
Qed.

(* ------------------------------------------------------------------ *)
(** ** A dry run before the live run *)

Lemma index_after_noop order : forall d,
  (forall p h, In (p, h) order -> Sqlite.select_by_sha256 h d <> None) ->
  index_after order d = d.
Proof.
  induction order as [| [p h] order IH]; intros d H; [reflexivity |].
  rewrite index_after_cons.
  destruct (Sqlite.select_by_sha256 h d) eqn:E.
  - apply IH. intros q hq Hin. apply (H q hq). now right.
  - now destruct (H p h (or_introl eq_refl)).
Qed.

Lemma replaced_size_shallow directory before after1 after2 p :
  option_map Fs.shallow (Fs.node_at directory after1 p)
  = option_map Fs.shallow (Fs.node_at directory after2 p) ->
  replaced_size directory before after1 p = replaced_size directory before after2 p.
Proof.
  unfold replaced_size. intros H.
  destruct (Fs.node_at directory after1 p) as [[| |] |],
           (Fs.node_at directory after2 p) as [[| |] |];
    cbn in H; try discriminate; reflexivity.
Qed.

Section AfterIndex.

Variable follow : string -> string -> option Fs.node.
Variables as_completed as_completed' :
  list (result (string * string)) -> list (result (string * string)).
Variables (directory : string) (extensions : list string).
Variables (store : option Sqlite.database) (t : Fs.node).

(** The live run on the table that a run of the order [order] left,
    next to the live run of that order itself. *)
Lemma live_after_index file_paths order order' :
  enumerated follow directory extensions t file_paths order ->
  enumerated follow directory extensions t file_paths order' ->
  as_completed (map (calculate_file_hash follow directory t) file_paths) = map Ok order ->
  as_completed' (map (calculate_file_hash follow directory t) file_paths) = map Ok order' ->
  exists s1 s2,
    process_files follow as_completed false directory extensions store t
    = (Ok tt, World (fs s1) (Some (db s1)) (stdout s1 ++ [Saved (total_savings s1)]))
    /\ process_files follow as_completed' false directory extensions
                     (Some (index_after order (db_connect store))) t
       = (Ok tt, World (fs s2) (Some (db s2)) (stdout s2 ++ [Saved (total_savings s2)]))
    /\ db s1 = index_after order (db_connect store)
    /\ db s2 = db s1
    /\ (forall q,
          option_map Fs.shallow (Fs.node_at directory (fs s2) q)
          = option_map Fs.shallow (Fs.node_at directory (fs s1) q))
    /\ total_savings s2 = total_savings s1.
Proof.
  intros Henum Henum' Eorder Eorder'.
  destruct (live_of_order follow as_completed directory extensions t file_paths order
              store Henum Eorder) as (s1 & L1 & Hdb1 & Hts1 & Erun1).
  destruct (live_of_order follow as_completed' directory extensions t file_paths order'
              (Some (index_after order (db_connect store))) Henum' Eorder')
    as (s2 & L2 & Hdb2 & Hts2 & Erun2).
  cbn [db_connect Sqlite.create_table_if_not_exists] in L2, Hdb2.
  assert (Hsame : db s2 = db s1).
  { rewrite Hdb2, Hdb1. apply index_after_noop.
    intros p h Hin.
    assert (Hp : In p file_paths).
    { apply (enumerated_paths follow directory extensions t file_paths order' p Henum').
      apply in_map_iff. now exists (p, h). }
    destruct (enumerated_digest follow directory extensions t file_paths order p Henum Hp)
      as (c & Hc & Hin1).
    destruct Henum' as (_ & _ & _ & Hreg').
    destruct (Hreg' p h Hin) as (_ & c' & Hc' & _ & ->).
    rewrite Hc in Hc'. injection Hc' as <-.
    now apply (index_after_indexed order _ p). }
  assert (Htree : forall q,
            option_map Fs.shallow (Fs.node_at directory (fs s2) q)
            = option_map Fs.shallow (Fs.node_at directory (fs s1) q)).
  { intros q. destruct (in_dec string_dec q file_paths) as [Hq | Hq].
    - destruct (enumerated_digest follow directory extensions t file_paths order q
                  Henum Hq) as (c & Hc & Hin1).
      destruct (enumerated_digest follow directory extensions t file_paths order' q
                  Henum' Hq) as (c' & Hc' & Hin2).
      rewrite Hc in Hc'. injection Hc' as <-.
      destruct (live_done _ _ _ _ L1 q _ Hin1) as (i1 & path1 & h1 & Hs1 & Hn1).
      destruct (live_done _ _ _ _ L2 q _ Hin2) as (i2 & path2 & h2 & Hs2 & Hn2).
      rewrite Hsame, Hs1 in Hs2. injection Hs2 as <- <- <-.
      cbn [fs] in Hn1, Hn2.
      destruct (String.eqb path1 q); now rewrite Hn1, Hn2.
    - rewrite (live_frame _ _ _ _ L2 q), (live_frame _ _ _ _ L1 q); [reflexivity | |].
      + intros H. apply Hq.
        now apply (enumerated_paths follow directory extensions t file_paths order q Henum).
      + intros H. apply Hq.
        now apply (enumerated_paths follow directory extensions t file_paths order' q Henum'). }
  exists s1, s2. split; [exact Erun1 |]. split; [exact Erun2 |].
  split; [exact Hdb1 |]. split; [exact Hsame |]. split; [exact Htree |].
  rewrite Hts1, Hts2. f_equal. apply map_ext. intros q.
  apply replaced_size_shallow, Htree.
Qed.

End AfterIndex.

(** X7. A dry run followed by a live run leaves what the live run alone
    would have left had its futures completed in the order of the dry
    run's: the same table, at every path the same file, link or
    directory, and the same total saved.  The dry run settles which
    path every digest is recorded under, and the live run that follows
    links to these paths whatever the order its own futures complete
    in, without adding a row. *)
Theorem dry_then_live
  (follow : string -> string -> option Fs.node)
  (as_completed as_completed' :
     list (result (string * string)) -> list (result (string * string)))
  (directory : string) (extensions : list string)
  (store : option Sqlite.database) (t : Fs.node)
  (Hwf : Fs.wf t)
  (Hperm : forall l, Permutation (as_completed l) l)
  (Hperm' : forall l, Permutation (as_completed' l) l) :
  exists dry after alone lines lines' n,
    process_files follow as_completed true directory extensions store t = (Ok tt, dry)
    /\ tree dry = t
    /\ process_files follow as_completed' false directory extensions
                     (database_file dry) (tree dry) = (Ok tt, after)
    /\ process_files follow as_completed false directory extensions store t
       = (Ok tt, alone)
    /\ database_file after = database_file dry
    /\ database_file after = database_file alone
    /\ (forall q,
          option_map Fs.shallow (Fs.node_at directory (tree after) q)
          = option_map Fs.shallow (Fs.node_at directory (tree alone) q))
    /\ output alone = lines ++ [Saved n]
    /\ output after = lines' ++ [Saved n].
Proof.
  destruct (completion_order follow as_completed directory extensions t Hwf Hperm)
    as (file_paths & order & Henum & Eorder).
  destruct (completion_order follow as_completed' directory extensions t Hwf Hperm')
    as (file_paths' & order' & Henum' & Eorder').
  assert (file_paths' = file_paths) as ->.
  { destruct Henum as (E & _), Henum' as (E' & _). congruence. }
  destruct (process_files_loop follow as_completed directory extensions t
              file_paths order true store Henum Eorder) as (sd & Ed & Hdbd & Erund).
  destruct (dry_loop_index follow directory order (State t (db_connect store) 0 []))
    as (sd' & Ed' & Hfsd & _).
  { now apply (enumerated_regular follow directory extensions t file_paths). }
  rewrite Ed in Ed'. injection Ed' as <-. cbn [fs] in Hfsd.
  destruct (live_after_index follow as_completed as_completed' directory extensions
              store t file_paths order order' Henum Henum' Eorder Eorder')
    as (s1 & s2 & Erun1 & Erun2 & Hdb1 & Hsame & Htree & Hts).
  do 3 eexists. exists (stdout s1), (stdout s2), (total_savings s1).
  split; [exact Erund |]. cbn [tree database_file].
  split; [exact Hfsd |]. rewrite Hfsd, Hdbd.
  split; [exact Erun2 |]. split; [exact Erun1 |]. cbn [tree database_file output].
  split; [now rewrite Hsame, Hdb1 |].
  split; [now rewrite Hsame |]. split; [exact Htree |].
  split; [reflexivity | now rewrite Hts].
Qed.

(** X16. A dry run can be repeated: a second dry run on the table the
    first one left (whatever the order its futures complete in) adds no
    row, leaves the tree as it is and reports the same total of
    possible savings as the first. *)
Theorem dry_run_repeats
  (follow : string -> string -> option Fs.node)
  (as_completed as_completed' :
     list (result (string * string)) -> list (result (string * string)))
  (directory : string) (extensions : list string)
  (store : option Sqlite.database) (t : Fs.node)
  (Hwf : Fs.wf t)
  (Hperm : forall l, Permutation (as_completed l) l)
  (Hperm' : forall l, Permutation (as_completed' l) l) :
  exists first second lines lines' n,
    process_files follow as_completed true directory extensions store t = (Ok tt, first)
    /\ process_files follow as_completed' true directory extensions
                     (database_file first) (tree first) = (Ok tt, second)
    /\ tree second = t
    /\ database_file second = database_file first
    /\ output first = lines ++ [TotalPossibleSavings n]
    /\ output second = lines' ++ [TotalPossibleSavings n].
Proof.
  destruct (completion_order follow as_completed directory extensions t Hwf Hperm)
    as (file_paths & order & Henum & Eorder).
  destruct (completion_order follow as_completed' directory extensions t Hwf Hperm')
    as (file_paths' & order' & Henum' & Eorder').
  assert (file_paths' = file_paths) as ->.
  { destruct Henum as (E & _), Henum' as (E' & _). congruence. }
  destruct (live_after_index follow as_completed as_completed' directory extensions
              store t file_paths order order' Henum Henum' Eorder Eorder')
    as (s1 & s2 & Erun1 & Erun2 & Hdb1 & Hsame & _ & Hts).
  destruct (dry_of_order follow as_completed directory extensions t file_paths order
              store Henum Eorder) as (lines & left & table & n & El & Ed & _).
  destruct (dry_of_order follow as_completed' directory extensions t file_paths order'
              (Some (index_after order (db_connect store))) Henum' Eorder')
    as (lines' & left' & table' & n' & El' & Ed' & _).
  rewrite Erun1 in El. injection El as _ Etable Eout.
  rewrite Erun2 in El'. injection El' as _ Etable' Eout'.
  apply app_inj_tail in Eout. destruct Eout as [_ En].
  apply app_inj_tail in Eout'. destruct Eout' as [_ En'].
  injection En as En. injection En' as En'.
  do 2 eexists. exists (map as_dry lines), (map as_dry lines'), n.
  split; [exact Ed |]. cbn [tree database_file output].
  rewrite <- Etable, Hdb1.
  split; [exact Ed' |]. cbn [tree database_file output].
  split; [reflexivity |]. split; [now rewrite <- Etable', Hsame, Hdb1 |].
  split; [reflexivity |]. do 3 f_equal. lia.
Qed.

(* ------------------------------------------------------------------ *)
(** ** A worker that fails *)

Section FailureFacts.

Variable follow : string -> string -> option Fs.node.
Variables (dry_run : bool) (directory : string).

(** An iteration prints at most one line, and never a total. *)
Lemma commit_prints future s :
  exists lines,
    stdout (snd (commit follow dry_run directory future s)) = stdout s ++ lines
    /\ Forall (fun l => total_line l = false) lines.
Proof.
  destruct future as [[p h] | e].
  - rewrite commit_unfold.
    destruct (Sqlite.select_by_sha256 h (db s)) as [[[i path] h'] |].
    + destruct (String.eqb path p);
        [exists []; cbn [snd]; rewrite app_nil_r; split; constructor |].
      destruct (Fs.getsize follow directory (fs s) p) as [n | e];
        [| exists []; cbn [snd]; rewrite app_nil_r; split; constructor].
      destruct dry_run.
      * exists [CanBeSymlinked p path n]. split; [reflexivity | repeat constructor].
      * exists [Symlinking p path n]. split; [| repeat constructor].
        cbv zeta. destruct (Fs.remove directory (fs s) p) as [t1 | e]; [| reflexivity].
        destruct (Fs.symlink directory t1 path p); reflexivity.
    + destruct (Sqlite.insert (OsPath.basename p) p h (db s)) as [d | e].
      * exists [AddedNewFile p h]. split; [reflexivity | repeat constructor].
      * exists []. cbn [snd]. rewrite app_nil_r. split; constructor.
  - exists []. rewrite commit_raise. cbn [snd]. rewrite app_nil_r. split; constructor.
Qed.

Lemma loop_prints l s :
  Forall (fun l => total_line l = false) (stdout s) ->
  Forall (fun l => total_line l = false)
         (stdout (snd (for_in l (commit follow dry_run directory) s))).
Proof.
  intros H.
  apply (for_in_invariant (fun s => Forall (fun l => total_line l = false) (stdout s)));
    [| exact H].
  intros x s1 _ H1. destruct (commit_prints x s1) as (lines & -> & Hl).
  now apply Forall_app.
Qed.

(** A loop over futures of which one holds an exception raises. *)
Lemma loop_raises e : forall l s,
  In (Raise e) l ->
  exists e' s', for_in l (commit follow dry_run directory) s = (Raise e', s').
Proof.
  induction l as [| x l IH]; intros s Hin; [destruct Hin |].
  rewrite for_in_cons.
  destruct (commit follow dry_run directory x s) as [[u | e1] s1] eqn:E.
  - destruct Hin as [-> | Hin]; [rewrite commit_raise in E; discriminate |].
    now apply IH.
  - now exists e1, s1.
Qed.

End FailureFacts.

(** X8. When the worker of one enumerated file raises, because the file
    changed after the enumeration, the run ends with an exception
    whatever the order the futures complete in and whatever the other
    workers return: it does not return, and it prints no total. *)
Theorem failed_worker_ends_run
  (follow : string -> string -> option Fs.node)
  (as_completed : list (result (string * string)) -> list (result (string * string)))
  (after_scan after_hash : Fs.node -> Fs.node)
  (dry_run : bool) (directory : string) (extensions : list string)
  (store : option Sqlite.database) (t : Fs.node)
  (file_paths : list string) (p : string) (e : exn)
  (Hperm : forall l, Permutation (as_completed l) l)
  (Htraverse : traverse_directory follow directory extensions t = Ok file_paths)
  (Hp : In p file_paths)
  (Hfail : calculate_file_hash follow directory (after_scan t) p = Raise e) :
  exists e' w,
    process_files_amid follow as_completed after_scan after_hash
                       dry_run directory extensions store t = (Raise e', w)
    /\ Forall (fun l => total_line l = false) (output w).
Proof.
  set (futures := map (calculate_file_hash follow directory (after_scan t)) file_paths).
  set (s0 := State (after_hash (after_scan t)) (db_connect store) 0 []).
  assert (Hin : In (Raise e) (as_completed futures)).
  { apply (Permutation_in _ (Permutation_sym (Hperm futures))).
    rewrite <- Hfail. now apply in_map. }
  destruct (loop_raises follow dry_run directory e _ s0 Hin) as (e' & s' & E).
  pose proof (loop_prints follow dry_run directory (as_completed futures) s0
                (Forall_nil _)) as Hout.
  rewrite E in Hout. cbn [snd] in Hout.
  exists e', (World (fs s') (Some (db s')) (stdout s')).
  split; [| exact Hout].
  unfold process_files_amid. rewrite Htraverse. cbv beta zeta.
  fold futures. fold s0. unfold and_then. rewrite E. reflexivity.
Qed.

(* ------------------------------------------------------------------ *)
(** ** What the enumeration yields *)

(** X9. On a well-formed tree the enumeration yields exactly the
    regular files below the directory that are not empty and whose name
    has a requested extension, each once; what the symbolic links of the
    tree resolve to changes nothing about it, since links to files are
    skipped and links to directories are not entered.  For the empty
    path it yields nothing. *)
Theorem scanner_exact
  (follow follow' : string -> string -> option Fs.node)
  (directory : string) (extensions : list string) (t : Fs.node)
  (Hwf : Fs.wf t) :
  exists file_paths,
    traverse_directory follow directory extensions t = Ok file_paths
    /\ traverse_directory follow' directory extensions t = Ok file_paths
    /\ NoDup file_paths
    /\ (directory = "" -> file_paths = [])
    /\ (directory <> "" ->
        forall p,
          In p file_paths
          <-> exists ds name content,
                p = Fs.render directory (ds ++ [name])
                /\ Fs.resolve t (ds ++ [name]) = Some (Fs.File content)
                /\ content <> []
                /\ In (snd (OsPath.splitext name)) extensions).
Proof.
  destruct (String.eqb_spec directory "") as [-> | Hdir].
  - exists []. rewrite !traverse_directory_empty.
    split; [reflexivity |]. split; [reflexivity |]. split; [constructor |].
    split; [reflexivity | now intros []].
  - exists (map (Fs.render directory) (candidates extensions t)).
    rewrite !(traverse_directory_candidates _ directory extensions t Hwf Hdir).
    split; [reflexivity |]. split; [reflexivity |].
    split; [now apply candidate_paths_NoDup |].
    split; [intros E; now destruct Hdir |].
    intros _ p. split.
    + intros Hin. apply in_map_iff in Hin. destruct Hin as (cs & <- & Hcs).
      destruct (candidates_sound extensions t Hwf cs Hcs)
        as (_ & ds & name & content & -> & R & Hne & Hm).
      exists ds, name, content. repeat split; try assumption. now apply mem_In.
    + intros (ds & name & content & -> & R & Hne & Hm).
      apply in_map. apply (candidates_complete extensions ds t name content R Hne).
      now apply mem_In.
Qed.

(* ------------------------------------------------------------------ *)
(** ** The rows a run adds *)

Section BasenameFacts.

Lemma drop_past y : forall a r, Py.drop (S (String.length y)) (y ++ String a r) = r.
Proof. induction y as [| b y IH]; intros a r; cbn; [reflexivity | apply IH]. Qed.

Lemma basename_after_sep y name :
  Py.contains OsPath.sep name = false ->
  OsPath.basename (y ++ String OsPath.sep name) = name.
Proof.
  intros H. unfold OsPath.basename, Py.rfind, Py.slice_from.
  rewrite (rfind_from_last OsPath.sep y name 0 (-1) H).
  replace (Z.to_nat (0 + Py.len y + 1)) with (S (String.length y))
    by (unfold Py.len; lia).
  apply drop_past.
Qed.

Lemma basename_without_sep name :
  Py.contains OsPath.sep name = false -> OsPath.basename name = name.
Proof.
  intros H. unfold OsPath.basename, Py.rfind, Py.slice_from.
  now rewrite (rfind_from_absent OsPath.sep name 0 (-1) H).
Qed.

Lemma endswith_inv c : forall s,
  Py.endswith s c = true -> exists y, s = (y ++ String c "")%string.
Proof.
  induction s as [| a s IH]; [discriminate |].
  destruct s as [| b s].
  - cbn. intros H. apply Ascii.eqb_eq in H. subst. now exists "".
  - intros H. change (Py.endswith (String b s) c = true) in H.
    destruct (IH H) as [y Hy]. exists (String a y). cbn. now rewrite <- Hy.
Qed.

Lemma concat_snoc name : forall ds,
  ds <> [] ->
  String.concat "/" (ds ++ [name])
  = (String.concat "/" ds ++ String OsPath.sep name)%string.
Proof.
  induction ds as [| c ds IH]; intros H; [now destruct H |].
  destruct ds as [| c' ds]; [reflexivity |].
  change ((c :: c' :: ds) ++ [name]) with (c :: (c' :: ds) ++ [name]).
  change ((c' :: ds) ++ [name]) with (c' :: ds ++ [name]) at 1.
  rewrite !concat_cons.
  change (c' :: ds ++ [name]) with ((c' :: ds) ++ [name]).
  rewrite IH by discriminate.
  now rewrite <- !sapp_assoc.
Qed.

(** [os.path.basename] of a path of the walk is the name of the entry. *)
Lemma basename_render directory ds name :
  Fs.valid_name name = true ->
  OsPath.basename (Fs.render directory (ds ++ [name])) = name.
Proof.
  intros V. destruct (valid_name_inv name V) as [_ Hsep]. unfold Fs.render.
  destruct ds as [| c ds].
  - cbn [app String.concat]. unfold Fs.dir_prefix.
    destruct (String.eqb_spec directory "") as [-> | Hd]; cbn [orb].
    + now apply basename_without_sep.
    + destruct (Py.endswith directory OsPath.sep) eqn:E.
      * destruct (endswith_inv _ _ E) as [y ->]. rewrite sapp_assoc.
        now apply basename_after_sep.
      * rewrite sapp_assoc. now apply basename_after_sep.
  - rewrite concat_snoc by discriminate. rewrite <- sapp_assoc.
    now apply basename_after_sep.
Qed.

Lemma index_after_rows order : forall d r,
  In r (Sqlite.files (index_after order d)) ->
  In r (Sqlite.files d)
  \/ exists p h,
       In (p, h) order
       /\ Sqlite.filename r = OsPath.basename p
       /\ Sqlite.path r = p /\ Sqlite.sha256 r = h.
Proof.
  induction order as [| [p h] order IH]; intros d r Hin; [now left |].
  rewrite index_after_cons in Hin.
  destruct (Sqlite.select_by_sha256 h d).
  - destruct (IH d r Hin) as [H | (q & hq & Hq & H)]; [now left |].
    right. exists q, hq. split; [now right | exact H].
  - destruct (IH _ r Hin) as [H | (q & hq & Hq & H)].
    + cbn [Sqlite.files] in H. apply in_app_or in H.
      destruct H as [H | [<- | []]]; [now left |].
      right. exists p, h. split; [now left | now cbn].
    + right. exists q, hq. split; [now right | exact H].
Qed.

End BasenameFacts.

(** X10. In both modes, every row a run adds to the table describes an
    enumerated file as the run found it: its path is the path of the
    file, its filename the name of the file in its directory, and its
    digest the SHA-256 of the bytes the file held. *)
Theorem added_rows_describe_files
  (follow : string -> string -> option Fs.node)
  (as_completed : list (result (string * string)) -> list (result (string * string)))
  (dry_run : bool) (directory : string) (extensions : list string)
  (store : option Sqlite.database) (t : Fs.node)
  (Hwf : Fs.wf t)
  (Hperm : forall l, Permutation (as_completed l) l) :
  exists file_paths w d,
    traverse_directory follow directory extensions t = Ok file_paths
    /\ process_files follow as_completed dry_run directory extensions store t = (Ok tt, w)
    /\ database_file w = Some d
    /\ forall r, In r (Sqlite.files d) ->
         In r (Sqlite.files (db_connect store))
         \/ (In (Sqlite.path r) file_paths
             /\ exists ds name content,
                  Sqlite.path r = Fs.render directory (ds ++ [name])
                  /\ Sqlite.filename r = name
                  /\ Fs.resolve t (ds ++ [name]) = Some (Fs.File content)
                  /\ Sqlite.sha256 r = Sha256.hex (Sha256.digest content)).
Proof.
  destruct (completion_order follow as_completed directory extensions t Hwf Hperm)
    as (file_paths & order & Henum & Eorder).
  destruct (process_files_loop follow as_completed directory extensions t
              file_paths order dry_run store Henum Eorder) as (s' & _ & Hdb & Erun).
  exists file_paths. eexists. exists (db s').
  split; [apply Henum |]. split; [exact Erun |]. split; [reflexivity |].
  intros r Hr. rewrite Hdb in Hr.
  destruct (index_after_rows order _ r Hr) as [H | (p & h & Hin & Hname & Hpath & Hsha)];
    [now left |].
  right. destruct Henum as (E & _ & _ & Hreg).
  destruct (Hreg p h Hin) as (Hp & c & Hc & _ & Hh).
  rewrite Hpath. split; [exact Hp |].
  destruct (traverse_directory_sound follow directory extensions t file_paths p Hwf E Hp)
    as (ds & name & content & Ep & V & R & Hat & _).
  rewrite Hc in Hat. injection Hat as <-.
  exists ds, name, c. split; [exact Ep |]. split.
  - rewrite Hname, Ep. apply basename_render.
    apply Forall_app in V. destruct V as [_ V]. now inversion V.
  - split; [exact R |]. congruence.
Qed.

(* ------------------------------------------------------------------ *)
(** ** The shape of an extension *)

Section ShapeFacts.

Lemma take_drop : forall n s, (Py.take n s ++ Py.drop n s)%string = s.
Proof.
  induction n as [| n IH]; intros [| a s]; cbn; try reflexivity.
  now rewrite IH.
Qed.

(** Where [rfind] finds the character nothing but other characters
    follow it. *)
Lemma rfind_from_cases c : forall s i acc,
  (Py.contains c s = false /\ Py.rfind_from c s i acc = acc)
  \/ exists y r,
       s = (y ++ String c r)%string
       /\ Py.contains c r = false
       /\ Py.rfind_from c s i acc = i + Py.len y.
Proof.
  induction s as [| a s IH]; intros i acc; [now left |].
  cbn [Py.rfind_from Py.contains].
  destruct (IH (i + 1) (if Ascii.eqb a c then i else acc))
    as [[Hno E] | (y & r & -> & Hno & E)].
  - destruct (Ascii.eqb a c) eqn:Ea.
    + right. apply Ascii.eqb_eq in Ea. subst a. exists "", s.
      split; [reflexivity |]. split; [exact Hno |]. rewrite E. unfold Py.len. cbn. lia.
    + left. now rewrite Hno.
  - right. exists (String a y), r. split; [reflexivity |]. split; [exact Hno |].
    rewrite E. unfold Py.len. cbn [String.length]. lia.
Qed.

Lemma sapp_prefix : forall y' y a b,
  (y ++ a)%string = (y' ++ b)%string ->
  (String.length y' <= String.length y)%nat ->
  exists z, y = (y' ++ z)%string /\ b = (z ++ a)%string.
Proof.
  induction y' as [| c y' IH]; intros y a b E L.
  - exists y. now cbn in *.
  - destruct y as [| d y]; [cbn in L; lia |].
    cbn in E. injection E as -> E. cbn in L.
    destruct (IH y a b E ltac:(lia)) as (z & -> & ->). now exists z.
Qed.

Lemma skip_leading_dots_parts : forall n p f d,
  OsPath.skip_leading_dots n p f d = (p, "")
  \/ OsPath.skip_leading_dots n p f d = (Py.slice_to p d, Py.slice_from p d).
Proof.
  induction n as [| n IH]; intros p f d; cbn [OsPath.skip_leading_dots]; [now left |].
  destruct (f <? d); [| now left].
  destruct (negb (Py.char_is p f OsPath.extsep)); [now right | apply IH].
Qed.

Lemma splitext_parts p :
  OsPath.splitext p = (p, "")
  \/ (Py.rfind OsPath.sep p < Py.rfind OsPath.extsep p
      /\ OsPath.splitext p
         = (Py.slice_to p (Py.rfind OsPath.extsep p),
            Py.slice_from p (Py.rfind OsPath.extsep p))).
Proof.
  unfold OsPath.splitext. cbv zeta.
  destruct (Py.rfind OsPath.extsep p >? Py.rfind OsPath.sep p) eqn:E; [| now left].
  destruct (skip_leading_dots_parts
              (Z.to_nat (Py.rfind OsPath.extsep p - (Py.rfind OsPath.sep p + 1)))
              p (Py.rfind OsPath.sep p + 1) (Py.rfind OsPath.extsep p)) as [H | H].
  - now left.
  - right. split; [lia | exact H].
Qed.

Lemma rfind_lower c s : -1 <= Py.rfind c s.
Proof.
  unfold Py.rfind.
  destruct (rfind_from_cases c s 0 (-1)) as [[_ ->] | (y & r & _ & _ & ->)];
    unfold Py.len; lia.
Qed.

(** The extension [os.path.splitext] returns is empty or of the shape
    of a suffix. *)
Lemma splitext_suffix_shaped p : suffix_shaped (snd (OsPath.splitext p)) = true.
Proof.
  destruct (splitext_parts p) as [-> | [Hlt ->]]; cbn [fst snd]; [reflexivity |].
  pose proof (rfind_lower OsPath.sep p) as Hlow.
  unfold Py.rfind in *.
  destruct (rfind_from_cases OsPath.extsep p 0 (-1))
    as [[_ Ed] | (y & r & Ep & Hdot & Ed)]; [lia |].
  rewrite Ed. unfold Py.slice_from, Py.len.
  replace (Z.to_nat (0 + Z.of_nat (String.length y))) with (String.length y) by lia.
  rewrite Ep at 1. rewrite drop_app. cbn [suffix_shaped].
  rewrite Ascii.eqb_refl, Hdot. cbn [andb negb].
  destruct (rfind_from_cases OsPath.sep p 0 (-1))
    as [[Hno _] | (y' & r' & Ep' & Hsep & Es)].
  - rewrite Ep, contains_app in Hno. cbn [Py.contains] in Hno.
    apply Bool.orb_false_iff in Hno. destruct Hno as [_ Hno].
    apply Bool.orb_false_iff in Hno. destruct Hno as [_ Hno]. now rewrite Hno.
  - rewrite Es, Ed in Hlt. unfold Py.len in Hlt.
    assert (E : (y ++ String OsPath.extsep r)%string
                = ((y' ++ String OsPath.sep "") ++ r')%string).
    { rewrite sapp_assoc. cbn [String.append]. congruence. }
    apply sapp_prefix in E; [| rewrite sapp_length; cbn [String.length]; lia].
    destruct E as (z & _ & ->).
    rewrite contains_app in Hsep. cbn [Py.contains] in Hsep.
    apply Bool.orb_false_iff in Hsep. destruct Hsep as [_ Hsep].
    apply Bool.orb_false_iff in Hsep. destruct Hsep as [_ Hsep]. now rewrite Hsep.
Qed.

Lemma skip_leading_dots_stops : forall n p f d,
  snd (OsPath.skip_leading_dots n p f d) <> "" ->
  exists k, f <= k < d /\ Py.char_is p k OsPath.extsep = false.
Proof.
  induction n as [| n IH]; intros p f d H; cbn [OsPath.skip_leading_dots] in H;
    [now destruct H |].
  destruct (f <? d) eqn:Hlt; [| now destruct H].
  destruct (Py.char_is p f OsPath.extsep) eqn:Hc; cbn [negb] in H.
  - destruct (IH p (f + 1) d H) as (k & Hk & Hck). exists k. split; [lia | exact Hck].
  - exists f. split; [lia | exact Hc].
Qed.

Lemma get_app_l : forall k y r,
  (k < String.length y)%nat -> String.get k (y ++ r) = String.get k y.
Proof.
  induction k as [| k IH]; intros [| a y] r H; cbn in H; try lia; cbn; [reflexivity |].
  apply IH. lia.
Qed.

Lemma has_nondot_drop : forall j k y a,
  (j <= k)%nat -> String.get k y = Some a -> Ascii.eqb a OsPath.extsep = false ->
  has_nondot (Py.drop j y) = true.
Proof.
  induction j as [| j IH]; intros k y a Hj Hg Ha.
  - replace (Py.drop 0 y) with y by now destruct y.
    revert k Hj Hg. induction y as [| b y IHy]; intros k _ Hg; [now destruct k |].
    destruct k as [| k]; cbn in Hg.
    + injection Hg as ->. cbn [has_nondot]. now rewrite Ha.
    + cbn [has_nondot]. rewrite (IHy k); [apply Bool.orb_true_r | lia | exact Hg].
  - destruct k as [| k]; [lia |]. destruct y as [| b y]; [discriminate |].
    cbn in Hg |- *. apply (IH k y a); [lia | exact Hg | exact Ha].
Qed.

(** An extension is split off only behind a character of the name that
    is not a dot. *)
Lemma splitext_root_nondot p :
  snd (OsPath.splitext p) <> "" ->
  has_nondot (OsPath.basename (fst (OsPath.splitext p))) = true.
Proof.
  intros Hext.
  assert (Hk : Py.rfind OsPath.sep p < Py.rfind OsPath.extsep p
               /\ OsPath.splitext p
                  = (Py.slice_to p (Py.rfind OsPath.extsep p),
                     Py.slice_from p (Py.rfind OsPath.extsep p))
               /\ exists k, Py.rfind OsPath.sep p + 1 <= k < Py.rfind OsPath.extsep p
                            /\ Py.char_is p k OsPath.extsep = false).
  { destruct (splitext_parts p) as [E | [Hlt E]]; [rewrite E in Hext; now destruct Hext |].
    split; [exact Hlt |]. split; [exact E |].
    unfold OsPath.splitext in Hext. cbv zeta in Hext.
    destruct (Py.rfind OsPath.extsep p >? Py.rfind OsPath.sep p); [| now destruct Hext].
    exact (skip_leading_dots_stops _ _ _ _ Hext). }
  destruct Hk as (Hlt & -> & k & Hk & Hc). cbn [fst].
  pose proof (rfind_lower OsPath.sep p) as Hlow.
  unfold Py.rfind in *.
  destruct (rfind_from_cases OsPath.extsep p 0 (-1))
    as [[_ Ed] | (y & r & Ep & Hdot & Ed)]; [lia |].
  rewrite Ed in *. unfold Py.slice_to, Py.len in *.
  replace (Z.to_nat (0 + Z.of_nat (String.length y))) with (String.length y) by lia.
  rewrite Ep at 1. rewrite take_app.
  assert (Hget : exists a, String.get (Z.to_nat k) y = Some a
                           /\ Ascii.eqb a OsPath.extsep = false).
  { unfold Py.char_is in Hc. rewrite Ep, get_app_l in Hc by lia.
    destruct (String.get (Z.to_nat k) y) as [a |] eqn:G; [now exists a |].
    assert (Hlen : (Z.to_nat k < String.length y)%nat) by lia.
    clear - G Hlen. exfalso. revert G Hlen. generalize (Z.to_nat k) as n.
    induction y as [| b y IH]; intros n G Hlen; cbn in Hlen; [lia |].
    destruct n as [| n]; [discriminate |]. cbn in G. apply (IH n G). lia. }
  destruct Hget as (a & Hget & Ha).
  unfold OsPath.basename, Py.rfind, Py.slice_from.
  assert (Hsep : Py.rfind_from OsPath.sep y 0 (-1) = Py.rfind_from OsPath.sep p 0 (-1)).
  { destruct (rfind_from_cases OsPath.sep p 0 (-1))
      as [[Hno ->] | (y' & r' & Ep' & Hsep & Es)].
    - rewrite Ep, contains_app in Hno. apply Bool.orb_false_iff in Hno.
      destruct Hno as [Hno _]. now apply rfind_from_absent.
    - rewrite Es in *. unfold Py.len in *.
      assert (E : (y ++ String OsPath.extsep r)%string
                  = ((y' ++ String OsPath.sep "") ++ r')%string).
      { rewrite sapp_assoc. cbn [String.append]. congruence. }
      apply sapp_prefix in E; [| rewrite sapp_length; cbn [String.length]; lia].
      destruct E as (z & -> & ->).
      rewrite contains_app in Hsep. apply Bool.orb_false_iff in Hsep.
      destruct Hsep as [Hz _].
      rewrite sapp_assoc. cbn [String.append].
      rewrite (rfind_from_last OsPath.sep y' z 0 (-1) Hz). reflexivity. }
  rewrite Hsep.
  apply (has_nondot_drop _ (Z.to_nat k) y a); [lia | exact Hget | exact Ha].
Qed.

Lemma splitext_joins p :
  (fst (OsPath.splitext p) ++ snd (OsPath.splitext p))%string = p.
Proof.
  destruct (splitext_parts p) as [-> | [_ ->]]; cbn [fst snd];
    [apply sapp_nil_r | apply take_drop].
Qed.

End ShapeFacts.

(** X11. [os.path.splitext] splits: the root and the extension put
    together are the path again.  The extension is empty, or it is a
    dot followed by characters of which none is a dot or a slash; and
    whenever it is not empty the root holds a character that is not a
    dot in the name after the last slash. *)
Theorem splitext_shape (p : string) :
  (fst (OsPath.splitext p) ++ snd (OsPath.splitext p))%string = p
  /\ suffix_shaped (snd (OsPath.splitext p)) = true
  /\ (snd (OsPath.splitext p) <> "" ->
      has_nondot (OsPath.basename (fst (OsPath.splitext p))) = true).
Proof.
  split; [apply splitext_joins |]. split; [apply splitext_suffix_shaped |].
  apply splitext_root_nondot.
Qed.

(** X12. A request can only match by strings of the shape of an
    extension.  When no requested string has it (a suffix without its
    dot, a double suffix such as [.tar.gz], several suffixes joined by
    commas after a first one), the enumeration of a well-formed tree
    yields nothing, and the run leaves the tree and the table as they
    are and reports a total of zero. *)
Theorem unmatchable_extensions
  (follow : string -> string -> option Fs.node)
  (as_completed : list (result (string * string)) -> list (result (string * string)))
  (dry_run : bool) (directory : string) (extensions : list string)
  (store : option Sqlite.database) (t : Fs.node)
  (Hwf : Fs.wf t)
  (Hperm : forall l, Permutation (as_completed l) l)
  (Hshape : forall e, In e extensions -> suffix_shaped e = false) :
  traverse_directory follow directory extensions t = Ok []
  /\ process_files follow as_completed dry_run directory extensions store t
     = (Ok tt,
        World t (Some (db_connect store))
              [if dry_run then TotalPossibleSavings 0 else Saved 0]).
Proof.
  assert (E : traverse_directory follow directory extensions t = Ok []).
  { destruct (traverse_directory_total follow directory extensions t Hwf)
      as [file_paths E].
    destruct file_paths as [| p file_paths]; [exact E |].
    destruct (traverse_directory_sound follow directory extensions t _ p Hwf E
                (or_introl eq_refl)) as (_ & name & _ & _ & _ & _ & _ & _ & Hm).
    apply mem_In in Hm. apply Hshape in Hm.
    pose proof (splitext_suffix_shaped name) as Hs. congruence. }
  split; [exact E |].
  unfold process_files, process_files_amid. rewrite E. cbv beta zeta. cbn [map].
  rewrite (Permutation_nil (Permutation_sym (Hperm []))).
  now destruct dry_run.
Qed.

(* ------------------------------------------------------------------ *)
(** ** The command line *)

(** X13. Whatever number of threads is given on the command line, it
    reaches the pool as a string, and the constructor of the pool raises
    [TypeError]: with a directory and extensions, [main] ends with that
    exception after the enumeration, before the database is opened,
    with nothing printed, and the tree and every database file as they
    were. *)
Theorem threads_given_ends_main
  (follow : string -> string -> option Fs.node)
  (as_completed : list (result (string * string)) -> list (result (string * string)))
  (args : namespace) (d : disk) (t : Fs.node) (dir given : string)
  (Hwf : Fs.wf t)
  (Hdir : arg_dir args = Some dir)
  (Hgiven : dir <> "")
  (Hext : arg_extensions args <> [])
  (Hthreads : arg_threads args = threads_option (Some given)) :
  ended (main follow as_completed args d t) = Some TypeError
  /\ help_printed (main follow as_completed args d t) = false
  /\ tree_left (main follow as_completed args d t) = t
  /\ (forall p, disk_left (main follow as_completed args d t) p = d p)
  /\ printed (main follow as_completed args d t) = [].
Proof.
  unfold main. rewrite Hdir.
  destruct dir as [| a dir']; [now destruct Hgiven |].
  destruct (arg_extensions args) as [| e extensions] eqn:Ee; [now destruct Hext |].
  unfold process_files_pooled.
  destruct (traverse_directory_total follow (String a dir') (e :: extensions) t Hwf)
    as [file_paths ->].
  rewrite Hthreads. cbn [threads_option thread_pool_executor].
  cbn [ended help_printed tree_left disk_left printed tree database_file output].
  repeat split. intros p. unfold write_file.
  destruct (String.eqb_spec p (arg_db_path args)) as [-> | _]; reflexivity.
Qed.

(** X14. Without [-t], with a directory and extensions, [main] on a
    well-formed tree returns: it leaves what [process_files] leaves for
    the parsed arguments, prints no usage text, writes the table to the
    database file at [args.db_path] and touches no other database
    file.  Without a directory, or with the empty string for it, it
    prints the usage text and does nothing else. *)
Theorem main_runs_process_files
  (follow : string -> string -> option Fs.node)
  (as_completed : list (result (string * string)) -> list (result (string * string)))
  (args : namespace) (d : disk) (t : Fs.node)
  (Hwf : Fs.wf t)
  (Hperm : forall l, Permutation (as_completed l) l)
  (Hext : arg_extensions args <> [])
  (Hthreads : arg_threads args = threads_option None) :
  match arg_dir args with
  | None | Some EmptyString =>
      main follow as_completed args d t = Outcome None true t d []
  | Some dir =>
      exists w table,
        process_files follow as_completed (arg_dry_run args) dir (arg_extensions args)
                      (d (arg_db_path args)) t = (Ok tt, w)
        /\ database_file w = Some table
        /\ main follow as_completed args d t
           = Outcome None false (tree w)
                     (write_file d (arg_db_path args) (Some table)) (output w)
        /\ disk_left (main follow as_completed args d t) (arg_db_path args) = Some table
        /\ forall p, p <> arg_db_path args ->
             disk_left (main follow as_completed args d t) p = d p
  end.
Proof.
  unfold main.
  destruct (arg_dir args) as [[| a dir'] |]; try reflexivity.
  destruct (arg_extensions args) as [| e extensions] eqn:Ee; [now destruct Hext |].
  destruct (completion_order follow as_completed (String a dir') (e :: extensions) t
              Hwf Hperm) as (file_paths & order & Henum & Eorder).
  destruct (process_files_loop follow as_completed (String a dir') (e :: extensions) t
              file_paths order (arg_dry_run args) (d (arg_db_path args)) Henum Eorder)
    as (s' & _ & _ & Erun).
  destruct Henum as (E & _).
  unfold process_files_pooled. rewrite E, Hthreads.
  cbn [threads_option thread_pool_executor Z.leb Z.compare]. rewrite Erun.
  do 2 eexists. split; [reflexivity |].
  cbn [tree database_file output disk_left].
  split; [reflexivity |]. split; [reflexivity |]. unfold write_file. split.
  - now rewrite String.eqb_refl.
  - intros p Hp. destruct (String.eqb_spec p (arg_db_path args)); [contradiction | reflexivity].
Qed.

(* ------------------------------------------------------------------ *)
(** ** A tree without duplicates *)

Section FreshFacts.

Variable follow : string -> string -> option Fs.node.
Variables (directory : string) (dry_run : bool).

(** A loop over digests that are all different and all new to the
    table only adds rows. *)
Lemma loop_all_new : forall order s,
  NoDup (map snd order) ->
  (forall p h, In (p, h) order -> Sqlite.select_by_sha256 h (db s) = None) ->
  for_in (map Ok order) (commit follow dry_run directory) s
  = (Ok tt,
     State (fs s) (index_after order (db s)) (total_savings s)
           (stdout s ++ map (fun e => AddedNewFile (fst e) (snd e)) order)).
Proof.
  induction order as [| [p h] order IH]; intros s ND Hnew.
  - cbn. rewrite app_nil_r. now destruct s.
  - cbn [map snd] in ND. inversion ND as [| ? ? Hnot ND']; subst.
    cbn [map]. rewrite for_in_cons, commit_unfold, index_after_cons.
    rewrite (Hnew p h (or_introl eq_refl)).
    rewrite (insert_accepted (OsPath.basename p) p h (db s) (Hnew p h (or_introl eq_refl))).
    rewrite IH; cbn [fs db total_savings stdout fst snd].
    + now rewrite <- app_assoc.
    + exact ND'.
    + intros q hq Hin.
      rewrite (select_after_insert (OsPath.basename p) p h (db s) _ hq
                 (insert_accepted _ _ _ _ (Hnew p h (or_introl eq_refl)))).
      rewrite (Hnew q hq (or_intror Hin)).
      destruct (String.eqb_spec h hq) as [-> | _]; [| reflexivity].
      destruct Hnot. apply in_map_iff. now exists (q, hq).
Qed.

End FreshFacts.

Lemma NoDup_snd {A B} (l : list (A * B)) :
  NoDup (map fst l) ->
  (forall a1 a2 b, In (a1, b) l -> In (a2, b) l -> a1 = a2) ->
  NoDup (map snd l).
Proof.
  induction l as [| [a b] l IH]; intros ND H; [constructor |].
  cbn [map fst snd] in *. inversion ND as [| ? ? Hnot ND']; subst.
  constructor.
  - intros Hin. apply in_map_iff in Hin. destruct Hin as ([a' b'] & Eb & Hin).
    cbn [snd] in Eb. subst b'.
    assert (a = a') by (apply (H a a' b); [now left | now right]). subst a'.
    apply Hnot. apply in_map_iff. now exists (a, b).
  - apply IH; [exact ND' |]. intros a1 a2 b0 H1 H2. apply (H a1 a2 b0); now right.
Qed.

(** X15. When no two enumerated files have the same digest and the
    table holds none of their digests, a run in either mode leaves the
    tree exactly as it was: it adds one row for every enumerated file,
    prints one [Added new file] line for each in the order the futures
    complete, and reports a total of zero. *)
Theorem no_duplicates_nothing_replaced
  (follow : string -> string -> option Fs.node)
  (as_completed : list (result (string * string)) -> list (result (string * string)))
  (dry_run : bool) (directory : string) (extensions : list string)
  (store : option Sqlite.database) (t : Fs.node) (file_paths : list string)
  (Hwf : Fs.wf t)
  (Hperm : forall l, Permutation (as_completed l) l)
  (Htraverse : traverse_directory follow directory extensions t = Ok file_paths)
  (Hdistinct : forall p q content content',
     In p file_paths -> In q file_paths ->
     Fs.node_at directory t p = Some (Fs.File content) ->
     Fs.node_at directory t q = Some (Fs.File content') ->
     Sha256.hex (Sha256.digest content) = Sha256.hex (Sha256.digest content') ->
     p = q)
  (Hfresh : forall p content,
     In p file_paths ->
     Fs.node_at directory t p = Some (Fs.File content) ->
     Sqlite.select_by_sha256 (Sha256.hex (Sha256.digest content)) (db_connect store)
     = None) :
  exists order added w d,
    as_completed (map (calculate_file_hash follow directory t) file_paths) = map Ok order
    /\ Permutation file_paths (map fst order)
    /\ process_files follow as_completed dry_run directory extensions store t = (Ok tt, w)
    /\ tree w = t
    /\ database_file w = Some d
    /\ Sqlite.files d = Sqlite.files (db_connect store) ++ added
    /\ map (fun r => (Sqlite.path r, Sqlite.sha256 r)) added = order
    /\ output w
       = map (fun e => AddedNewFile (fst e) (snd e)) order
         ++ [if dry_run then TotalPossibleSavings 0 else Saved 0].
Proof.
  destruct (completion_order follow as_completed directory extensions t Hwf Hperm)
    as (file_paths' & order & Henum & Eorder).
  assert (file_paths' = file_paths) as -> by (destruct Henum as (E & _); congruence).
  destruct (process_files_loop follow as_completed directory extensions t
              file_paths order dry_run store Henum Eorder) as (s' & E & _ & Erun).
  destruct Henum as (_ & P & ND & Hreg).
  assert (Hnew : forall p h, In (p, h) order ->
                   Sqlite.select_by_sha256 h (db_connect store) = None).
  { intros p h Hin. destruct (Hreg p h Hin) as (Hp & c & Hc & _ & ->).
    now apply (Hfresh p). }
  assert (ND' : NoDup (map snd order)).
  { apply NoDup_snd; [exact ND |]. intros p q h Hp Hq.
    destruct (Hreg p h Hp) as (Hp' & c & Hc & _ & Eh).
    destruct (Hreg q h Hq) as (Hq' & c' & Hc' & _ & Eh').
    apply (Hdistinct p q c c'); congruence. }
  rewrite (loop_all_new follow directory dry_run order
             (State t (db_connect store) 0 []) ND' Hnew) in E.
  injection E as <-. cbn [fs db total_savings stdout app] in Erun.
  assert (Hadded : forall order d,
            NoDup (map snd order) ->
            (forall p h, In (p, h) order -> Sqlite.select_by_sha256 h d = None) ->
            exists added,
              Sqlite.files (index_after order d) = Sqlite.files d ++ added
              /\ map (fun r => (Sqlite.path r, Sqlite.sha256 r)) added = order).
  { clear. induction order as [| [p h] order IH]; intros d ND Hnew.
    - exists []. now rewrite app_nil_r.
    - cbn [map snd] in ND. inversion ND as [| ? ? Hnot ND']; subst.
      rewrite index_after_cons, (Hnew p h (or_introl eq_refl)).
      destruct (IH (Sqlite.Db (Sqlite.files d
                               ++ [Sqlite.Row (Sqlite.next_id d) (OsPath.basename p) p h])
                              (Sqlite.next_id d)) ND') as (added & Ea & Em).
      + intros q hq Hin.
        rewrite (select_after_insert (OsPath.basename p) p h d _ hq
                   (insert_accepted _ _ _ _ (Hnew p h (or_introl eq_refl)))).
        rewrite (Hnew q hq (or_intror Hin)).
        destruct (String.eqb_spec h hq) as [-> | _]; [| reflexivity].
        destruct Hnot. apply in_map_iff. now exists (q, hq).
      + exists (Sqlite.Row (Sqlite.next_id d) (OsPath.basename p) p h :: added).
        rewrite Ea. cbn [Sqlite.files map Sqlite.path Sqlite.sha256].
        rewrite <- app_assoc. split; [reflexivity | now rewrite Em]. }
  destruct (Hadded order (db_connect store) ND' Hnew) as (added & Ea & Em).
  exists order, added. do 2 eexists. split; [exact Eorder |]. split; [exact P |].
  split; [exact Erun |]. cbn [tree database_file output].
  split; [reflexivity |]. split; [reflexivity |]. split; [exact Ea |].
  split; [exact Em | reflexivity].
Qed.

(* ------------------------------------------------------------------ *)
(** ** Instances of the further properties *)

Lemma a_deleted_wf : Fs.wf (Sample.a_deleted Sample.three).
Proof. unfold Sample.a_deleted. wf_tree. Qed.

Lemma save_then_lookup_witness :
  save_hash "models/a.bin" Sample.sha_ab (State Sample.three Sqlite.empty 0 [])
  = (Ok tt, State Sample.three Sample.registered 0 [])
  /\ lookup_hash Sample.sha_ab (State Sample.three Sample.registered 0 [])
     = (Ok (Some (1, "models/a.bin", Sample.sha_ab)),
        State Sample.three Sample.registered 0 [])
  /\ save_hash "models/b.bin" Sample.sha_ab (State Sample.three Sample.registered 0 [])
     = (Raise IntegrityError, State Sample.three Sample.registered 0 []).
Proof.
  split; [reflexivity |].
  destruct (save_then_lookup "models/a.bin" Sample.sha_ab
              (State Sample.three Sqlite.empty 0 [])
              (State Sample.three Sample.registered 0 []) eq_refl)
    as (_ & Hfound & _ & _ & _ & Hagain & _).
  split; [exact Hfound | exact (Hagain "models/b.bin")].
Defined.

Lemma first_completed_is_recorded_witness :
  Fs.wf Sample.three
  /\ (forall l, Permutation (Sample.reversed l) l)
  /\ exists file_paths order w,
       traverse_directory Sample.nofollow "models" [".bin"] Sample.three = Ok file_paths
       /\ Sample.reversed (map (calculate_file_hash Sample.nofollow "models" Sample.three)
                               file_paths) = map Ok order
       /\ process_files Sample.nofollow Sample.reversed true "models" [".bin"] None
                        Sample.three = (Ok tt, w)
       /\ database_file w = Some (index_after order (db_connect None)).
Proof.
  split; [exact three_wf |]. split; [exact reversed_perm |].
  destruct (first_completed_is_recorded Sample.nofollow Sample.reversed true "models"
              [".bin"] None Sample.three three_wf reversed_perm)
    as (file_paths & order & w & E & Eo & Er & Ed & _).
  exists file_paths, order, w. auto.
Defined.

Lemma run_appends_and_indexes_witness :
  Fs.wf Sample.three
  /\ (forall l, Permutation (Sample.in_order l) l)
  /\ exists w d added,
       process_files Sample.nofollow Sample.in_order false "models" [".bin"]
                     (Some Sample.indexed) Sample.three = (Ok tt, w)
       /\ database_file w = Some d
       /\ Sqlite.files d = Sqlite.files Sample.indexed ++ added.
Proof.
  split; [exact three_wf |]. split; [exact in_order_perm |].
  destruct (run_appends_and_indexes Sample.nofollow Sample.in_order false "models"
              [".bin"] (Some Sample.indexed) Sample.three three_wf in_order_perm)
    as (file_paths & w & d & added & _ & Er & Ed & Ea & _).
  exists w, d, added. auto.
Defined.

Lemma dry_run_predicts_live_witness :
  Fs.wf Sample.models
  /\ (forall l, Permutation (Sample.reversed l) l)
  /\ exists dry live,
       process_files Sample.nofollow Sample.reversed true "models" [".bin"] None
                     Sample.models = (Ok tt, dry)
       /\ process_files Sample.nofollow Sample.reversed false "models" [".bin"] None
                        Sample.models = (Ok tt, live)
       /\ output dry = map as_dry (output live).
Proof.
  split; [exact models_wf |]. split; [exact reversed_perm |].
  destruct (dry_run_predicts_live Sample.nofollow Sample.reversed "models" [".bin"] None
              Sample.models models_wf reversed_perm)
    as (dry & live & lines & n & Ed & El & _ & Ho & _).
  exists dry, live. auto.
Defined.

Lemma saved_is_bytes_replaced_witness :
  Fs.wf Sample.models
  /\ (forall l, Permutation (Sample.in_order l) l)
  /\ exists file_paths w lines,
       traverse_directory Sample.nofollow "models" [".bin"] Sample.models = Ok file_paths
       /\ process_files Sample.nofollow Sample.in_order false "models" [".bin"] None
                        Sample.models = (Ok tt, w)
       /\ output w
          = lines ++ [Saved (total (map (replaced_size "models" Sample.models (tree w))
                                        file_paths))].
Proof.
  split; [exact models_wf |]. split; [exact in_order_perm |].
  destruct (saved_is_bytes_replaced Sample.nofollow Sample.in_order "models" [".bin"] None
              Sample.models models_wf in_order_perm)
    as (file_paths & w & lines & E & Er & Ho & _).
  exists file_paths, w, lines. auto.
Defined.

Lemma live_run_replaces_duplicates_only_witness :
  Fs.wf Sample.models
  /\ (forall l, Permutation (Sample.in_order l) l)
  /\ exists file_paths w,
       traverse_directory Sample.nofollow "models" [".bin"] Sample.models = Ok file_paths
       /\ process_files Sample.nofollow Sample.in_order false "models" [".bin"] None
                        Sample.models = (Ok tt, w)
       /\ Fs.wf (tree w)
       /\ forall cs, cs <> [] ->
            ~ In (Fs.render "models" cs) file_paths ->
            option_map Fs.shallow (Fs.resolve (tree w) cs)
            = option_map Fs.shallow (Fs.resolve Sample.models cs).
Proof.
  split; [exact models_wf |]. split; [exact in_order_perm |].
  destruct (live_run_replaces_duplicates_only Sample.nofollow Sample.in_order "models"
              [".bin"] None Sample.models models_wf in_order_perm)
    as (file_paths & w & d & E & Er & _ & W & Hframe & _).
  exists file_paths, w. auto.
Defined.

Lemma dry_then_live_witness :
  Fs.wf Sample.three
  /\ (forall l, Permutation (Sample.reversed l) l)
  /\ (forall l, Permutation (Sample.in_order l) l)
  /\ exists dry after alone,
       process_files Sample.nofollow Sample.reversed true "models" [".bin"] None
                     Sample.three = (Ok tt, dry)
       /\ process_files Sample.nofollow Sample.in_order false "models" [".bin"]
                        (database_file dry) (tree dry) = (Ok tt, after)
       /\ process_files Sample.nofollow Sample.reversed false "models" [".bin"] None
                        Sample.three = (Ok tt, alone)
       /\ database_file after = database_file alone
       /\ forall q,
            option_map Fs.shallow (Fs.node_at "models" (tree after) q)
            = option_map Fs.shallow (Fs.node_at "models" (tree alone) q).
Proof.
  split; [exact three_wf |]. split; [exact reversed_perm |].
  split; [exact in_order_perm |].
  destruct (dry_then_live Sample.nofollow Sample.reversed Sample.in_order "models"
              [".bin"] None Sample.three three_wf reversed_perm in_order_perm)
    as (dry & after & alone & lines & lines' & n & Ed & _ & Ea & El & _ & Hdb & Ht & _).
  exists dry, after, alone. auto.
Defined.

Lemma failed_worker_ends_run_witness :
  (forall l, Permutation (Sample.reversed l) l)
  /\ traverse_directory Sample.nofollow "models" [".bin"] Sample.three
     = Ok ["models/a.bin"; "models/b.bin"; "models/c.bin"]
  /\ calculate_file_hash Sample.nofollow "models" (Sample.a_deleted Sample.three)
                         "models/a.bin" = Raise FileNotFoundError
  /\ exists e' w,
       process_files_amid Sample.nofollow Sample.reversed Sample.a_deleted
                          (fun tree => tree) false "models" [".bin"] None Sample.three
       = (Raise e', w)
       /\ Forall (fun l => total_line l = false) (output w).
Proof.
  split; [exact reversed_perm |]. split; [reflexivity |]. split; [reflexivity |].
  exact (failed_worker_ends_run Sample.nofollow Sample.reversed Sample.a_deleted
           (fun tree => tree) false "models" [".bin"] None Sample.three
           ["models/a.bin"; "models/b.bin"; "models/c.bin"] "models/a.bin"
           FileNotFoundError reversed_perm eq_refl (or_introl eq_refl) eq_refl).
Defined.

Lemma scanner_exact_witness :
  Fs.wf Sample.models
  /\ exists file_paths,
       traverse_directory Sample.nofollow "models" [".bin"] Sample.models = Ok file_paths
       /\ traverse_directory (fun _ _ => Some Sample.models) "models" [".bin"] Sample.models
          = Ok file_paths
       /\ NoDup file_paths.
Proof.
  split; [exact models_wf |].
  destruct (scanner_exact Sample.nofollow (fun _ _ => Some Sample.models) "models"
              [".bin"] Sample.models models_wf) as (file_paths & E & E' & ND & _).
  exists file_paths. auto.
Defined.

Lemma added_rows_describe_files_witness :
  Fs.wf Sample.models
  /\ (forall l, Permutation (Sample.reversed l) l)
  /\ exists file_paths w d,
       traverse_directory Sample.nofollow "models" [".bin"] Sample.models = Ok file_paths
       /\ process_files Sample.nofollow Sample.reversed true "models" [".bin"]
                        (Some Sample.indexed) Sample.models = (Ok tt, w)
       /\ database_file w = Some d.
Proof.
  split; [exact models_wf |]. split; [exact reversed_perm |].
  destruct (added_rows_describe_files Sample.nofollow Sample.reversed true "models"
              [".bin"] (Some Sample.indexed) Sample.models models_wf reversed_perm)
    as (file_paths & w & d & E & Er & Ed & _).
  exists file_paths, w, d. auto.
Defined.

Lemma unmatchable_extensions_witness :
  Fs.wf Sample.models
  /\ (forall l, Permutation (Sample.in_order l) l)
  /\ (forall e, In e ["bin"; ".tar.gz"; ".bin,.pt"] -> suffix_shaped e = false)
  /\ process_files Sample.nofollow Sample.in_order false "models"
                   ["bin"; ".tar.gz"; ".bin,.pt"] None Sample.models
     = (Ok tt, World Sample.models (Some (db_connect None)) [Saved 0]).
Proof.
  assert (H : forall e, In e ["bin"; ".tar.gz"; ".bin,.pt"] -> suffix_shaped e = false).
  { intros e [<- | [<- | [<- | []]]]; reflexivity. }
  split; [exact models_wf |]. split; [exact in_order_perm |]. split; [exact H |].
  exact (proj2 (unmatchable_extensions Sample.nofollow Sample.in_order false "models"
                  ["bin"; ".tar.gz"; ".bin,.pt"] None Sample.models
                  models_wf in_order_perm H)).
Defined.

Lemma threads_given_ends_main_witness :
  Fs.wf Sample.three
  /\ ended (main Sample.nofollow Sample.in_order
                 (Namespace false (Some "models") [".bin"] (threads_option (Some "8"))
                            "./model-data.sqlite3")
                 (fun _ => None) Sample.three)
     = Some TypeError.
Proof.
  split; [exact three_wf |].
  assert (Hdir : "models" <> "") by discriminate.
  assert (Hext : [".bin"] <> []) by discriminate.
  exact (proj1 (threads_given_ends_main Sample.nofollow Sample.in_order
                  (Namespace false (Some "models") [".bin"] (threads_option (Some "8"))
                             "./model-data.sqlite3")
                  (fun _ => None) Sample.three "models" "8"
                  three_wf eq_refl Hdir Hext eq_refl)).
Defined.

Lemma main_runs_process_files_witness :
  Fs.wf Sample.three
  /\ (forall l, Permutation (Sample.in_order l) l)
  /\ exists w table,
       process_files Sample.nofollow Sample.in_order true "models" [".bin"] None
                     Sample.three = (Ok tt, w)
       /\ database_file w = Some table
       /\ disk_left (main Sample.nofollow Sample.in_order
                          (Namespace true (Some "models") [".bin"] (threads_option None)
                                     "./model-data.sqlite3")
                          (fun _ => None) Sample.three)
                    "./model-data.sqlite3" = Some table.
Proof.
  split; [exact three_wf |]. split; [exact in_order_perm |].
  assert (Hext : [".bin"] <> []) by discriminate.
  destruct (main_runs_process_files Sample.nofollow Sample.in_order
              (Namespace true (Some "models") [".bin"] (threads_option None)
                         "./model-data.sqlite3")
              (fun _ => None) Sample.three three_wf in_order_perm Hext eq_refl)
    as (w & table & Er & Ed & _ & Hdisk & _).
  exists w, table. auto.
Defined.

Lemma no_duplicates_nothing_replaced_witness :
  Fs.wf (Sample.a_deleted Sample.three)
  /\ (forall l, Permutation (Sample.reversed l) l)
  /\ traverse_directory Sample.nofollow "models" [".bin"] (Sample.a_deleted Sample.three)
     = Ok ["models/b.bin"; "models/c.bin"]
  /\ exists w,
       process_files Sample.nofollow Sample.reversed false "models" [".bin"] None
                     (Sample.a_deleted Sample.three) = (Ok tt, w)
       /\ tree w = Sample.a_deleted Sample.three.
Proof.
  split; [exact a_deleted_wf |]. split; [exact reversed_perm |]. split; [reflexivity |].
  destruct (no_duplicates_nothing_replaced Sample.nofollow Sample.reversed false "models"
              [".bin"] None (Sample.a_deleted Sample.three)
              ["models/b.bin"; "models/c.bin"] a_deleted_wf reversed_perm eq_refl)
    as (order & added & w & d & _ & _ & Er & Et & _).
  - intros p q content content' [<- | [<- | []]] [<- | [<- | []]] Hc Hc' Hh;
      try reflexivity;
      vm_compute in Hc, Hc'; injection Hc as <-; injection Hc' as <-;
      vm_compute in Hh; discriminate.
  - intros p content _ _. reflexivity.
  - exists w. auto.
Defined.

Lemma dry_run_repeats_witness :
  Fs.wf Sample.models
  /\ (forall l, Permutation (Sample.in_order l) l)
  /\ (forall l, Permutation (Sample.reversed l) l)
  /\ exists first second lines lines' n,
       process_files Sample.nofollow Sample.in_order true "models" [".bin"] None
                     Sample.models = (Ok tt, first)
       /\ process_files Sample.nofollow Sample.reversed true "models" [".bin"]
                        (database_file first) (tree first) = (Ok tt, second)
       /\ database_file second = database_file first
       /\ output first = lines ++ [TotalPossibleSavings n]
       /\ output second = lines' ++ [TotalPossibleSavings n].
Proof.
  split; [exact models_wf |]. split; [exact in_order_perm |].
  split; [exact reversed_perm |].
  destruct (dry_run_repeats Sample.nofollow Sample.in_order Sample.reversed "models"
              [".bin"] None Sample.models models_wf in_order_perm reversed_perm)
    as (first & second & lines & lines' & n & E1 & E2 & _ & Hdb & Ho1 & Ho2).
  exists first, second, lines, lines', n. auto.
Defined.

(* ------------------------------------------------------------------ *)
(** ** The table of a dry run and of a live run *)

Section DigestFacts.

(** A digest has a row after a loop when it had one before or is the
    digest of one of the files. *)
Lemma index_after_none order d h :
  Sqlite.select_by_sha256 h (index_after order d) = None
  <-> Sqlite.select_by_sha256 h d = None /\ ~ In h (map snd order).
Proof.
  split.
  - intros Hnone. split.
    + destruct (Sqlite.select_by_sha256 h d) as [r |] eqn:E; [| reflexivity].
      rewrite (index_after_stable order d h r E) in Hnone. discriminate.
    + intros Hin. apply in_map_iff in Hin. destruct Hin as ([p h0] & Eh & Hin).
      cbn [snd] in Eh. subst h0.
      now apply (index_after_indexed order d p h Hin).
  - intros [Hnone Hnot].
    destruct (Sqlite.select_by_sha256 h (index_after order d)) as [[[i path] h'] |] eqn:E;
      [| reflexivity].
    exfalso. destruct (select_some _ _ _ _ _ E) as [-> [name Hrow]].
    destruct (index_after_rows order d _ Hrow) as [Hold | (q & h0 & Hq & _ & _ & Hsha)].
    + apply select_none_in in Hnone. apply Hnone.
      apply in_map_iff. now exists (Sqlite.Row i name path h).
    + cbn [Sqlite.sha256] in Hsha. subst h0. apply Hnot.
      apply in_map_iff. now exists (q, h).
Qed.

(** The row of a digest that was new to the table carries the path of
    one of the files of the loop. *)
Lemma index_after_new order d h i path h' :
  Sqlite.select_by_sha256 h d = None ->
  Sqlite.select_by_sha256 h (index_after order d) = Some (i, path, h') ->
  h' = h /\ In (path, h) order.
Proof.
  intros Hnone E. destruct (select_some _ _ _ _ _ E) as [-> [name Hrow]].
  split; [reflexivity |].
  destruct (index_after_rows order d _ Hrow) as [Hold | (q & h0 & Hq & _ & Hpath & Hsha)].
  - exfalso. apply select_none_in in Hnone. apply Hnone.
    apply in_map_iff. now exists (Sqlite.Row i name path h).
  - cbn [Sqlite.sha256 Sqlite.path] in Hsha, Hpath. now subst.
Qed.

End DigestFacts.

(** C3 as the code has it.  On every well-formed tree and every
    database file a dry run and a live run both return.  The dry run
    inserts as the live run does: afterwards the digest of every
    enumerated file has a row, and the row of a digest that was new to
    the table carries the path of an enumerated file; the table it
    found is still there, with the new rows behind it.  With the futures
    completing in the same order the two runs leave the same database
    file; with the futures of the live run completing in any other
    order its table holds rows for the same digests.  The dry run leaves
    the tree as it was, and none of its iterations touches it. *)
Theorem dry_run_same_index
  (follow : string -> string -> option Fs.node)
  (as_completed as_completed' :
     list (result (string * string)) -> list (result (string * string)))
  (directory : string) (extensions : list string)
  (store : option Sqlite.database) (t : Fs.node)
  (Hwf : Fs.wf t)
  (Hperm : forall l, Permutation (as_completed l) l)
  (Hperm' : forall l, Permutation (as_completed' l) l) :
  exists file_paths dry live live' d d' added,
    traverse_directory follow directory extensions t = Ok file_paths
    /\ process_files follow as_completed true directory extensions store t = (Ok tt, dry)
    /\ process_files follow as_completed false directory extensions store t = (Ok tt, live)
    /\ process_files follow as_completed' false directory extensions store t
       = (Ok tt, live')
    /\ database_file dry = Some d
    /\ database_file live = Some d
    /\ database_file live' = Some d'
    /\ (forall h, Sqlite.select_by_sha256 h d = None
                  <-> Sqlite.select_by_sha256 h d' = None)
    /\ Sqlite.files d = Sqlite.files (Sqlite.create_table_if_not_exists store) ++ added
    /\ (forall p content,
          In p file_paths ->
          Fs.node_at directory t p = Some (Fs.File content) ->
          let h := Sha256.hex (Sha256.digest content) in
          exists i path,
            Sqlite.select_by_sha256 h d = Some (i, path, h)
            /\ (Sqlite.select_by_sha256 h (Sqlite.create_table_if_not_exists store) = None ->
                In path file_paths
                /\ exists name, In (Sqlite.Row i name path h) added))
    /\ tree dry = t
    /\ forall future s, fs (snd (commit follow true directory future s)) = fs s.
Proof.
  destruct (completion_order follow as_completed directory extensions t Hwf Hperm)
    as (file_paths & order & Henum & Eorder).
  destruct (completion_order follow as_completed' directory extensions t Hwf Hperm')
    as (file_paths' & order' & Henum' & Eorder').
  assert (file_paths' = file_paths) as ->.
  { destruct Henum as (E & _), Henum' as (E' & _). congruence. }
  destruct (process_files_loop follow as_completed directory extensions t
              file_paths order true store Henum Eorder) as (sd & Ed & Hdbd & Erund).
  destruct (process_files_loop follow as_completed directory extensions t
              file_paths order false store Henum Eorder) as (sl & _ & Hdbl & Erunl).
  destruct (process_files_loop follow as_completed' directory extensions t
              file_paths order' false store Henum' Eorder') as (sl' & _ & Hdbl' & Erunl').
  destruct (dry_loop_index follow directory order (State t (db_connect store) 0 []))
    as (sd' & Ed' & Hfsd & _).
  { now apply (enumerated_regular follow directory extensions t file_paths). }
  rewrite Ed in Ed'. injection Ed' as <-. cbn [fs] in Hfsd.
  destruct (index_after_prefix order (db_connect store)) as [added Hadded].
  exists file_paths. do 3 eexists. exists (db sd), (db sl'), added.
  split; [apply Henum |]. split; [exact Erund |]. split; [exact Erunl |].
  split; [exact Erunl' |]. cbn [database_file tree].
  split; [reflexivity |]. split; [now rewrite Hdbl, Hdbd |].
  split; [reflexivity |]. split.
  { intros h. rewrite Hdbd, Hdbl', !index_after_none.
    assert (Hsame : In h (map snd order) <-> In h (map snd order')).
    { assert (Hhalf : forall o o',
                enumerated follow directory extensions t file_paths o ->
                enumerated follow directory extensions t file_paths o' ->
                In h (map snd o) -> In h (map snd o')).
      { intros o o' Ho Ho' Hin. apply in_map_iff in Hin.
        destruct Hin as ([p h0] & Eh & Hin). cbn [snd] in Eh. subst h0.
        destruct Ho as (_ & _ & _ & Hreg). destruct (Hreg p h Hin) as (Hp & c & Hc & _ & ->).
        destruct (enumerated_digest follow directory extensions t file_paths o' p Ho' Hp)
          as (c' & Hc' & Hin'). rewrite Hc in Hc'. injection Hc' as <-.
        apply in_map_iff. now exists (p, Sha256.hex (Sha256.digest c)). }
      split; [apply (Hhalf order order') | apply (Hhalf order' order)]; assumption. }
    now rewrite Hsame. }
  split; [now rewrite Hdbd |]. split.
  { intros p content Hp Hc. set (h := Sha256.hex (Sha256.digest content)).
    destruct (enumerated_digest follow directory extensions t file_paths order p Henum Hp)
      as (c & Hc' & Hin). rewrite Hc in Hc'. injection Hc' as <-. fold h in Hin.
    destruct (Sqlite.select_by_sha256 h (db sd)) as [[[i path] h'] |] eqn:E.
    - destruct (select_some _ _ _ _ _ E) as [-> [name Hrow]].
      exists i, path. split; [reflexivity |]. intros Hnone.
      rewrite Hdbd in E.
      destruct (index_after_new order (db_connect store) h i path h Hnone E) as [_ Hnew].
      destruct Henum as (_ & _ & _ & Hreg). destruct (Hreg path h Hnew) as [Hpath _].
      split; [exact Hpath |]. exists name.
      rewrite Hdbd, Hadded in Hrow. apply in_app_or in Hrow.
      destruct Hrow as [Hold | Hrow]; [| exact Hrow].
      exfalso. apply select_none_in in Hnone. apply Hnone.
      apply in_map_iff. now exists (Sqlite.Row i name path h).
    - exfalso. rewrite Hdbd in E.
      exact (index_after_indexed order (db_connect store) p h Hin E). }
  split; [exact Hfsd | apply commit_dry_fs].
Qed.

(** [dry_run_same_index] on [models], the futures of the dry run
    completing in reverse order. *)
Lemma dry_run_same_index_witness :
  Fs.wf Sample.models
  /\ (forall l, Permutation (Sample.reversed l) l)
  /\ (forall l, Permutation (Sample.in_order l) l)
  /\ exists dry live d,
       process_files Sample.nofollow Sample.reversed true "models" [".bin"] None
                     Sample.models = (Ok tt, dry)
       /\ process_files Sample.nofollow Sample.reversed false "models" [".bin"] None
                        Sample.models = (Ok tt, live)
       /\ database_file dry = Some d
       /\ database_file live = Some d
       /\ Sqlite.select_by_sha256 Sample.sha_c d <> None
       /\ tree dry = Sample.models.
Proof.
  split; [exact models_wf |]. split; [exact reversed_perm |].
  split; [exact in_order_perm |].
  destruct (dry_run_same_index Sample.nofollow Sample.reversed Sample.in_order "models"
              [".bin"] None Sample.models models_wf reversed_perm in_order_perm)
    as (file_paths & dry & live & live' & d & d' & added
        & E & E1 & E2 & _ & Hd & Hl & _ & _ & _ & Hins & Ht & _).
  exists dry, live, d. split; [exact E1 |]. split; [exact E2 |].
  split; [exact Hd |]. split; [exact Hl |]. split; [| exact Ht].
  assert (Hin : In "models/c.bin" file_paths).
  { assert (E' : traverse_directory Sample.nofollow "models" [".bin"] Sample.models
                 = Ok ["models/a.bin"; "models/c.bin"; "models/sub/b.bin"])
      by reflexivity.
    rewrite E in E'. injection E' as ->. cbn. auto. }
  destruct (Hins "models/c.bin" Sample.c Hin eq_refl) as (i & path & Hs & _).
  change (Sha256.hex (Sha256.digest Sample.c)) with Sample.sha_c in Hs.
  rewrite Hs. discriminate.
Defined.

(** Against C3: the two files of [twins] hold the same bytes.  The dry
    run whose futures complete in the order of submission records the
    digest under [a.bin]; the live run on the same tree and the same
    empty table whose futures complete in the reverse order records it
    under [b.bin]. *)
Lemma other_order_other_table :
  (forall l, Permutation (Sample.in_order l) l)
  /\ (forall l, Permutation (Sample.reversed l) l)
  /\ database_file (snd (process_files Sample.nofollow Sample.in_order true "models"
                                       [".bin"] None Sample.twins))
     = Some (Sqlite.Db [Sqlite.Row 1 "a.bin" "models/a.bin" Sample.sha_ab] 1)
  /\ database_file (snd (process_files Sample.nofollow Sample.reversed false "models"
                                       [".bin"] None Sample.twins))
     = Some (Sqlite.Db [Sqlite.Row 1 "b.bin" "models/b.bin" Sample.sha_ab] 1)
  /\ database_file (snd (process_files Sample.nofollow Sample.in_order true "models"
                                       [".bin"] None Sample.twins))
     <> database_file (snd (process_files Sample.nofollow Sample.reversed false "models"
                                          [".bin"] None Sample.twins)).
Proof.
  split; [exact in_order_perm |]. split; [exact reversed_perm |].
  split; [vm_compute; reflexivity |]. split; [vm_compute; reflexivity |].
  vm_compute. discriminate.
Qed.
